(** * dayan_sync: the polling and transfer orchestrators of [download.py]
      and the retry, pool and folder paths of [upload.py]

    The development embeds the methods of [RayvisionDownload] and
    [RayvisionUpload] as functions in a small state, error and event monad.
    The collaborators that live outside the two modules ([manage_task],
    [trans], [run_cmd], the file system) are an interface; every theorem
    holds for all of its implementations. *)

From Stdlib Require Import ZArith Lia.
From stdpp Require Import base option list strings gmap pretty sorting.

(** ** Python values *)

(** Task ids are the integers of the [task_id_list] arguments
    ("list of int" in the docstrings). *)
Definition TaskId := Z.
Bind Scope Z_scope with TaskId.

(** The values that travel through [**kwargs]. *)
Inductive pyval :=
| VNone
| VBool (b : bool)
| VInt (z : Z)
| VStr (s : string).

Global Instance pyval_eq_dec : EqDecision pyval.
Proof. solve_decision. Defined.

(** [bool(v)]. *)
Definition truthy (v : pyval) : bool :=
  match v with
  | VNone => false
  | VBool b => b
  | VInt z => negb (Z.eqb z 0)
  | VStr s => negb (String.eqb s "")
  end.

(** A [str] object, as far as [is] can tell two of them apart: its text,
    and whether it is the interned object of that text.  The string
    literals of a module are interned, so a caller who writes the literal
    passes the very object the code compares with; a [str] built at run
    time is another object, not identical to a literal of the same
    text. *)
Record PyStr := mkStr {
  str_text : string;
  str_interned : bool
}.

Global Instance PyStr_eq_dec : EqDecision PyStr.
Proof. solve_decision. Defined.

(** The object of a string literal. *)
Definition literal (text : string) : PyStr := mkStr text true.

(** A [str] of the same text built at run time. *)
Definition built (text : string) : PyStr := mkStr text false.

(** The exceptions raised in the two modules, with their arguments. *)
Inductive exn :=
| DownloadFailed (msg : string)
| RayvisionError (code : Z) (msg : string)
| UnsupportedDatabaseError (msg : string)
| AssertionError
| PyException (msg : string)
| ValueError (msg : string)
| KeyError (key : string)
| TypeError (msg : string).

Global Instance exn_eq_dec : EqDecision exn.
Proof. solve_decision. Defined.

(** [str(l)] for a list of ints: [[1, 2]]. *)
Fixpoint str_join (sep : string) (l : list string) : string :=
  match l with
  | [] => ""
  | [x] => x
  | x :: l' => x +:+ sep +:+ str_join sep l'
  end.

Definition str_task (t : TaskId) : string := pretty t.

Definition str_task_list (l : list TaskId) : string :=
  "[" +:+ str_join ", " (map str_task l) +:+ "]".

(** ** Transfer commands *)

(** The engine options every method passes through unchanged. *)
Record Engine := {
  engine_type : option string;
  server_ip : option string;
  server_port : option string;
  network_mode : Z
}.

(** Modelled from the spec: [transfer.py] is not among the sources.  Its
    [create_cmd] turns a transfer specification (the parameter list, the
    database ini path, the engine options, the share information) into
    the command line of the transfer executable; a command is represented
    here by the specification it is built from. *)
Record Cmd := {
  cmd_params : list string;
  cmd_db_ini : option string;
  cmd_engine : Engine;
  cmd_share : option (string * string)
}.

Global Instance Engine_eq_dec : EqDecision Engine.
Proof. solve_decision. Defined.
Global Instance Cmd_eq_dec : EqDecision Cmd.
Proof. solve_decision. Defined.

(** The arguments shared by the download methods. *)
Record DlArgs := {
  max_speed : option string;
  print_log : bool;
  download_filename_format : string;
  local_path : option string;
  engine : Engine
}.

(** ** Observable events *)

(** Calls that leave the process, in the order they happen, with what they
    returned.  Logger calls are not recorded. *)
Inductive Event :=
| EvSleep (secs : Z)
| EvIsTaskEnd (t : TaskId) (ended : bool)
| EvGetTaskStatus (ids : list TaskId)
| EvGetSubStatus (codes : list string)
| EvGetRenderType (types : list string)
| EvOutputFileNames (names : list string)
| EvRunCmd (c : Cmd) (kw : list (string * pyval)) (code : Z)
| EvPathExists (p : string) (b : bool)
| EvMakedirs (p : string)
| EvWriteIni (p : string)
| EvPool (size : Z)
| EvSubmit (kw : gmap string pyval)
| EvShutdown.

Global Instance Event_eq_dec : EqDecision Event.
Proof. solve_decision. Defined.

(** ** The collaborators *)

(** [manage.py], [utils.py] and the operating system are not among the
    sources; their operations are the fields of this interface.  [R] is
    the state of everything outside the process: the render farm, the
    transfer engine, the file system.  Each call may change it, so two
    polls in a row need not agree.  The calls themselves do not raise. *)
Class Collaborators (R : Type) := {
  status : Type;
  mt_is_task_end : R → TaskId → bool * R;
  mt_get_task_status : R → list TaskId → list status * R;
  mt_get_sub_status : R → list status → list string * R;
  mt_get_render_type : R → list status → list string * R;
  mt_output_file_names : R → list status → list string * R;
  exec_cmd : R → Cmd → list (string * pyval) → Z * R;
  os_path_exists : R → string → bool * R;
  os_path_basename : string → string;
  os_path_join : string → string → string;
  str2unicode : string → string;
  env_default_path : string;
  get_share_info : string * string;
  db_config_type : string;
  db_ini_dir : string;
  time_temp_of : string → string
}.

(** ** The monad: store, exceptions, events *)

Inductive outcome (A : Type) :=
| Ok (a : A)
| Raise (e : exn)
| Diverge.
Arguments Ok {A} a.
Arguments Raise {A} e.
Arguments Diverge {A}.

(** The store: the state of the collaborators and [tasks], the list object
    the caller passed as [task_id_list].  [download_block] and the two
    [after_task_completed] loops remove from that list in place;
    [_auto_download_tool] works on copies and leaves it alone. *)
Record Store (R : Type) := mkStore {
  remote : R;
  tasks : list TaskId
}.
Arguments mkStore {R} remote tasks.
Arguments remote {R} s.
Arguments tasks {R} s.

Record Result (R A : Type) := mkResult {
  out : outcome A;
  store : Store R;
  events : list Event
}.
Arguments mkResult {R A} out store events.
Arguments out {R A} r.
Arguments store {R A} r.
Arguments events {R A} r.

(** A result is an outcome (a value, an exception, or [Diverge] when a
    [while True] loop was cut off by its fuel), the store it leaves and the
    events it emitted, oldest first. *)
Definition M (R A : Type) := Store R → Result R A.

Definition ret {R A} (a : A) : M R A := λ s, mkResult (Ok a) s [].

Definition bind {R A B} (m : M R A) (f : A → M R B) : M R B := λ s,
  let r := m s in
  match out r with
  | Ok a =>
      let r' := f a (store r) in
      mkResult (out r') (store r') (events r ++ events r')
  | Raise e => mkResult (Raise e) (store r) (events r)
  | Diverge => mkResult Diverge (store r) (events r)
  end.

Definition raise {R A} (e : exn) : M R A := λ s, mkResult (Raise e) s [].

Definition diverge {R A} : M R A := λ s, mkResult Diverge s [].

(** [try: m  except DownloadFailed: h]. *)
Definition try_except_DownloadFailed {R A} (m : M R A) (h : M R A) : M R A :=
  λ s,
  let r := m s in
  match out r with
  | Raise (DownloadFailed _) =>
      let r' := h (store r) in
      mkResult (out r') (store r') (events r ++ events r')
  | _ => r
  end.

Notation "'let!' x := m 'in' k" := (bind m (λ x, k))
  (at level 10, x binder, m at level 100, k at level 200, only parsing).

(** A call to a collaborator: the remote state moves on and the call, with
    its answer, is recorded. *)
Definition call {R A} (f : R → A * R) (ev : A → Event) : M R A := λ s,
  let ar := f (remote s) in
  mkResult (Ok ar.1) (mkStore ar.2 (tasks s)) [ev ar.1].

Definition emit {R} (e : Event) : M R unit := λ s, mkResult (Ok tt) s [e].

Definition get_tasks {R} : M R (list TaskId) := λ s,
  mkResult (Ok (tasks s)) s [].

Definition set_tasks {R} (l : list TaskId) : M R unit := λ s,
  mkResult (Ok tt) (mkStore (remote s) l) [].

(** ** List operations *)

(** [l.remove(x)]: the first occurrence goes; [None] is [ValueError]. *)
Fixpoint list_remove (x : TaskId) (l : list TaskId) : option (list TaskId) :=
  match l with
  | [] => None
  | y :: l' =>
      if decide (x = y) then Some l'
      else match list_remove x l' with
           | Some r => Some (y :: r)
           | None => None
           end
  end.

(** [x in l] for strings. *)
Definition str_in (x : string) (l : list string) : bool := bool_decide (x ∈ l).

(** [sorted(set(l))]. *)
Definition sorted_set (l : list string) : list string :=
  merge_sort String.le (remove_dups l).

(** [len(set(l))]. *)
Definition len_set (l : list string) : nat := length (remove_dups l).

(** [time.sleep(float(secs))]. *)
Definition sleep {R} (secs : Z) : M R unit := emit (EvSleep secs).

Section Model.
Context {R : Type} {C : Collaborators R}.

(** *** [manage_task] and [run_cmd] *)

Definition is_task_end (t : TaskId) : M R bool :=
  call (λ r, mt_is_task_end r t) (EvIsTaskEnd t).

Definition get_task_status (ids : list TaskId) : M R (list status) :=
  call (λ r, mt_get_task_status r ids) (λ _, EvGetTaskStatus ids).

Definition get_sub_status (st : list status) : M R (list string) :=
  call (λ r, mt_get_sub_status r st) EvGetSubStatus.

Definition get_render_type (st : list status) : M R (list string) :=
  call (λ r, mt_get_render_type r st) EvGetRenderType.

Definition output_file_names (st : list status) : M R (list string) :=
  call (λ r, mt_output_file_names r st) EvOutputFileNames.

Definition run_cmd (c : Cmd) (kw : list (string * pyval)) : M R Z :=
  call (λ r, exec_cmd r c kw) (EvRunCmd c kw).

(** Modelled from the spec: [self.trans.create_cmd(cmd_params,
    db_ini_path, engine_type, ...)] of the missing [transfer.py], which
    packs its arguments into a command. *)
Definition trans_create_cmd (params : list string) (db_ini : option string)
    (e : Engine) (share : option (string * string)) : Cmd :=
  {| cmd_params := params; cmd_db_ini := db_ini; cmd_engine := e;
     cmd_share := share |}.

(** [task_id_list.remove(task_id)] on the caller's list. *)
Definition tasks_remove (t : TaskId) : M R unit :=
  let! l := get_tasks in
  match list_remove t l with
  | Some l' => set_tasks l'
  | None => raise (ValueError "list.remove(x): x not in list")
  end.

(** [for task_id in task_id_list: body], over the caller's list, which the
    body may shorten: the iterator holds an index, reads [task_id_list[i]]
    and stops when [i] is past the end.  One unit of fuel per iteration;
    [for_tasks] below supplies enough. *)
Fixpoint for_tasks_from (fuel : nat) (body : TaskId → M R unit) (i : nat)
    : M R unit :=
  match fuel with
  | O => diverge
  | S fuel' => λ s,
      match tasks s !! i with
      | None => ret tt s
      | Some t => (let! _ := body t in for_tasks_from fuel' body (S i)) s
      end
  end.

Definition for_tasks (body : TaskId → M R unit) : M R unit := λ s,
  for_tasks_from (S (length (tasks s))) body 0 s.

(** [for x in l: body] over a list no one mutates. *)
Fixpoint for_each {A} (l : list A) (body : A → M R unit) : M R unit :=
  match l with
  | [] => ret tt
  | x :: l' => let! _ := body x in for_each l' body
  end.

(** [for x in l: body] threading the local variables the body assigns. *)
Fixpoint for_fold {A S} (l : list A) (body : A → S → M R S) (acc : S)
    : M R S :=
  match l with
  | [] => ret acc
  | x :: l' => let! acc' := body x acc in for_fold l' body acc'
  end.

(** ** [download.py] *)

(** [server_path] is [None], a [str], a [list], or an object of another
    type, of which the code looks at the truth value only. *)
Inductive ServerPath :=
| SPStr (s : string)
| SPList (l : list string)
| SPOther (truth : bool).

(** [not server_path]. *)
Definition not_server_path (sp : option ServerPath) : bool :=
  match sp with
  | None => true
  | Some (SPStr s) => String.eqb s ""
  | Some (SPList l) => match l with [] => true | _ => false end
  | Some (SPOther truth) => negb truth
  end.

(** [not task_id_list]. *)
Definition not_list {A} (l : list A) : bool :=
  match l with [] => true | _ => false end.

Definition check_params (task_id_list : list TaskId)
    (custom_server_output_path : option ServerPath) : M R unit :=
  if not_list task_id_list && not_server_path custom_server_output_path
  then raise (PyException
    "One of the task_id_list and custom_server_output_path must exist")
  else ret tt.

Definition _check_local_path (lp : option string) : string :=
  match lp with
  | None => env_default_path
  | Some p => if String.eqb p "" then env_default_path else p
  end.

Definition default_speed (ms : option string) : string :=
  match ms with Some v => v | None => "1048576" end.

Definition download_kw (a : DlArgs) : list (string * pyval) :=
  [("print_log", VBool (print_log a))].

Definition download_params (lp : string) (output : string) (a : DlArgs)
    : list string :=
  ["download_path"; str2unicode lp; output; default_speed (max_speed a);
   download_filename_format a; "output_bid"].

(** One engine run of [_run_download]'s loop. *)
Definition download_one (lp : string) (a : DlArgs) (output_file_name : string)
    : M R unit :=
  let cmd := trans_create_cmd (download_params lp output_file_name a)
               None (engine a) None in
  let! tranfer_code := run_cmd cmd (download_kw a) in
  if decide (tranfer_code ≠ 0%Z)
  then raise (DownloadFailed (output_file_name +:+ " Download failed"))
  else ret tt.

Definition _run_download (task_id_list : list TaskId) (lp : string)
    (a : DlArgs) (server_path : option ServerPath) : M R unit :=
  let! names :=
    (if not_server_path server_path then
       let! task_status_list := get_task_status task_id_list in
       output_file_names task_status_list
     else match server_path with
          | Some (SPStr p) => ret [p]
          | Some (SPList l) => ret l
          | _ => raise (PyException
                   "custom_server_output_path must a list or str.")
          end) in
  for_each names (download_one lp a).

(** [RayvisionDownload.create_cmd]. *)
Definition create_cmd (lp : string) (a : DlArgs) (output : string)
    : M R unit :=
  let cmd := trans_create_cmd (download_params lp output a)
               None (engine a) None in
  let! tranfer_code := run_cmd cmd (download_kw a) in
  if decide (tranfer_code ≠ 0%Z)
  then raise (DownloadFailed (output +:+ " Download failed"))
  else ret tt.

(** [download_type] is compared with the two literals by identity ([is]):
    a branch is taken for the object of the literal only, not for a [str]
    that is merely equal to it. *)
Definition _run_cc_download (task_id_list : list TaskId) (lp : string)
    (a : DlArgs) (download_type : option PyStr) : M R unit :=
  if decide (download_type = Some (literal "block")) then
    for_each task_id_list
      (λ task_id, create_cmd lp a (str_task task_id +:+ "\at_result"))
  else if decide (download_type = Some (literal "render")) then
    for_each task_id_list
      (λ task_id, create_cmd lp a (str_task task_id +:+ "\render_result"))
  else ret tt.

(** [assert c]. *)
Definition py_assert (c : bool) : M R unit :=
  if c then ret tt else raise AssertionError.

(** *** [download] *)

Definition download (a : DlArgs) (server_path : option ServerPath)
    : M R bool :=
  let! task_id_list := get_tasks in
  let! _ := check_params task_id_list server_path in
  let lp := _check_local_path (local_path a) in
  let! _ := _run_download task_id_list lp a server_path in
  ret true.

(** *** [download_block] *)

Definition block_body (lp : string) (a : DlArgs)
    (download_type : option PyStr) (task_id : TaskId) : M R unit :=
  let! task_id_list := get_tasks in
  let! task_status_list := get_task_status task_id_list in
  let! sub_task_status_list := get_sub_status task_status_list in
  let! _ := py_assert (negb (str_in "45" sub_task_status_list)) in
  if str_in "25" sub_task_status_list then
    let! download_flag :=
      try_except_DownloadFailed
        (let! _ := _run_cc_download [task_id] lp a download_type in ret true)
        (ret false) in
    if download_flag then tasks_remove task_id else ret tt
  else ret tt.

Definition block_cycle (sleep_time : Z) (lp : string) (a : DlArgs)
    (download_type : option PyStr) : M R unit :=
  let! _ := sleep sleep_time in
  for_tasks (block_body lp a download_type).

(** [while True: if task_id_list: cycle else: break], one unit of fuel per
    turn of the loop. *)
Fixpoint while_tasks (fuel : nat) (cycle : M R unit) : M R unit :=
  match fuel with
  | O => diverge
  | S fuel' =>
      let! task_id_list := get_tasks in
      if not_list task_id_list then ret tt
      else let! _ := cycle in while_tasks fuel' cycle
  end.

Definition download_block (fuel : nat) (a : DlArgs) (sleep_time : Z)
    (server_path : option ServerPath) (download_type : option PyStr)
    : M R bool :=
  let! task_id_list := get_tasks in
  let! _ := check_params task_id_list server_path in
  let lp := _check_local_path (local_path a) in
  let! _ := while_tasks fuel (block_cycle sleep_time lp a download_type) in
  ret true.

(** *** [auto_download] and [_auto_download_tool] *)

(** The loop body; the pair is ([task_id_list_copy], [download_failed_list]). *)
Definition auto_body (lp : string) (a : DlArgs) (task_id : TaskId)
    (loc : list TaskId * list TaskId) : M R (list TaskId * list TaskId) :=
  let task_id_list_copy := loc.1 in
  let download_failed_list := loc.2 in
  let! is_task_end := is_task_end task_id in
  let! download_flag :=
    try_except_DownloadFailed
      (let! _ := _run_download [task_id] lp a None in ret true)
      (ret false) in
  let download_failed_list :=
    if is_task_end && negb download_flag
    then download_failed_list ++ [task_id] else download_failed_list in
  if is_task_end then
    match list_remove task_id task_id_list_copy with
    | Some c => ret (c, download_failed_list)
    | None => raise (ValueError "list.remove(x): x not in list")
    end
  else ret (task_id_list_copy, download_failed_list).

Definition auto_cycle (sleep_time : Z) (lp : string) (a : DlArgs)
    (task_id_list download_failed_list : list TaskId)
    : M R (list TaskId * list TaskId) :=
  let! _ := sleep sleep_time in
  let task_id_list_copy := task_id_list in
  for_fold task_id_list (auto_body lp a)
    (task_id_list_copy, download_failed_list).

(** The loop of [_auto_download_tool]; it returns the locals
    ([task_id_list], [download_failed_list]) as they are at [break].
    [task_id_list] is rebound to a fresh copy every cycle, so the caller's
    list is left alone. *)
Fixpoint auto_loop (fuel : nat) (sleep_time : Z) (lp : string) (a : DlArgs)
    (task_id_list download_failed_list : list TaskId)
    : M R (list TaskId * list TaskId) :=
  match fuel with
  | O => diverge
  | S fuel' =>
      if not_list task_id_list then ret (task_id_list, download_failed_list)
      else
        let! loc := auto_cycle sleep_time lp a task_id_list
                      download_failed_list in
        auto_loop fuel' sleep_time lp a loc.1 loc.2
  end.

Definition finally_failed (l : list TaskId) : exn :=
  DownloadFailed ("Finally tasks download failed: " +:+ str_task_list l).

Definition _auto_download_tool (fuel : nat) (task_id_list : list TaskId)
    (sleep_time : Z) (lp : string) (a : DlArgs) : M R unit :=
  let! loc := auto_loop fuel sleep_time lp a task_id_list [] in
  let download_failed_list := loc.2 in
  if not_list download_failed_list then ret tt
  else raise (finally_failed download_failed_list).

Definition auto_download (fuel : nat) (a : DlArgs) (sleep_time : Z)
    : M R bool :=
  let lp := _check_local_path (local_path a) in
  let! task_id_list := get_tasks in
  let! _ := _auto_download_tool fuel task_id_list sleep_time lp a in
  ret true.

(** *** [auto_download_after_task_completed] *)

Definition after_body (lp : string) (a : DlArgs) (task_id : TaskId)
    : M R unit :=
  let! is_task_end := is_task_end task_id in
  if is_task_end then
    let! _ := sleep 5 in
    let! _ := _run_download [task_id] lp a None in
    tasks_remove task_id
  else ret tt.

Definition after_cycle (sleep_time : Z) (lp : string) (a : DlArgs)
    : M R unit :=
  let! _ := sleep sleep_time in
  for_tasks (after_body lp a).

Definition auto_download_after_task_completed (fuel : nat) (a : DlArgs)
    (sleep_time : Z) : M R bool :=
  let lp := _check_local_path (local_path a) in
  let! _ := while_tasks fuel (after_cycle sleep_time lp a) in
  ret true.

(** *** [auto_download_cc_after_task_completed] *)

Definition is_done (sub_task_status_list : list string) : bool :=
  Nat.eqb (len_set sub_task_status_list) 1
  || (Nat.eqb (len_set sub_task_status_list) 2
      && bool_decide (["25"; "30"] = sorted_set sub_task_status_list)).

Definition cc_body (lp : string) (a : DlArgs)
    (download_type : option PyStr) (task_id : TaskId) : M R unit :=
  let! task_id_list := get_tasks in
  let! task_status_list := get_task_status task_id_list in
  let! render_type_list := get_render_type task_status_list in
  let! sub_task_status_list := get_sub_status task_status_list in
  let! _ := py_assert (negb (str_in "45" sub_task_status_list)) in
  let is_done := is_done sub_task_status_list in
  if str_in "Rebuild" render_type_list
     && bool_decide (2 < length render_type_list)
     && is_done then
    let! _ := sleep 5 in
    let! _ := _run_cc_download [task_id] lp a download_type in
    tasks_remove task_id
  else ret tt.

Definition cc_cycle (sleep_time : Z) (lp : string) (a : DlArgs)
    (download_type : option PyStr) : M R unit :=
  let! _ := sleep sleep_time in
  for_tasks (cc_body lp a download_type).

Definition auto_download_cc_after_task_completed (fuel : nat) (a : DlArgs)
    (sleep_time : Z) (download_type : option PyStr) : M R bool :=
  let lp := _check_local_path (local_path a) in
  let! _ := while_tasks fuel (cc_cycle sleep_time lp a download_type) in
  ret true.

(** ** [upload.py] *)

(** The retry loop of [upload_config]: [while True] around [run_cmd], with
    the counter [times].  One unit of fuel per attempt. *)
Fixpoint config_retry (fuel : nat) (cmd : Cmd) (config_path : string)
    (times : Z) : M R unit :=
  match fuel with
  | O => diverge
  | S fuel' =>
      let! result := run_cmd cmd [("flag", VBool true)] in
      if truthy (VInt result) then
        if decide (times = 9%Z)
        then raise (RayvisionError 20004 (config_path +:+ " upload failed"))
        else config_retry fuel' cmd config_path (times + 1)%Z
      else ret tt
  end.

Definition config_params (local_path server_path : string)
    (max_speed : string) : list string :=
  ["upload_path"; local_path; server_path; max_speed; "false"; "config_bid"].

Definition upload_config_one (fuel : nat) (task_id : string)
    (max_speed : option string) (e : Engine) (config_path : string)
    : M R unit :=
  let local_path := str2unicode config_path in
  let config_basename := os_path_basename config_path in
  let server_path :=
    str2unicode ("/" +:+ task_id +:+ "/cfg/" +:+ config_basename) in
  let! ex := call (λ r, os_path_exists r local_path)
               (EvPathExists local_path) in
  if negb ex then ret tt
  else
    let cmd := trans_create_cmd
                 (config_params local_path server_path
                    (default_speed max_speed)) None e None in
    config_retry fuel cmd config_path 0.

Definition upload_config (fuel : nat) (task_id : string)
    (config_file_list : list string) (max_speed : option string)
    (e : Engine) : M R bool :=
  let! _ := for_each config_file_list
              (upload_config_one fuel task_id max_speed e) in
  ret true.

(** [create_db_ini]: the ini file is written for "redis" and "sqlite"
    only.  [db_config_type] is
    [self.database_config.get("type", "sqlite").strip().lower()]. *)
Definition create_db_ini (upload_json_path : string) : M R string :=
  let db_type := db_config_type in
  let! ex := call (λ r, os_path_exists r db_ini_dir)
               (EvPathExists db_ini_dir) in
  let! _ := (if negb ex then emit (EvMakedirs db_ini_dir) else ret tt) in
  let time_temp := time_temp_of upload_json_path in
  let! db_ini_path :=
    (if String.eqb db_type "redis" then
       ret (os_path_join db_ini_dir "db_redis.ini")
     else if String.eqb db_type "sqlite" then
       ret (os_path_join db_ini_dir (time_temp +:+ ".ini"))
     else raise (UnsupportedDatabaseError
       (db_type +:+
        " is not a supported database, only support 'redis' or 'sqlite'"))) in
  let! _ := emit (EvWriteIni db_ini_path) in
  ret db_ini_path.

(** The parameters of [upload_asset] after [self]. *)
Definition upload_asset_params : list string :=
  ["upload_json_path"; "max_speed"; "is_db"; "engine_type"; "server_ip";
   "server_port"; "transmit_type"; "network_mode"; "redis_flag";
   "is_record"; "redis_obj"].

Definition kw_get (kw : gmap string pyval) (k : string) (d : pyval) : pyval :=
  default d (kw !! k).

Definition opt_str (v : pyval) : option string :=
  match v with VStr s => Some s | _ => None end.

Definition as_int (v : pyval) : Z :=
  match v with VInt z => z | VBool true => 1%Z | _ => 0%Z end.

(** [upload_asset] called with keywords only: the keywords are bound to the parameters, with
    their defaults, and the body runs.  The [upload_retry] decorator of
    [utils] is not part of this model. *)
Definition upload_asset (kw : gmap string pyval) : M R Z :=
  if bool_decide (∃ k, k ∈ dom kw ∧ k ∉ upload_asset_params)
  then raise (TypeError "upload_asset() got an unexpected keyword argument")
  else match kw !! "upload_json_path" with
  | None => raise (TypeError
      "upload_asset() missing 1 required positional argument")
  | Some upload_json_path =>
      let upload_json_path := default "" (opt_str upload_json_path) in
      let max_speed := default_speed (opt_str (kw_get kw "max_speed" VNone)) in
      let is_db := kw_get kw "is_db" (VBool true) in
      let transmit_type :=
        default "" (opt_str (kw_get kw "transmit_type" (VStr "upload_json"))) in
      let e := {| engine_type := opt_str (kw_get kw "engine_type" (VStr "aspera"));
                  server_ip := opt_str (kw_get kw "server_ip" VNone);
                  server_port := opt_str (kw_get kw "server_port" VNone);
                  network_mode := as_int (kw_get kw "network_mode" (VInt 0)) |} in
      let cmd_params :=
        [transmit_type; upload_json_path; "/"; max_speed; "false";
         "input_bid"] in
      let! db_ini_path :=
        (if truthy is_db
         then let! p := create_db_ini upload_json_path in ret (Some p)
         else ret None) in
      let cmd := trans_create_cmd cmd_params db_ini_path e
                   (Some get_share_info) in
      run_cmd cmd [("flag", VBool true);
                   ("is_record", kw_get kw "is_record" (VBool false));
                   ("redis_flag", kw_get kw "redis_flag" VNone);
                   ("redis_obj", kw_get kw "redis_obj" VNone)]
  end.

(** [kwargs.pop(k)]. *)
Definition dict_pop (kwargs : gmap string pyval) (k : string)
    : M R (pyval * gmap string pyval) :=
  match kwargs !! k with
  | Some v => ret (v, delete k kwargs)
  | None => raise (KeyError k)
  end.

(** The keywords of [f(upload_json_path=p, is_db=False, **kwargs)]: a
    keyword given twice is a [TypeError]. *)
Definition submit_keywords (p : string) (kwargs : gmap string pyval)
    : M R (gmap string pyval) :=
  if bool_decide (is_Some (kwargs !! "upload_json_path")
                  ∨ is_Some (kwargs !! "is_db"))
  then raise (TypeError "got multiple values for keyword argument")
  else ret (<["upload_json_path" := VStr p]>
              (<["is_db" := VBool false]> kwargs)).

(** [ThreadPoolExecutor(pool_size)]. *)
Definition new_pool (pool_size : Z) : M R unit :=
  if decide (pool_size ≤ 0)%Z
  then raise (ValueError "max_workers must be greater than 0")
  else emit (EvPool pool_size).

(** [thread_pool_upload]: what the pool is handed, in order.  The units
    themselves run on the pool's threads and are not run here. *)
Definition thread_pool_upload (upload_pool : list string) (pool_size : Z)
    (kwargs : gmap string pyval) : M R unit :=
  let! popped := dict_pop kwargs "is_db" in
  let kwargs := popped.2 in
  let! _ := new_pool pool_size in
  let! _ := for_each upload_pool (λ p,
              let! kw := submit_keywords p kwargs in emit (EvSubmit kw)) in
  emit EvShutdown.

(** *** [upload] *)

(** [None] or a [str]. *)
Definition py_opt (o : option string) : pyval :=
  match o with Some v => VStr v | None => VNone end.

(** A call of the body of [upload_asset] with the positional arguments
    [pos] and the keywords [kw]: the positional arguments are bound to
    the first parameters; too many of them, or a parameter given both
    ways, is a [TypeError]. *)
Definition upload_asset_call (pos : list pyval) (kw : gmap string pyval)
    : M R Z :=
  if bool_decide (length upload_asset_params < length pos)
  then raise (TypeError "upload_asset() takes from 2 to 12 positional arguments")
  else if bool_decide (Exists (λ k, is_Some (kw !! k))
                         (take (length pos) upload_asset_params))
  then raise (TypeError "upload_asset() got multiple values for argument")
  else upload_asset (list_to_map (zip upload_asset_params pos) ∪ kw).

(** The keywords [upload] gives [upload_asset]. *)
Definition upload_keywords (e : Engine) (is_record redis_flag redis_obj : pyval)
    : gmap string pyval :=
  list_to_map
    [("engine_type", py_opt (engine_type e));
     ("server_ip", py_opt (server_ip e));
     ("server_port", py_opt (server_port e));
     ("network_mode", VInt (network_mode e));
     ("is_record", is_record);
     ("redis_flag", redis_flag);
     ("redis_obj", redis_obj)].

(** [upload].  [upload_asset] is called through its decorator
    [upload_retry], which belongs to the missing [utils]: it is a
    parameter here, a wrapper around the call of the body with the
    arguments [upload] gives. *)
Definition upload (fuel : nat) (upload_retry : M R Z → M R pyval)
    (task_id task_json_path tips_json_path asset_json_path
       upload_json_path : string)
    (max_speed : option string) (transmit_type : string) (e : Engine)
    (is_record redis_flag redis_obj : pyval) : M R bool :=
  let config_file_list :=
    [task_json_path; tips_json_path; asset_json_path; upload_json_path] in
  let! result_config :=
    upload_config fuel task_id config_file_list max_speed e in
  if negb result_config then ret false
  else
    let! result_asset :=
      upload_retry
        (upload_asset_call
           [VStr upload_json_path; py_opt max_speed; VStr transmit_type]
           (upload_keywords e is_record redis_flag redis_obj)) in
    if negb (truthy result_asset) then ret false else ret true.

End Model.

(** ** The folders of [RayvisionUpload] *)

(** What [check_transfer_log_path] and [_check_and_mk] read besides
    [os.environ]: the five names imported from the missing [constants],
    [self.api.user_info['local_os']], [os.path.exists] and
    [os.path.join]. *)
Record Paths := {
  TRANSFER_LOG : string;
  RAYVISION_DB : string;
  WINDOWS_LOCAL_ENV : string;
  LINUX_LOCAL_ENV : string;
  RENDERFARM_SDK : string;
  local_os : string;
  path_exists : string → bool;
  path_join : string → string → string
}.

(** [os.environ], and the variables handed to [setx] through
    [subprocess.Popen], each with its value, oldest first. *)
Record OsState := mkOsState {
  environ : gmap string string;
  setx : list (string * string)
}.

(** [bool(s)] for a [str]. *)
Definition str_truthy (v : string) : bool := negb (String.eqb v "").

Definition check_transfer_log_path (P : Paths) (transfer_log_path : string)
    (st : OsState) : exn + (string * OsState) :=
  let rayvision_log_path := default "" (environ st !! TRANSFER_LOG P) in
  if str_truthy transfer_log_path && path_exists P transfer_log_path then
    let transfer_path := transfer_log_path in
    if negb (String.eqb rayvision_log_path transfer_log_path) then
      inr (transfer_path,
           mkOsState (<[TRANSFER_LOG P := transfer_path]> (environ st))
                     (setx st ++ [(TRANSFER_LOG P, transfer_path)]))
    else inr (transfer_path, st)
  else if path_exists P rayvision_log_path then
    inr (rayvision_log_path, st)
  else
    let var := if String.eqb (local_os P) "windows"
               then WINDOWS_LOCAL_ENV P else LINUX_LOCAL_ENV P in
    match environ st !! var with
    | None => inl (KeyError var)
    | Some home =>
        let transfer_path := path_join P home (RENDERFARM_SDK P) in
        inr (transfer_path,
             mkOsState (<[TRANSFER_LOG P := transfer_path]> (environ st))
                       (setx st ++ [(TRANSFER_LOG P, transfer_path)]))
    end.


(** ** Scripted collaborators *)

(** Collaborators that answer from a script.  The remote state is a clock
    that counts the calls made so far, so an answer may depend on when the
    question is asked.  A status record is the id it was asked for. *)
Record Script := {
  sc_ended : nat → TaskId → bool;
  sc_sub : nat → list TaskId → list string;
  sc_render : nat → list TaskId → list string;
  sc_names : nat → list TaskId → list string;
  sc_code : nat → Cmd → Z;
  sc_exists : nat → string → bool;
  sc_db_type : string
}.

Definition scripted (sc : Script) : Collaborators nat := {|
  status := TaskId;
  mt_is_task_end n t := (sc_ended sc n t, S n);
  mt_get_task_status n ids := (ids, S n);
  mt_get_sub_status n st := (sc_sub sc n st, S n);
  mt_get_render_type n st := (sc_render sc n st, S n);
  mt_output_file_names n st := (sc_names sc n st, S n);
  exec_cmd n c _ := (sc_code sc n c, S n);
  os_path_exists n p := (sc_exists sc n p, S n);
  os_path_basename p := p;
  os_path_join d f := d +:+ "/" +:+ f;
  str2unicode p := p;
  env_default_path := "/home/user/renderfarm_sdk";
  get_share_info := ("", "");
  db_config_type := sc_db_type sc;
  db_ini_dir := "/db/db_ini";
  time_temp_of p := p
|}.

Definition quiet : Script := {|
  sc_ended _ _ := false;
  sc_sub _ _ := [];
  sc_render _ _ := [];
  sc_names _ ids := map str_task ids;
  sc_code _ _ := 0%Z;
  sc_exists _ _ := true;
  sc_db_type := "sqlite"
|}.

Definition default_engine : Engine := {|
  engine_type := Some "aspera"; server_ip := None; server_port := None;
  network_mode := 0
|}.

Definition default_args : DlArgs := {|
  max_speed := None; print_log := true; download_filename_format := "true";
  local_path := Some "/out"; engine := default_engine
|}.

Definition start (l : list TaskId) : Store nat := mkStore 0%nat l.

(** Every task has ended and every transfer fails. *)
Definition ended_failing : Script := {|
  sc_ended _ _ := true;
  sc_sub _ _ := [];
  sc_render _ _ := [];
  sc_names _ ids := map str_task ids;
  sc_code _ _ := 1%Z;
  sc_exists _ _ := true;
  sc_db_type := "sqlite"
|}.

(** Every poll shows "25" for a rebuild task; transfers succeed. *)
Definition ready : Script := {|
  sc_ended _ _ := true;
  sc_sub _ _ := ["25"];
  sc_render _ _ := ["Rebuild"; "Rebuild"; "Rebuild"];
  sc_names _ ids := map str_task ids;
  sc_code _ _ := 0%Z;
  sc_exists _ _ := true;
  sc_db_type := "sqlite"
|}.




(** The remote state changes during the cycle: the first poll shows "25",
    polls made after the fourth call show "45". *)
Definition turning_illegal : Script := {|
  sc_ended _ _ := false;
  sc_sub n _ := if Nat.ltb n 4 then ["25"] else ["45"];
  sc_render _ _ := [];
  sc_names _ ids := map str_task ids;
  sc_code _ _ := 0%Z;
  sc_exists _ _ := true;
  sc_db_type := "sqlite"
|}.

(** The first two runs of a command fail, the third succeeds. *)
Definition flaky : Script := {|
  sc_ended _ _ := false;
  sc_sub _ _ := [];
  sc_render _ _ := [];
  sc_names _ ids := map str_task ids;
  sc_code n _ := if Nat.ltb n 2 then 1%Z else 0%Z;
  sc_exists _ _ := true;
  sc_db_type := "sqlite"
|}.

(** The command [_run_cc_download] builds for an output folder, with the
    default arguments. *)
Definition cc_cmd (output : string) : Cmd := {|
  cmd_params := ["download_path"; "/out"; output; "1048576"; "true";
                 "output_bid"];
  cmd_db_ini := None;
  cmd_engine := default_engine;
  cmd_share := None
|}.

Definition config_cmd : Cmd := {|
  cmd_params := ["upload_path"; "/cfg/task.json"; "/7/cfg/task.json";
                 "1048576"; "false"; "config_bid"];
  cmd_db_ini := None;
  cmd_engine := default_engine;
  cmd_share := None
|}.


(** Every poll shows a finished subtask and every transfer fails. *)
Definition stuck : Script := {|
  sc_ended _ _ := false;
  sc_sub _ _ := ["25"];
  sc_render _ _ := [];
  sc_names _ ids := map str_task ids;
  sc_code _ _ := 1%Z;
  sc_exists _ _ := true;
  sc_db_type := "sqlite"
|}.

(** No file exists. *)
Definition no_files : Script := {|
  sc_ended _ _ := false;
  sc_sub _ _ := [];
  sc_render _ _ := [];
  sc_names _ ids := map str_task ids;
  sc_code _ _ := 0%Z;
  sc_exists _ _ := false;
  sc_db_type := "sqlite"
|}.

(** A database type [create_db_ini] does not know. *)
Definition mysql_db : Script := {|
  sc_ended _ _ := false;
  sc_sub _ _ := [];
  sc_render _ _ := [];
  sc_names _ ids := map str_task ids;
  sc_code _ _ := 0%Z;
  sc_exists _ _ := true;
  sc_db_type := "mysql"
|}.

(** A Linux machine on which only the folder "/var/log/transfer" exists. *)
Definition linux_box : Paths := {|
  TRANSFER_LOG := "TRANSFER_LOG";
  RAYVISION_DB := "RAYVISION_DB";
  WINDOWS_LOCAL_ENV := "USERPROFILE";
  LINUX_LOCAL_ENV := "HOME";
  RENDERFARM_SDK := "renderfarm_sdk";
  local_os := "linux";
  path_exists p := String.eqb p "/var/log/transfer";
  path_join d f := d +:+ "/" +:+ f
|}.

Definition fresh_login : OsState :=
  mkOsState {["HOME" := "/home/user"]} [].


(** ** Reading the event list *)

Definition is_run_cmd (e : Event) : bool :=
  match e with EvRunCmd _ _ _ => true | _ => false end.

(** A transfer that came back with a non-zero exit code. *)
Definition run_failed (e : Event) : bool :=
  match e with EvRunCmd _ _ code => negb (Z.eqb code 0) | _ => false end.

Definition is_status_call (e : Event) : bool :=
  match e with EvGetTaskStatus _ => true | _ => false end.

(** The events up to the next [is_task_end] call. *)
Fixpoint until_next_visit (evs : list Event) : list Event :=
  match evs with
  | [] => []
  | EvIsTaskEnd _ _ :: _ => []
  | e :: evs' => e :: until_next_visit evs'
  end.

(** What a cycle of [_auto_download_tool] observed for one task: the answer
    of [is_task_end] and whether a transfer of the download that followed
    failed. *)
Record Visit := {
  v_task : TaskId;
  v_ended : bool;
  v_failed : bool
}.

Fixpoint visits_of (evs : list Event) : list Visit :=
  match evs with
  | [] => []
  | EvIsTaskEnd t e :: evs' =>
      {| v_task := t; v_ended := e;
         v_failed := existsb run_failed (until_next_visit evs') |}
      :: visits_of evs'
  | _ :: evs' => visits_of evs'
  end.

(** The remote folder [_run_cc_download] asks for, if any. *)
Definition cc_output (download_type : option PyStr) (t : TaskId)
    : option string :=
  if decide (download_type = Some (literal "block"))
  then Some (str_task t +:+ "\at_result")
  else if decide (download_type = Some (literal "render"))
  then Some (str_task t +:+ "\render_result")
  else None.

(** What [_run_cc_download] appends to a task id, if anything. *)
Definition cc_suffix (download_type : option PyStr) : option string :=
  if decide (download_type = Some (literal "block"))
  then Some "\at_result"
  else if decide (download_type = Some (literal "render"))
  then Some "\render_result"
  else None.

Definition count_status_calls (evs : list Event) : nat :=
  length (filter (λ e, is_status_call e = true) evs).

(** A transfer command was run. *)
Definition transfer_fired (evs : list Event) : Prop :=
  ∃ c kw code, EvRunCmd c kw code ∈ evs.

(** The completion predicate of the rebuild-aware mode, in the words of the
    specification: all subtasks share exactly one status code, or the
    codes are exactly the pair "25" and "30". *)
Definition one_code (subs : list string) : Prop :=
  ∃ c, c ∈ subs ∧ ∀ x, x ∈ subs → x = c.

Definition done_pair (subs : list string) : Prop :=
  "25" ∈ subs ∧ "30" ∈ subs ∧ ∀ x, x ∈ subs → x = "25" ∨ x = "30".

Definition spec_done (subs : list string) : Prop :=
  one_code subs ∨ done_pair subs.

(** A sub-status poll that shows the illegal code. *)
Definition shows_illegal (e : Event) : bool :=
  match e with EvGetSubStatus subs => str_in "45" subs | _ => false end.

Definition is_assertion (x : exn) : Prop := x = AssertionError.

Definition is_download_failed (x : exn) : Prop := ∃ m, x = DownloadFailed m.

Definition is_visit_start (e : Event) : bool :=
  match e with EvIsTaskEnd _ _ => true | _ => false end.

(** An event list that is empty or begins with an [is_task_end] call. *)
Definition starts_visit (evs : list Event) : Prop :=
  match evs with
  | [] => True
  | e :: _ => is_visit_start e = true
  end.

Definition ended_tasks (obs : list Visit) : list TaskId :=
  fmap v_task (filter (λ v, v_ended v = true) obs).

Definition survivors (obs : list Visit) : list TaskId :=
  fmap v_task (filter (λ v, v_ended v = false) obs).

Definition failures (obs : list Visit) : list TaskId :=
  fmap v_task (filter (λ v, v_ended v = true ∧ v_failed v = true) obs).


(** The remote output a transfer command asks for: the third of the
    parameters [_run_download] and [create_cmd] give it. *)
Definition event_output (e : Event) : option string :=
  match e with EvRunCmd c _ _ => cmd_params c !! 2 | _ => None end.

(** [server_path] is a [str] or a [list]. *)
Definition is_path (sp : option ServerPath) : bool :=
  match sp with
  | Some (SPStr _) | Some (SPList _) => true
  | _ => false
  end.

(** The outputs a truthy [server_path] stands for. *)
Definition custom_outputs (sp : option ServerPath) : list string :=
  match sp with
  | Some (SPStr p) => [p]
  | Some (SPList l) => l
  | _ => []
  end.

(** Every second element of a list, from the second on. *)
Fixpoint odd_positions {A} (l : list A) : list A :=
  match l with
  | _ :: y :: l' => y :: odd_positions l'
  | _ => []
  end.

Definition count_runs (evs : list Event) : nat :=
  length (filter (λ e, is_run_cmd e = true) evs).

Definition is_exists_check (e : Event) : bool :=
  match e with EvPathExists _ _ => true | _ => false end.

Definition writes_ini (e : Event) : bool :=
  match e with EvWriteIni _ => true | _ => false end.


Section Runs.
Context {R : Type}.

(** The index loop as a relation: [for_run body i s r] when the loop that
    stands at index [i] in store [s] ends in [r]. *)
Inductive for_run (body : TaskId → M R unit)
    : nat → Store R → Result R unit → Prop :=
| for_run_stop i s :
    tasks s !! i = None →
    for_run body i s (mkResult (Ok tt) s [])
| for_run_next i s t r :
    tasks s !! i = Some t →
    out (body t s) = Ok tt →
    for_run body (S i) (store (body t s)) r →
    for_run body i s
      (mkResult (out r) (store r) (events (body t s) ++ events r))
| for_run_raise i s t e :
    tasks s !! i = Some t →
    out (body t s) = Raise e →
    for_run body i s
      (mkResult (Raise e) (store (body t s)) (events (body t s))).

(** A computation is tame when it returns or raises (it does not run out
    of fuel) and leaves in the caller's list a sublist of what was there. *)
Definition tame {A} (m : M R A) : Prop :=
  ∀ s, out (m s) ≠ Diverge ∧ tasks (store (m s)) `sublist_of` tasks s.

(** A run halts at the events [trig] selects when such an event is the
    last thing it does and it ends by raising an exception in [fin]. *)
Definition halts_at {A} (trig : Event → bool) (fin : exn → Prop)
    (r : Result R A) : Prop :=
  ∀ pre e post,
    events r = pre ++ e :: post →
    trig e = true →
    post = [] ∧ ∃ x, out r = Raise x ∧ fin x.

Definition halting {A} (trig : Event → bool) (fin : exn → Prop)
    (m : M R A) : Prop :=
  ∀ s, halts_at trig fin (m s).

(** A computation keeps the caller's list when it leaves it as it was. *)
Definition keeps {A} (m : M R A) : Prop :=
  ∀ s, tasks (store (m s)) = tasks s.

End Runs.

Section Attempts.
Context {R : Type} {C : Collaborators R}.

(** The remote state after [n] runs of one command. *)
Fixpoint remote_after (n : nat) (c : Cmd) (kw : list (string * pyval))
    (r : R) : R :=
  match n with
  | O => r
  | S n' => remote_after n' c kw (exec_cmd r c kw).2
  end.

(** The exit code of attempt [j], counted from 0. *)
Definition attempt_code (j : nat) (c : Cmd) (kw : list (string * pyval))
    (r : R) : Z :=
  (exec_cmd (remote_after j c kw r) c kw).1.

(** The events of the first [n] attempts. *)
Definition attempts_events (n : nat) (c : Cmd) (kw : list (string * pyval))
    (r : R) : list Event :=
  (λ j, EvRunCmd c kw (attempt_code j c kw r)) <$> seq 0 n.

End Attempts.

(** The keywords [upload_config] gives [run_cmd]. *)
Definition config_kw : list (string * pyval) := [("flag", VBool true)].

Definition upload_failed (config_path : string) : exn :=
  RayvisionError 20004 (config_path +:+ " upload failed").

(** * Properties *)

Section Theory.
Context {R : Type} {C : Collaborators R}.

Arguments _run_download : simpl never.
Arguments _run_cc_download : simpl never.
Arguments auto_body : simpl never.
Arguments block_body : simpl never.
Arguments after_body : simpl never.
Arguments cc_body : simpl never.

(** ** Equations of the monad *)

Lemma result_eta {A} (r : Result R A) :
  mkResult (out r) (store r) (events r) = r.
Proof. by destruct r. Qed.

Lemma bind_ok {A B} (m : M R A) (f : A → M R B) s a :
  out (m s) = Ok a →
  bind m f s =
    mkResult (out (f a (store (m s)))) (store (f a (store (m s))))
             (events (m s) ++ events (f a (store (m s)))).
Proof. intros H. unfold bind. by rewrite H. Qed.

Lemma bind_raised {A B} (m : M R A) (f : A → M R B) s e :
  out (m s) = Raise e →
  bind m f s = mkResult (Raise e) (store (m s)) (events (m s)).
Proof. intros H. unfold bind. by rewrite H. Qed.

Lemma bind_diverged {A B} (m : M R A) (f : A → M R B) s :
  out (m s) = Diverge →
  bind m f s = mkResult Diverge (store (m s)) (events (m s)).
Proof. intros H. unfold bind. by rewrite H. Qed.

Lemma bind_ret {A B} (a : A) (f : A → M R B) s : bind (ret a) f s = f a s.
Proof. unfold bind. simpl. apply result_eta. Qed.

Lemma bind_raise {A B} e (f : A → M R B) s :
  bind (raise e) f s = raise e s.
Proof. done. Qed.

Lemma bind_get_tasks {B} (f : list TaskId → M R B) s :
  bind get_tasks f s = f (tasks s) s.
Proof. unfold bind. simpl. apply result_eta. Qed.

Lemma bind_call {A B} (c : R → A * R) ev (f : A → M R B) s :
  bind (call c ev) f s =
    let r := f (c (remote s)).1 (mkStore (c (remote s)).2 (tasks s)) in
    mkResult (out r) (store r) (ev (c (remote s)).1 :: events r).
Proof. done. Qed.

Lemma bind_emit {B} e (f : unit → M R B) s :
  bind (emit e) f s =
    mkResult (out (f tt s)) (store (f tt s)) (e :: events (f tt s)).
Proof. done. Qed.

Lemma bind_assoc {A B D} (m : M R A) (f : A → M R B) (g : B → M R D) s :
  bind (bind m f) g s = bind m (λ a, bind (f a) g) s.
Proof.
  unfold bind. destruct (out (m s)) as [a| |]; simpl; [|done..].
  destruct (out (f a (store (m s)))) as [b| |]; simpl; [|done..].
  by rewrite app_assoc.
Qed.

(** ** Totality and the working set *)

Lemma tame_ret {A} (a : A) : tame (ret (R := R) a).
Proof. intros s. by split. Qed.

Lemma tame_raise {A} e : tame (raise (R := R) (A := A) e).
Proof. intros s. by split. Qed.

Lemma tame_emit e : tame (emit (R := R) e).
Proof. intros s. by split. Qed.

Lemma tame_get_tasks : tame (get_tasks (R := R)).
Proof. intros s. by split. Qed.

Lemma tame_call {A} (f : R → A * R) ev : tame (call f ev).
Proof. intros s. by split. Qed.

Lemma tame_bind {A B} (m : M R A) (f : A → M R B) :
  tame m → (∀ a, tame (f a)) → tame (bind m f).
Proof.
  intros Hm Hf s. unfold bind. destruct (Hm s) as [Hd Hs].
  destruct (out (m s)) as [a| |]; simpl; try done.
  destruct (Hf a (store (m s))) as [Hd' Hs']. split; [done|].
  by etrans.
Qed.

Lemma tame_try {A} (m h : M R A) :
  tame m → tame h → tame (try_except_DownloadFailed m h).
Proof.
  intros Hm Hh s. unfold try_except_DownloadFailed.
  destruct (Hm s) as [Hd Hs].
  destruct (out (m s)) as [a|[]|] eqn:E; simpl; rewrite ?E; try done.
  destruct (Hh (store (m s))) as [Hd' Hs']. split; [done|]. by etrans.
Qed.

Lemma tame_for_each {A} (l : list A) (body : A → M R unit) :
  (∀ x, tame (body x)) → tame (for_each l body).
Proof.
  intros Hb. induction l as [|x l IH]; simpl.
  - apply tame_ret.
  - apply tame_bind; auto.
Qed.

Lemma tame_for_fold {A S} (l : list A) (body : A → S → M R S) acc :
  (∀ x a, tame (body x a)) → tame (for_fold l body acc).
Proof.
  intros Hb. revert acc. induction l as [|x l IH]; intros acc; simpl.
  - apply tame_ret.
  - apply tame_bind; auto.
Qed.

Lemma list_remove_sublist x l l' : list_remove x l = Some l' → l' `sublist_of` l.
Proof.
  revert l'. induction l as [|y l IH]; intros l'; simpl; [done|].
  case_decide.
  - intros [= <-]. by apply sublist_cons.
  - destruct (list_remove x l) as [r|]; [|done].
    intros [= <-]. apply sublist_skip. by apply IH.
Qed.

Lemma list_remove_length x l l' :
  list_remove x l = Some l' → length l = S (length l').
Proof.
  revert l'. induction l as [|y l IH]; intros l'; simpl; [done|].
  case_decide.
  - by intros [= <-].
  - destruct (list_remove x l) as [r|]; [|done].
    intros [= <-]. simpl. f_equal. by apply IH.
Qed.

Lemma list_remove_elem x l : x ∈ l → is_Some (list_remove x l).
Proof.
  induction l as [|y l IH]; simpl.
  - by intros ?%elem_of_nil.
  - intros [->|Hin]%elem_of_cons.
    + rewrite decide_True; eauto.
    + case_decide; [eauto|]. destruct (IH Hin) as [r ->]. eauto.
Qed.

Lemma tame_tasks_remove t : tame (tasks_remove (R := R) t).
Proof.
  intros s. unfold tasks_remove, bind, get_tasks, set_tasks. simpl.
  destruct (list_remove t (tasks s)) as [l'|] eqn:E; simpl.
  - split; [done|]. by eapply list_remove_sublist.
  - by split.
Qed.

Lemma tame_py_assert c : tame (py_assert (R := R) c).
Proof. destruct c; [apply tame_ret|apply tame_raise]. Qed.

Create HintDb tame discriminated.
Hint Resolve tame_ret tame_raise tame_emit tame_get_tasks tame_call
  tame_tasks_remove tame_py_assert : tame.
Hint Extern 3 (tame (bind _ _)) => apply tame_bind; [|intros ?] : tame.
Hint Extern 3 (tame (try_except_DownloadFailed _ _)) => apply tame_try : tame.
Hint Extern 3 (tame (for_each _ _)) => apply tame_for_each; intros ? : tame.
Hint Extern 3 (tame (for_fold _ _ _)) =>
  apply tame_for_fold; intros ? ? : tame.
Hint Extern 4 (tame (if ?c then _ else _)) => destruct c : tame.
Hint Extern 4 (tame (match ?c with _ => _ end)) => destruct c : tame.

Ltac tame := eauto 20 with tame.

Lemma tame_run_download l lp a sp : tame (_run_download l lp a sp).
Proof.
  unfold _run_download, download_one, run_cmd, get_task_status,
    output_file_names. tame.
Qed.

Lemma tame_run_cc_download l lp a dt : tame (_run_cc_download l lp a dt).
Proof. unfold _run_cc_download, create_cmd, run_cmd. tame. Qed.

Hint Resolve tame_run_download tame_run_cc_download : tame.

Lemma tame_block_body lp a dt t : tame (block_body lp a dt t).
Proof. unfold block_body, get_task_status, get_sub_status. tame. Qed.

Lemma tame_after_body lp a t : tame (after_body lp a t).
Proof. unfold after_body, is_task_end, sleep. tame. Qed.

Lemma tame_cc_body lp a dt t : tame (cc_body lp a dt t).
Proof.
  unfold cc_body, get_task_status, get_sub_status, get_render_type, sleep.
  tame.
Qed.

(** The index loop never runs out of the fuel [for_tasks] gives it. *)
Lemma tame_for_tasks_from (body : TaskId → M R unit) (L : nat) :
  (∀ t, tame (body t)) →
  ∀ fuel i s,
    length (tasks s) ≤ L → i ≤ L → L < fuel + i →
    out (for_tasks_from fuel body i s) ≠ Diverge
    ∧ tasks (store (for_tasks_from fuel body i s)) `sublist_of` tasks s.
Proof.
  intros Hb fuel. induction fuel as [|fuel IH]; intros i s HL Hi Hf.
  - lia.
  - simpl. destruct (tasks s !! i) as [t|] eqn:E; [|by split].
    apply lookup_lt_Some in E.
    unfold bind. destruct (Hb t s) as [Hd Hs].
    destruct (out (body t s)) as [[]| |]; simpl; try done.
    destruct (IH (S i) (store (body t s))) as [Hd' Hs'].
    + apply sublist_length in Hs. lia.
    + lia.
    + lia.
    + split; [done|]. by etrans.
Qed.

Lemma tame_for_tasks (body : TaskId → M R unit) :
  (∀ t, tame (body t)) → tame (for_tasks body).
Proof.
  intros Hb s. unfold for_tasks.
  apply (tame_for_tasks_from body (length (tasks s))); auto; lia.
Qed.

Lemma tame_block_cycle st lp a dt : tame (block_cycle st lp a dt).
Proof.
  unfold block_cycle, sleep. apply tame_bind; [tame|intros _].
  apply tame_for_tasks, tame_block_body.
Qed.

Lemma tame_after_cycle st lp a : tame (after_cycle st lp a).
Proof.
  unfold after_cycle, sleep. apply tame_bind; [tame|intros _].
  apply tame_for_tasks, tame_after_body.
Qed.

Lemma tame_cc_cycle st lp a dt : tame (cc_cycle st lp a dt).
Proof.
  unfold cc_cycle, sleep. apply tame_bind; [tame|intros _].
  apply tame_for_tasks, tame_cc_body.
Qed.

(** [while_tasks] leaves normally only with an empty list. *)
Lemma while_tasks_exit fuel (cycle : M R unit) s :
  out (while_tasks fuel cycle s) = Ok tt →
  tasks (store (while_tasks fuel cycle s)) = [].
Proof.
  revert s. induction fuel as [|fuel IH]; intros s; simpl; [done|].
  unfold bind at 1. simpl.
  destruct (tasks s) as [|t l] eqn:E; simpl; [done|].
  unfold bind. destruct (out (cycle s)) as [[]| |]; simpl; [|done..].
  apply IH.
Qed.

Lemma while_tasks_empty fuel (cycle : M R unit) s :
  tasks s = [] → while_tasks (S fuel) cycle s = mkResult (Ok tt) s [].
Proof. intros E. simpl. unfold bind. simpl. by rewrite E. Qed.

Lemma while_tasks_shrinks fuel (cycle : M R unit) :
  tame cycle → ∀ s,
  tasks (store (while_tasks fuel cycle s)) `sublist_of` tasks s.
Proof.
  intros Hc. induction fuel as [|fuel IH]; intros s; simpl; [done|].
  unfold bind at 1. simpl.
  destruct (not_list (tasks s)); simpl; [done|].
  unfold bind. destruct (Hc s) as [_ Hs].
  destruct (out (cycle s)) as [[]| |]; simpl; [|done..].
  etrans; [apply IH|done].
Qed.

(** *** What a download attempt leaves behind *)

Lemma download_one_run lp a n s :
  let cmd := trans_create_cmd (download_params lp n a) None (engine a) None in
  let cr := exec_cmd (remote s) cmd (download_kw a) in
  download_one lp a n s =
    mkResult (if decide (cr.1 ≠ 0%Z)
              then Raise (DownloadFailed (n +:+ " Download failed"))
              else Ok tt)
             (mkStore cr.2 (tasks s))
             [EvRunCmd cmd (download_kw a) cr.1].
Proof.
  unfold download_one, bind, run_cmd, call. simpl. by case_decide.
Qed.

Lemma download_one_loop names lp a s :
  let r := for_each names (download_one lp a) s in
  tasks (store r) = tasks s
  ∧ forallb is_run_cmd (events r) = true
  ∧ ((out r = Ok tt ∧ existsb run_failed (events r) = false)
     ∨ (∃ m, out r = Raise (DownloadFailed m)
             ∧ existsb run_failed (events r) = true)).
Proof.
  revert s. induction names as [|n names IH]; intros s; simpl.
  - split; [done|]. split; [done|]. by left.
  - unfold bind. rewrite download_one_run. simpl.
    destruct (exec_cmd (remote s) _ _) as [code r1]. simpl.
    case_decide as Hc; simpl.
    + split; [done|]. split; [done|]. right. eexists. split; [done|].
      rewrite orb_false_r. by apply negb_true_iff, Z.eqb_neq.
    + destruct (IH (mkStore r1 (tasks s))) as (Ht & Hf & Ho).
      simpl in *. split; [done|]. split; [done|].
      assert (code = 0%Z) as -> by (destruct (decide (code = 0%Z)); tauto).
      simpl. done.
Qed.

Lemma run_download_spec t lp a s :
  let r := _run_download [t] lp a None s in
  tasks (store r) = tasks s
  ∧ ∃ names runs,
      events r = EvGetTaskStatus [t] :: EvOutputFileNames names :: runs
      ∧ forallb is_run_cmd runs = true
      ∧ ((out r = Ok tt ∧ existsb run_failed runs = false)
         ∨ (∃ m, out r = Raise (DownloadFailed m)
                 ∧ existsb run_failed runs = true)).
Proof.
  unfold _run_download, bind, get_task_status, output_file_names, call.
  simpl.
  destruct (mt_get_task_status (remote s) [t]) as [st r1]. simpl.
  destruct (mt_output_file_names r1 st) as [names r2]. simpl.
  destruct (download_one_loop names lp a (mkStore r2 (tasks s)))
    as (Ht & Hf & Ho). simpl in *.
  split; [done|]. exists names, (events (for_each names (download_one lp a)
    (mkStore r2 (tasks s)))).
  split; [done|]. split; [done|].
  destruct Ho as [[-> ?]|(m & -> & ?)]; [left|right]; eauto.
Qed.

(** *** One cycle of [_auto_download_tool] *)

Lemma attempt_spec t lp a (s : Store R) :
  let r := try_except_DownloadFailed
             (let! _ := _run_download [t] lp a None in ret true)
             (ret false) s in
  tasks (store r) = tasks s
  ∧ ∃ names runs,
      events r = EvGetTaskStatus [t] :: EvOutputFileNames names :: runs
      ∧ forallb is_run_cmd runs = true
      ∧ out r = Ok (negb (existsb run_failed runs)).
Proof.
  destruct (run_download_spec t lp a s) as (Ht & names & runs & He & Hf & Ho).
  unfold try_except_DownloadFailed.
  destruct Ho as [[Ho Hx]|(m & Ho & Hx)].
  - rewrite (bind_ok _ _ _ _ Ho). cbn [out store events ret].
    rewrite app_nil_r. split; [done|]. exists names, runs. by rewrite Hx.
  - rewrite (bind_raised _ _ _ _ Ho). cbn [out store events ret].
    rewrite app_nil_r. split; [done|]. exists names, runs. by rewrite Hx.
Qed.

Lemma auto_body_spec lp a t copy failed (s : Store R) :
  let r := auto_body lp a t (copy, failed) s in
  tasks (store r) = tasks s
  ∧ ∃ e names runs,
      events r = EvIsTaskEnd t e :: EvGetTaskStatus [t]
                   :: EvOutputFileNames names :: runs
      ∧ forallb is_run_cmd runs = true
      ∧ out r =
          if e then
            match list_remove t copy with
            | Some c => Ok (c, if existsb run_failed runs
                               then failed ++ [t] else failed)
            | None => Raise (ValueError "list.remove(x): x not in list")
            end
          else Ok (copy, failed).
Proof.
  unfold auto_body, is_task_end. rewrite bind_call. cbv zeta.
  set (e := (mt_is_task_end (remote s) t).1).
  set (s1 := mkStore _ (tasks s)).
  destruct (attempt_spec t lp a s1) as (Ht & names & runs & He & Hf & Ho).
  rewrite (bind_ok _ _ _ _ Ho). cbn [out store events fst snd]. rewrite He.
  assert (∀ (r : Result R (list TaskId * list TaskId)),
    events r = [] →
    tasks (store r) = tasks s1 →
    out r = (if e then
            match list_remove t copy with
            | Some c => Ok (c, if existsb run_failed runs
                               then failed ++ [t] else failed)
            | None => Raise (ValueError "list.remove(x): x not in list")
            end
          else Ok (copy, failed)) →
    tasks (store r) = tasks s
    ∧ ∃ e0 names0 runs0,
      EvIsTaskEnd t e :: (EvGetTaskStatus [t]
         :: EvOutputFileNames names :: runs) ++ events r =
      EvIsTaskEnd t e0 :: EvGetTaskStatus [t]
                   :: EvOutputFileNames names0 :: runs0
      ∧ forallb is_run_cmd runs0 = true
      ∧ out r =
          if e0 then
            match list_remove t copy with
            | Some c => Ok (c, if existsb run_failed runs0
                               then failed ++ [t] else failed)
            | None => Raise (ValueError "list.remove(x): x not in list")
            end
          else Ok (copy, failed)) as Hk.
  { intros r Hev Hts Hor. split; [done|]. exists e, names, runs.
    rewrite Hev, app_nil_r. done. }
  apply Hk; clear Hk.
  - destruct e; [destruct (list_remove t copy)|]; done.
  - destruct e; [destruct (list_remove t copy)|]; simpl; done.
  - destruct e; simpl; [|done].
    destruct (list_remove t copy); [|done].
    by destruct (existsb run_failed runs).
Qed.

Lemma list_remove_perm x l c : list_remove x l = Some c → l ≡ₚ x :: c.
Proof.
  revert c. induction l as [|y l IH]; intros c; simpl; [done|].
  case_decide; [by intros [= <-]; subst|].
  destruct (list_remove x l) as [r|]; [|done].
  intros [= <-]. rewrite (IH r eq_refl). apply Permutation_swap.
Qed.

Lemma until_next_visit_app evs rest :
  forallb (λ e, negb (is_visit_start e)) evs = true → starts_visit rest →
  until_next_visit (evs ++ rest) = evs.
Proof.
  intros Hf Hr. induction evs as [|e evs IH]; simpl in *.
  - destruct rest as [|[] ?]; simpl in *; done.
  - apply andb_true_iff in Hf as [He Hf]. destruct e; simpl in *; try done;
      f_equal; auto.
Qed.

Lemma visits_of_skip evs rest :
  forallb (λ e, negb (is_visit_start e)) evs = true →
  visits_of (evs ++ rest) = visits_of rest.
Proof.
  intros Hf. induction evs as [|e evs IH]; simpl in *; [done|].
  apply andb_true_iff in Hf as [He Hf]. destruct e; simpl in *; auto; done.
Qed.

Lemma runs_no_visit runs :
  forallb is_run_cmd runs = true →
  forallb (λ e, negb (is_visit_start e)) runs = true.
Proof.
  induction runs as [|e runs IH]; simpl; [done|].
  intros [He Hf]%andb_true_iff. rewrite IH; [|done]. by destruct e.
Qed.

(** The loop of one cycle, started anywhere in the list: [rest] is what is
    still to be visited, [copy] and [failed] the locals. *)
Lemma auto_fold_spec lp a rest :
  ∀ copy failed (s : Store R),
    rest ⊆+ copy →
    let r := for_fold rest (auto_body lp a) (copy, failed) s in
    let obs := visits_of (events r) in
    starts_visit (events r)
    ∧ tasks (store r) = tasks s
    ∧ fmap v_task obs = rest
    ∧ ∃ copy',
        out r = Ok (copy', failed ++ failures obs)
        ∧ copy' `sublist_of` copy
        ∧ copy' ++ ended_tasks obs ≡ₚ copy.
Proof.
  induction rest as [|t rest IH]; intros copy failed s Hsub; simpl.
  - repeat split; try done. exists copy. unfold failures, ended_tasks. simpl.
    by rewrite !app_nil_r.
  - destruct (auto_body_spec lp a t copy failed s)
      as (Ht & e & names & runs & He & Hf & Ho).
    assert (∀ ev', starts_visit ev' →
      visits_of (events (auto_body lp a t (copy, failed) s) ++ ev') =
      {| v_task := t; v_ended := e; v_failed := existsb run_failed runs |}
        :: visits_of ev') as Hv.
    { intros ev' Hs. rewrite He. simpl.
      change (EvGetTaskStatus [t] :: EvOutputFileNames names :: runs ++ ev')
        with (([EvGetTaskStatus [t]; EvOutputFileNames names] ++ runs) ++ ev').
      rewrite until_next_visit_app, visits_of_skip; try done.
      all: simpl; by apply runs_no_visit. }
    assert (starts_visit (events (auto_body lp a t (copy, failed) s) ++
              events (for_fold rest (auto_body lp a) (copy, failed) s)))
      as _ by (by rewrite He).
    destruct e.
    + assert (t ∈ copy) as Hin.
      { eapply elem_of_submseteq; [|exact Hsub]. by left. }
      destruct (list_remove_elem t copy Hin) as [c Hc]. rewrite Hc in Ho.
      pose proof (list_remove_perm _ _ _ Hc) as Hp.
      rewrite (bind_ok _ _ _ _ Ho). cbn [out store events].
      set (failed1 := if existsb run_failed runs then failed ++ [t]
                      else failed) in *.
      destruct (IH c failed1 (store (auto_body lp a t (copy, failed) s)))
        as (Hs & Ht' & Hm & copy' & Ho' & Hsl & Hpm).
      { rewrite Hp in Hsub. by apply (submseteq_app_inv_l _ _ [t]). }
      rewrite Hv; [|done]. cbn [fmap list_fmap v_task].
      split; [by rewrite He|]. split; [congruence|].
      split; [by rewrite Hm|].
      exists copy'. rewrite Ho'. split.
      * f_equal. f_equal. unfold failures, failed1.
        destruct (existsb run_failed runs) eqn:Ex.
        -- rewrite filter_cons_True by done. cbn [fmap list_fmap v_task].
           by rewrite <-app_assoc.
        -- rewrite filter_cons_False; [done|]. cbn. intros []. congruence.
      * split.
        -- etrans; [exact Hsl|]. by eapply list_remove_sublist.
        -- unfold ended_tasks. rewrite filter_cons_True by done.
           cbn [fmap list_fmap v_task].
           etrans; [|symmetry; exact Hp].
           etrans; [symmetry; apply Permutation_middle|].
           by constructor.
    + rewrite (bind_ok _ _ _ _ Ho). cbn [out store events].
      destruct (IH copy failed (store (auto_body lp a t (copy, failed) s)))
        as (Hs & Ht' & Hm & copy' & Ho' & Hsl & Hpm).
      { etrans; [|exact Hsub]. by apply submseteq_cons. }
      rewrite Hv; [|done]. cbn [fmap list_fmap v_task].
      split; [by rewrite He|]. split; [congruence|].
      split; [by rewrite Hm|].
      exists copy'. rewrite Ho'. split.
      * done.
      * split; [done|]. unfold ended_tasks.
        rewrite filter_cons_False; [done|]. cbn. done.
Qed.

Lemma sublist_perm_eq (l l1 l2 : list TaskId) :
  NoDup l → l1 `sublist_of` l → l2 `sublist_of` l → l1 ≡ₚ l2 → l1 = l2.
Proof.
  intros Hnd. revert l1 l2.
  induction Hnd as [|x l Hx Hnd IH]; intros l1 l2 H1 H2 Hp.
  - apply sublist_nil_r in H1, H2. by subst.
  - apply sublist_cons_r in H1 as [H1|(l1' & -> & H1)];
      apply sublist_cons_r in H2 as [H2|(l2' & -> & H2)].
    + by apply IH.
    + exfalso. apply Hx. eapply elem_of_sublist; [|exact H1].
      rewrite Hp. by left.
    + exfalso. apply Hx. eapply elem_of_sublist; [|exact H2].
      rewrite <-Hp. by left.
    + f_equal. apply IH; [done..|]. by apply (inj (cons x)).
Qed.

Lemma visits_partition (obs : list Visit) :
  fmap v_task obs ≡ₚ survivors obs ++ ended_tasks obs.
Proof.
  unfold survivors, ended_tasks.
  induction obs as [|v obs IH]; [done|].
  rewrite !filter_cons. destruct v as [t [] d]; simpl.
  - etrans; [|apply Permutation_middle]. by constructor.
  - by constructor.
Qed.

Lemma NoDup_fmap_inj_on (obs : list Visit) v w :
  NoDup (fmap v_task obs) → v ∈ obs → w ∈ obs → v_task v = v_task w → v = w.
Proof.
  induction obs as [|u obs IH]; simpl.
  - by intros _ ?%elem_of_nil.
  - intros [Hu Hnd]%NoDup_cons [->|Hv]%elem_of_cons [->|Hw]%elem_of_cons E;
      [done| | |by apply IH].
    + exfalso. apply Hu. rewrite E. by apply list_elem_of_fmap_2.
    + exfalso. apply Hu. rewrite <-E. by apply list_elem_of_fmap_2.
Qed.

Lemma auto_loop_exit fuel st lp a l failed (s : Store R) l' fl :
  out (auto_loop fuel st lp a l failed s) = Ok (l', fl) → l' = [].
Proof.
  revert l failed s.
  induction fuel as [|fuel IH]; intros l failed s; simpl; [done|].
  destruct l as [|t l]; simpl; [by intros [= <- _]|].
  unfold bind.
  destruct (out (auto_cycle st lp a (t :: l) failed s)) as [loc| |];
    simpl; [|done..].
  apply IH.
Qed.

(** *** The bodies of the status-polling loops *)

Lemma run_cc_download_run t lp a dt (s : Store R) :
  _run_cc_download [t] lp a dt s =
    match cc_output dt t with
    | None => mkResult (Ok tt) s []
    | Some output =>
        let cmd := trans_create_cmd (download_params lp output a) None
                     (engine a) None in
        let cr := exec_cmd (remote s) cmd (download_kw a) in
        mkResult (if decide (cr.1 ≠ 0%Z)
                  then Raise (DownloadFailed (output +:+ " Download failed"))
                  else Ok tt)
                 (mkStore cr.2 (tasks s))
                 [EvRunCmd cmd (download_kw a) cr.1]
    end.
Proof.
  unfold _run_cc_download, cc_output.
  repeat case_decide; try done; cbn [for_each];
    unfold create_cmd, run_cmd; rewrite bind_assoc, bind_call; cbv zeta;
    case_decide; done.
Qed.

Lemma run_cc_download_cases t lp a dt (s : Store R) :
  let d := _run_cc_download [t] lp a dt s in
  tasks (store d) = tasks s
  ∧ forallb is_run_cmd (events d) = true
  ∧ ((out d = Ok tt ∧ existsb run_failed (events d) = false)
     ∨ (∃ m, out d = Raise (DownloadFailed m)
             ∧ existsb run_failed (events d) = true)).
Proof.
  rewrite run_cc_download_run. destruct (cc_output dt t) as [o|]; simpl.
  - split; [done|]. split; [done|]. case_decide as Hc.
    + right. eexists. split; [done|]. rewrite orb_false_r.
      by apply negb_true_iff, Z.eqb_neq.
    + left. split; [done|]. rewrite orb_false_r.
      apply negb_false_iff, Z.eqb_eq.
      destruct (decide ((exec_cmd (remote s)
        (trans_create_cmd (download_params lp o a) None (engine a) None)
        (download_kw a)).1 = 0%Z)); tauto.
  - split; [done|]. split; [done|]. by left.
Qed.

Lemma cc_attempt_spec t lp a dt (s : Store R) :
  let d := _run_cc_download [t] lp a dt s in
  let r := try_except_DownloadFailed
             (let! _ := _run_cc_download [t] lp a dt in ret true)
             (ret false) s in
  (out d = Ok tt ∨ ∃ m, out d = Raise (DownloadFailed m))
  ∧ tasks (store d) = tasks s
  ∧ store r = store d ∧ events r = events d
  ∧ out r = Ok (match out d with Ok _ => true | _ => false end).
Proof.
  destruct (run_cc_download_cases t lp a dt s) as (Ht & _ & Ho).
  cbv zeta. unfold try_except_DownloadFailed.
  destruct Ho as [[Ho _]|(m & Ho & _)].
  - rewrite (bind_ok _ _ _ _ Ho). cbn [out store events ret].
    rewrite Ho, app_nil_r. eauto 10.
  - rewrite (bind_raised _ _ _ _ Ho). cbn [out store events ret].
    rewrite Ho, app_nil_r. eauto 10.
Qed.

(** [block_body], run: the poll of the whole list, the assertion, the
    guarded download, the removal. *)
Lemma block_body_run lp a dt t (s : Store R) :
  let st := mt_get_task_status (remote s) (tasks s) in
  let sb := mt_get_sub_status st.2 st.1 in
  let s2 := mkStore sb.2 (tasks s) in
  let pre := [EvGetTaskStatus (tasks s); EvGetSubStatus sb.1] in
  let d := _run_cc_download [t] lp a dt s2 in
  block_body lp a dt t s =
    if str_in "45" sb.1 then mkResult (Raise AssertionError) s2 pre
    else if str_in "25" sb.1 then
      match out d with
      | Ok _ =>
          match list_remove t (tasks s) with
          | Some l' =>
              mkResult (Ok tt) (mkStore (remote (store d)) l')
                       (pre ++ events d)
          | None =>
              mkResult (Raise (ValueError "list.remove(x): x not in list"))
                       (store d) (pre ++ events d)
          end
      | _ => mkResult (Ok tt) (store d) (pre ++ events d)
      end
    else mkResult (Ok tt) s2 pre.
Proof.
  cbv zeta.
  unfold block_body. rewrite bind_get_tasks.
  unfold get_task_status, get_sub_status. rewrite !bind_call. cbv zeta.
  cbn [remote tasks].
  set (st := mt_get_task_status (remote s) (tasks s)).
  set (sb := mt_get_sub_status st.2 st.1).
  set (s2 := mkStore sb.2 (tasks s)).
  destruct (str_in "45" sb.1); [done|]. cbn [negb py_assert].
  rewrite bind_ret.
  destruct (str_in "25" sb.1); [|done].
  destruct (cc_attempt_spec t lp a dt s2) as (Hc & Ht & Hs & He & Ho).
  rewrite (bind_ok _ _ _ _ Ho). rewrite Hs, He.
  set (d := _run_cc_download [t] lp a dt s2) in *.
  destruct Hc as [Hc|[m Hc]]; rewrite Hc.
  - unfold tasks_remove. rewrite bind_get_tasks, Ht. cbn [tasks s2].
    destruct (list_remove t (tasks s)); cbn [out store events set_tasks raise];
      by rewrite app_nil_r.
  - cbn [out store events ret]. by rewrite app_nil_r.
Qed.

(** [cc_body], run. *)
Lemma cc_body_run lp a dt t (s : Store R) :
  let st := mt_get_task_status (remote s) (tasks s) in
  let rt := mt_get_render_type st.2 st.1 in
  let sb := mt_get_sub_status rt.2 st.1 in
  let s2 := mkStore sb.2 (tasks s) in
  let pre := [EvGetTaskStatus (tasks s); EvGetRenderType rt.1;
              EvGetSubStatus sb.1] in
  let d := _run_cc_download [t] lp a dt s2 in
  cc_body lp a dt t s =
    if str_in "45" sb.1 then mkResult (Raise AssertionError) s2 pre
    else if str_in "Rebuild" rt.1 && bool_decide (2 < length rt.1)
            && is_done sb.1 then
      match out d with
      | Ok _ =>
          match list_remove t (tasks s) with
          | Some l' =>
              mkResult (Ok tt) (mkStore (remote (store d)) l')
                       (pre ++ EvSleep 5 :: events d)
          | None =>
              mkResult (Raise (ValueError "list.remove(x): x not in list"))
                       (store d) (pre ++ EvSleep 5 :: events d)
          end
      | Raise e => mkResult (Raise e) (store d) (pre ++ EvSleep 5 :: events d)
      | Diverge => mkResult Diverge (store d) (pre ++ EvSleep 5 :: events d)
      end
    else mkResult (Ok tt) s2 pre.
Proof.
  cbv zeta.
  unfold cc_body. rewrite bind_get_tasks.
  unfold get_task_status, get_render_type, get_sub_status.
  rewrite !bind_call. cbv zeta. cbn [remote tasks].
  set (st := mt_get_task_status (remote s) (tasks s)).
  set (rt := mt_get_render_type st.2 st.1).
  set (sb := mt_get_sub_status rt.2 st.1).
  set (s2 := mkStore sb.2 (tasks s)).
  destruct (str_in "45" sb.1); [done|]. cbn [negb py_assert].
  rewrite bind_ret.
  destruct (str_in "Rebuild" rt.1 && bool_decide (2 < length rt.1)
            && is_done sb.1); [|done].
  unfold sleep. rewrite bind_emit.
  destruct (run_cc_download_cases t lp a dt s2) as (Ht & _ & Ho).
  set (d := _run_cc_download [t] lp a dt s2) in *.
  destruct Ho as [[Ho _]|(m & Ho & _)].
  - rewrite (bind_ok _ _ _ _ Ho). fold d. rewrite Ho.
    unfold tasks_remove. rewrite bind_get_tasks, Ht. cbn [tasks s2].
    destruct (list_remove t (tasks s)); cbn [out store events set_tasks raise];
      by rewrite app_nil_r.
  - rewrite (bind_raised _ _ _ _ Ho). fold d. by rewrite Ho.
Qed.

(** [after_body], run. *)
Lemma after_body_run lp a t (s : Store R) :
  let e := mt_is_task_end (remote s) t in
  let s1 := mkStore e.2 (tasks s) in
  let d := _run_download [t] lp a None s1 in
  after_body lp a t s =
    if e.1 then
      match out d with
      | Ok _ =>
          match list_remove t (tasks s) with
          | Some l' =>
              mkResult (Ok tt) (mkStore (remote (store d)) l')
                       (EvIsTaskEnd t true :: EvSleep 5 :: events d)
          | None =>
              mkResult (Raise (ValueError "list.remove(x): x not in list"))
                       (store d) (EvIsTaskEnd t true :: EvSleep 5 :: events d)
          end
      | Raise x =>
          mkResult (Raise x) (store d)
                   (EvIsTaskEnd t true :: EvSleep 5 :: events d)
      | Diverge =>
          mkResult Diverge (store d)
                   (EvIsTaskEnd t true :: EvSleep 5 :: events d)
      end
    else mkResult (Ok tt) s1 [EvIsTaskEnd t false].
Proof.
  cbv zeta. unfold after_body, is_task_end. rewrite bind_call. cbv zeta.
  set (e := mt_is_task_end (remote s) t).
  set (s1 := mkStore e.2 (tasks s)).
  destruct e.1; [|done].
  unfold sleep. rewrite bind_emit.
  destruct (run_download_spec t lp a s1)
    as (Ht & names & runs & _ & _ & Ho).
  set (d := _run_download [t] lp a None s1) in *.
  destruct Ho as [[Ho _]|(m & Ho & _)].
  - rewrite (bind_ok _ _ _ _ Ho). fold d. rewrite Ho.
    unfold tasks_remove. rewrite bind_get_tasks, Ht. cbn [tasks s1].
    destruct (list_remove t (tasks s)); cbn [out store events set_tasks raise];
      by rewrite app_nil_r.
  - rewrite (bind_raised _ _ _ _ Ho). fold d. by rewrite Ho.
Qed.

(** *** The index loop, without fuel *)

(** With the fuel [for_tasks] supplies, a loop over tame bodies is a run
    of [for_run]. *)
Lemma for_tasks_from_run body (L : nat) :
  (∀ t, tame (body t)) →
  ∀ fuel i (s : Store R),
    length (tasks s) ≤ L → i ≤ L → L < fuel + i →
    for_run body i s (for_tasks_from fuel body i s).
Proof.
  intros Hb fuel. induction fuel as [|fuel IH]; intros i s HL Hi Hf.
  - lia.
  - simpl. destruct (tasks s !! i) as [t|] eqn:E; [|by constructor].
    pose proof (lookup_lt_Some _ _ _ E) as Hlt.
    destruct (Hb t s) as [Hd Hs]. apply sublist_length in Hs.
    destruct (out (body t s)) as [u|e|] eqn:Ho; [| |done].
    + destruct u. rewrite (bind_ok _ _ _ _ Ho).
      eapply for_run_next; [done..|]. apply IH; lia.
    + rewrite (bind_raised _ _ _ _ Ho). by eapply for_run_raise.
Qed.

Lemma for_tasks_run body (s : Store R) :
  (∀ t, tame (body t)) → for_run body 0 s (for_tasks body s).
Proof.
  intros Hb. unfold for_tasks.
  apply (for_tasks_from_run body (length (tasks s))); auto; lia.
Qed.

(** *** Status polls in a cycle *)

Lemma count_status_calls_app evs1 evs2 :
  count_status_calls (evs1 ++ evs2) =
    count_status_calls evs1 + count_status_calls evs2.
Proof. unfold count_status_calls. by rewrite filter_app, length_app. Qed.

Lemma count_status_calls_runs evs :
  forallb is_run_cmd evs = true → count_status_calls evs = 0.
Proof.
  unfold count_status_calls. induction evs as [|e evs IH]; [done|].
  simpl. intros [He Hf]%andb_true_iff. rewrite filter_cons.
  destruct e; try done; simpl; auto.
Qed.

Lemma status_call_not_run evs ids :
  forallb is_run_cmd evs = true → EvGetTaskStatus ids ∉ evs.
Proof.
  induction evs as [|e evs IH]; simpl.
  - by intros _ ?%elem_of_nil.
  - intros [He Hf]%andb_true_iff [<-|Hin]%elem_of_cons; [done|by apply IH].
Qed.

(** A body polls once when its first event is a status call for the whole
    list and no other status call follows. *)
Lemma block_body_polls_once lp a dt t (s : Store R) :
  ∃ rest, events (block_body lp a dt t s) = EvGetTaskStatus (tasks s) :: rest
          ∧ count_status_calls rest = 0
          ∧ ∀ ids, EvGetTaskStatus ids ∉ rest.
Proof.
  rewrite block_body_run. cbv zeta.
  set (st := mt_get_task_status (remote s) (tasks s)).
  set (sb := mt_get_sub_status st.2 st.1).
  set (s2 := mkStore sb.2 (tasks s)).
  destruct (run_cc_download_cases t lp a dt s2) as (_ & Hf & _).
  set (d := _run_cc_download [t] lp a dt s2) in *.
  assert (count_status_calls (EvGetSubStatus sb.1 :: events d) = 0
          ∧ ∀ ids, EvGetTaskStatus ids ∉ EvGetSubStatus sb.1 :: events d)
    as [H1 H2].
  { split.
    - change (EvGetSubStatus sb.1 :: events d)
        with ([EvGetSubStatus sb.1] ++ events d).
      by rewrite count_status_calls_app,
        (count_status_calls_runs (events d) Hf).
    - intros ids [?|?]%elem_of_cons; [done|].
      by eapply status_call_not_run. }
  assert (∀ ids, EvGetTaskStatus ids ∉ [EvGetSubStatus sb.1]) as H3.
  { intros ids [?|?%elem_of_nil]%elem_of_cons; done. }
  destruct (str_in "45" sb.1); [by eexists|].
  destruct (str_in "25" sb.1); [|by eexists].
  destruct (out d) as [u|e|]; [destruct (list_remove t (tasks s))|..];
    by eexists.
Qed.

Lemma cc_body_polls_once lp a dt t (s : Store R) :
  ∃ rest, events (cc_body lp a dt t s) = EvGetTaskStatus (tasks s) :: rest
          ∧ count_status_calls rest = 0
          ∧ ∀ ids, EvGetTaskStatus ids ∉ rest.
Proof.
  rewrite cc_body_run. cbv zeta.
  set (st := mt_get_task_status (remote s) (tasks s)).
  set (rt := mt_get_render_type st.2 st.1).
  set (sb := mt_get_sub_status rt.2 st.1).
  set (s2 := mkStore sb.2 (tasks s)).
  destruct (run_cc_download_cases t lp a dt s2) as (_ & Hf & _).
  set (d := _run_cc_download [t] lp a dt s2) in *.
  set (pre := [EvGetRenderType rt.1; EvGetSubStatus sb.1]).
  assert (count_status_calls (pre ++ EvSleep 5 :: events d) = 0
          ∧ ∀ ids, EvGetTaskStatus ids ∉ pre ++ EvSleep 5 :: events d)
    as [H1 H2].
  { split.
    - change (pre ++ EvSleep 5 :: events d)
        with ((pre ++ [EvSleep 5]) ++ events d).
      by rewrite count_status_calls_app,
        (count_status_calls_runs (events d) Hf).
    - intros ids Hin. simpl in Hin.
      apply elem_of_cons in Hin as [?|Hin]; [done|].
      apply elem_of_cons in Hin as [?|Hin]; [done|].
      apply elem_of_cons in Hin as [?|Hin]; [done|].
      by eapply status_call_not_run. }
  assert (∀ ids, EvGetTaskStatus ids ∉ pre) as H3.
  { intros ids Hin. simpl in Hin.
    apply elem_of_cons in Hin as [?|Hin]; [done|].
    apply elem_of_cons in Hin as [?|Hin%elem_of_nil]; done. }
  destruct (str_in "45" sb.1); [by eexists|].
  destruct (_ && _); [|by eexists].
  destruct (out d) as [u|e|]; [destruct (list_remove t (tasks s))|..];
    by eexists.
Qed.

(** The loop polls once per visit: the number of status calls is the
    number of visits, which lies between the length the list ends with and
    the length it starts with; every call is given the list as it is
    then. *)
Lemma for_run_polls body i (s : Store R) r :
  (∀ t, tame (body t)) →
  (∀ t s, ∃ rest,
      events (body t s) = EvGetTaskStatus (tasks s) :: rest
      ∧ count_status_calls rest = 0
      ∧ ∀ ids, EvGetTaskStatus ids ∉ rest) →
  for_run body i s r →
  let n := count_status_calls (events r) in
  tasks (store r) `sublist_of` tasks s
  ∧ (out r = Ok tt → length (tasks (store r)) ≤ i + n)
  ∧ (n = 0 ∨ i + n ≤ length (tasks s))
  ∧ (∀ ids, EvGetTaskStatus ids ∈ events r →
       tasks (store r) `sublist_of` ids ∧ ids `sublist_of` tasks s).
Proof.
  intros Hb Hp Hr. induction Hr as [i s Hi|i s t r Hi Ho Hr IH|i s t e Hi Ho];
    cbn [out store events].
  - split; [done|]. split; [|split; [by left|]].
    + intros _. apply lookup_ge_None in Hi. simpl. lia.
    + by intros ids ?%elem_of_nil.
  - destruct IH as (Hs & Ha & Hn & Hids).
    destruct (Hb t s) as [_ Hts].
    destruct (Hp t s) as (rest & He & Hc & Hnone).
    pose proof (lookup_lt_Some _ _ _ Hi) as Hlt.
    pose proof (sublist_length _ _ Hts) as Hlen.
    rewrite count_status_calls_app, He.
    change (count_status_calls (EvGetTaskStatus (tasks s) :: rest))
      with (S (count_status_calls rest)).
    rewrite Hc. split; [by etrans|]. split; [|split].
    + intros Hok. specialize (Ha Hok). lia.
    + right. destruct Hn as [->|Hn]; lia.
    + intros ids [Hin|Hin]%elem_of_app.
      * apply elem_of_cons in Hin as [[= ->]|Hin]; [|by apply Hnone in Hin].
        split; [by etrans|done].
      * destruct (Hids ids Hin). split; [done|by etrans].
  - destruct (Hb t s) as [_ Hts].
    destruct (Hp t s) as (rest & He & Hc & Hnone).
    pose proof (lookup_lt_Some _ _ _ Hi) as Hlt.
    rewrite He.
    change (count_status_calls (EvGetTaskStatus (tasks s) :: rest))
      with (S (count_status_calls rest)).
    rewrite Hc. split; [done|]. split; [done|]. split; [right; lia|].
    intros ids [[= ->]|Hin]%elem_of_cons; [done|by apply Hnone in Hin].
Qed.

(** *** Runs that halt at an event *)

Section Halts.
Context (trig : Event → bool) (fin : exn → Prop).

Lemma halts_silent {A} (r : Result R A) :
  forallb (λ e, negb (trig e)) (events r) = true → halts_at trig fin r.
Proof.
  intros Hf pre e post He Ht. exfalso. rewrite He in Hf.
  rewrite forallb_app in Hf. apply andb_true_iff in Hf as [_ Hf].
  simpl in Hf. by rewrite Ht in Hf.
Qed.

Lemma halting_ret {A} (a : A) : halting trig fin (ret (R := R) a).
Proof. intros s. by apply halts_silent. Qed.

Lemma halting_raise {A} e : halting trig fin (raise (R := R) (A := A) e).
Proof. intros s. by apply halts_silent. Qed.

Lemma halting_get_tasks : halting trig fin (get_tasks (R := R)).
Proof. intros s. by apply halts_silent. Qed.

Lemma halting_emit e : trig e = false → halting trig fin (emit (R := R) e).
Proof. intros He s. apply halts_silent. simpl. by rewrite He. Qed.

Lemma halting_call {A} (f : R → A * R) ev :
  (∀ a, trig (ev a) = false) → halting trig fin (call f ev).
Proof. intros He s. apply halts_silent. simpl. by rewrite He. Qed.

Lemma halting_tasks_remove t : halting trig fin (tasks_remove (R := R) t).
Proof.
  intros s. apply halts_silent. unfold tasks_remove.
  rewrite bind_get_tasks. by destruct (list_remove t (tasks s)).
Qed.

Lemma halting_py_assert c : halting trig fin (py_assert (R := R) c).
Proof. destruct c; [apply halting_ret|apply halting_raise]. Qed.

Lemma halts_seq {A B} (r1 : Result R A) (r2 : Result R B) :
  halts_at trig fin r1 → (∀ x, out r1 = Raise x → ¬ fin x) →
  halts_at trig fin r2 →
  halts_at trig fin (mkResult (out r2) (store r2) (events r1 ++ events r2)).
Proof.
  intros H1 Hn H2 pre e post He Ht. cbn [out events] in *.
  apply app_eq_inv in He as [(k & E1 & E2)|(k & E1 & E2)].
  - destruct k as [|e' k].
    + simpl in E2. apply (H2 [] e post); [by rewrite <-E2|done].
    + simplify_eq/=. exfalso.
      destruct (H1 pre _ k E1 Ht) as (_ & x & Hx & Hf).
      by apply (Hn x).
  - by apply (H2 k e post).
Qed.

Lemma halting_bind {A B} (m : M R A) (f : A → M R B) :
  halting trig fin m → (∀ a, halting trig fin (f a)) →
  halting trig fin (bind m f).
Proof.
  intros Hm Hf s. unfold bind.
  destruct (out (m s)) as [a|x|] eqn:Ho.
  - apply halts_seq; [apply Hm|by rewrite Ho|apply Hf].
  - intros pre e post He Ht. cbn [out events] in *.
    destruct (Hm s pre e post He Ht) as (-> & y & Hy & Hfy).
    split; [done|]. exists y. split; [congruence|done].
  - intros pre e post He Ht. cbn [out events] in *.
    destruct (Hm s pre e post He Ht) as (-> & y & Hy & Hfy). congruence.
Qed.

Lemma halting_try {A} (m h : M R A) :
  (∀ x, fin x → ¬ is_download_failed x) →
  halting trig fin m → halting trig fin h →
  halting trig fin (try_except_DownloadFailed m h).
Proof.
  intros Hfin Hm Hh s. unfold try_except_DownloadFailed.
  destruct (out (m s)) as [a|[]|] eqn:Ho; try apply Hm.
  apply halts_seq; [apply Hm| |apply Hh].
  intros x Hx Hf. apply (Hfin x Hf). rewrite Ho in Hx.
  injection Hx as <-. by eexists.
Qed.

Lemma halting_for_each {A} (l : list A) (body : A → M R unit) :
  (∀ x, halting trig fin (body x)) → halting trig fin (for_each l body).
Proof.
  intros Hb. induction l as [|x l IH]; simpl.
  - apply halting_ret.
  - apply halting_bind; auto.
Qed.

Lemma halting_for_fold {A S} (l : list A) (body : A → S → M R S) acc :
  (∀ x a, halting trig fin (body x a)) →
  halting trig fin (for_fold l body acc).
Proof.
  intros Hb. revert acc. induction l as [|x l IH]; intros acc; simpl.
  - apply halting_ret.
  - apply halting_bind; auto.
Qed.

Lemma halting_for_tasks_from fuel (body : TaskId → M R unit) i :
  (∀ t, halting trig fin (body t)) →
  halting trig fin (for_tasks_from fuel body i).
Proof.
  intros Hb. revert i. induction fuel as [|fuel IH]; intros i s; simpl.
  - by apply halts_silent.
  - destruct (tasks s !! i); [|apply halting_ret].
    apply halting_bind; auto.
Qed.

Lemma halting_for_tasks (body : TaskId → M R unit) :
  (∀ t, halting trig fin (body t)) → halting trig fin (for_tasks body).
Proof. intros Hb s. by apply halting_for_tasks_from. Qed.

Lemma halting_while_tasks fuel (cycle : M R unit) :
  halting trig fin cycle → halting trig fin (while_tasks fuel cycle).
Proof.
  intros Hc. induction fuel as [|fuel IH]; simpl.
  - intros s. by apply halts_silent.
  - apply halting_bind; [apply halting_get_tasks|]. intros l.
    destruct (not_list l); [apply halting_ret|].
    apply halting_bind; auto.
Qed.

End Halts.

(** One step of a proof that a computation is halting: the rule for the
    head of the computation. *)
Ltac halting_step :=
  lazymatch goal with
  | |- halting _ _ (ret _) => apply halting_ret
  | |- halting _ _ (raise _) => apply halting_raise
  | |- halting _ _ get_tasks => apply halting_get_tasks
  | |- halting _ _ (tasks_remove _) => apply halting_tasks_remove
  | |- halting _ _ (py_assert _) => apply halting_py_assert
  | |- halting _ _ (emit _) => apply halting_emit; reflexivity
  | |- halting _ _ (sleep _) => apply halting_emit; reflexivity
  | |- halting _ _ (call _ _) => apply halting_call; intros ?; reflexivity
  | |- halting _ _ (bind _ _) => apply halting_bind; [|intros ?]
  | |- halting _ _ (for_each _ _) => apply halting_for_each; intros ?
  | |- halting _ _ (for_fold _ _ _) => apply halting_for_fold; intros ? ?
  | |- halting _ _ (for_tasks _) => apply halting_for_tasks; intros ?
  | |- halting _ _ (while_tasks _ _) => apply halting_while_tasks
  | |- halting _ _ (if ?c then _ else _) => destruct c
  | |- halting _ _ (match ?c with _ => _ end) => destruct c
  end.

(** **** The illegal code *)

Lemma illegal_try {A} (m h : M R A) :
  halting shows_illegal is_assertion m →
  halting shows_illegal is_assertion h →
  halting shows_illegal is_assertion (try_except_DownloadFailed m h).
Proof. apply halting_try. by intros x -> [m' ?]. Qed.

Lemma illegal_run_download l lp a sp :
  halting shows_illegal is_assertion (_run_download l lp a sp).
Proof.
  unfold _run_download, download_one, run_cmd, get_task_status,
    output_file_names. repeat halting_step.
Qed.

Lemma illegal_run_cc_download l lp a dt :
  halting shows_illegal is_assertion (_run_cc_download l lp a dt).
Proof. unfold _run_cc_download, create_cmd, run_cmd. repeat halting_step. Qed.

(** The poll and the assertion that follows it. *)
Lemma illegal_poll {B} st (k : list string → M R B) :
  (∀ subs, halting shows_illegal is_assertion (k subs)) →
  halting shows_illegal is_assertion
    (let! subs := get_sub_status st in
     let! _ := py_assert (negb (str_in "45" subs)) in
     k subs).
Proof.
  intros Hk s. unfold get_sub_status. rewrite bind_call. cbv zeta.
  set (sb := mt_get_sub_status (remote s) st).
  set (s2 := mkStore sb.2 (tasks s)).
  destruct (str_in "45" sb.1) eqn:E45; cbn [negb py_assert].
  - rewrite bind_raise. cbn [raise out store events].
    intros pre e post He Ht.
    destruct pre as [|e' [|]]; simplify_eq/=.
    split; [done|]. by exists AssertionError.
  - rewrite bind_ret. intros pre e post He Ht. cbn [out events] in *.
    destruct pre as [|e' pre]; simpl in He; injection He as ? He; subst.
    + simpl in Ht. congruence.
    + by apply (Hk sb.1 s2 pre e post).
Qed.

Lemma illegal_block_body lp a dt t :
  halting shows_illegal is_assertion (block_body lp a dt t).
Proof.
  unfold block_body, get_task_status.
  apply halting_bind; [halting_step|intros l].
  apply halting_bind; [halting_step|intros st].
  apply illegal_poll. intros subs.
  destruct (str_in "25" subs); [|halting_step].
  apply halting_bind; [|intros flag; destruct flag; halting_step].
  apply illegal_try; [|halting_step].
  apply halting_bind; [apply illegal_run_cc_download|intros; halting_step].
Qed.

Lemma illegal_cc_body lp a dt t :
  halting shows_illegal is_assertion (cc_body lp a dt t).
Proof.
  unfold cc_body, get_task_status, get_render_type.
  apply halting_bind; [halting_step|intros l].
  apply halting_bind; [halting_step|intros st].
  apply halting_bind; [halting_step|intros rt].
  apply illegal_poll. intros subs.
  destruct (_ && _); [|halting_step].
  apply halting_bind; [halting_step|intros _].
  apply halting_bind; [apply illegal_run_cc_download|intros; halting_step].
Qed.

Lemma illegal_after_body lp a t :
  halting shows_illegal is_assertion (after_body lp a t).
Proof.
  unfold after_body, is_task_end.
  apply halting_bind; [halting_step|intros e].
  destruct e; [|halting_step].
  apply halting_bind; [halting_step|intros _].
  apply halting_bind; [apply illegal_run_download|intros; halting_step].
Qed.

Lemma illegal_auto_body lp a t loc :
  halting shows_illegal is_assertion (auto_body lp a t loc).
Proof.
  unfold auto_body, is_task_end.
  apply halting_bind; [halting_step|intros e].
  apply halting_bind; [|intros flag; repeat halting_step].
  apply illegal_try; [|halting_step].
  apply halting_bind; [apply illegal_run_download|intros; halting_step].
Qed.

Lemma illegal_auto_loop fuel st lp a l failed :
  halting shows_illegal is_assertion (auto_loop fuel st lp a l failed).
Proof.
  revert l failed. induction fuel as [|fuel IH]; intros l failed; simpl.
  - intros s. by apply halts_silent.
  - destruct (not_list l); [apply halting_ret|].
    apply halting_bind; [|intros loc; apply IH].
    unfold auto_cycle. apply halting_bind; [halting_step|intros _].
    apply halting_for_fold. intros x acc. apply illegal_auto_body.
Qed.

(** **** A failed transfer, where nothing guards it *)

Lemma failfast_download_one lp a n :
  halting run_failed is_download_failed (download_one lp a n).
Proof.
  intros s pre e post He Ht. rewrite download_one_run in *.
  cbn [out events] in *.
  destruct pre as [|e' [|]]; simplify_eq/=.
  split; [done|]. apply negb_true_iff, Z.eqb_neq in Ht.
  rewrite decide_True by done. eexists. split; [done|]. by eexists.
Qed.

Lemma failfast_create_cmd lp a o :
  halting run_failed is_download_failed (create_cmd lp a o).
Proof. apply (failfast_download_one lp a o). Qed.

Lemma failfast_run_download l lp a sp :
  halting run_failed is_download_failed (_run_download l lp a sp).
Proof.
  unfold _run_download, get_task_status, output_file_names.
  apply halting_bind.
  - destruct (not_server_path sp).
    + apply halting_bind; [halting_step|intros st; halting_step].
    + destruct sp as [[]|]; halting_step.
  - intros names. apply halting_for_each. intros n.
    apply failfast_download_one.
Qed.

Lemma failfast_run_cc_download l lp a dt :
  halting run_failed is_download_failed (_run_cc_download l lp a dt).
Proof.
  unfold _run_cc_download. repeat case_decide; try halting_step;
    apply failfast_create_cmd.
Qed.

Lemma failfast_after_body lp a t :
  halting run_failed is_download_failed (after_body lp a t).
Proof.
  unfold after_body, is_task_end.
  apply halting_bind; [halting_step|intros e].
  destruct e; [|halting_step].
  apply halting_bind; [halting_step|intros _].
  apply halting_bind; [apply failfast_run_download|intros; halting_step].
Qed.

Lemma failfast_cc_body lp a dt t :
  halting run_failed is_download_failed (cc_body lp a dt t).
Proof.
  unfold cc_body, get_task_status, get_render_type, get_sub_status.
  apply halting_bind; [halting_step|intros l].
  apply halting_bind; [halting_step|intros st].
  apply halting_bind; [halting_step|intros rt].
  apply halting_bind; [halting_step|intros subs].
  apply halting_bind; [halting_step|intros _].
  destruct (_ && _); [|halting_step].
  apply halting_bind; [halting_step|intros _].
  apply halting_bind; [apply failfast_run_cc_download|intros; halting_step].
Qed.

(** *** What a loop can raise, and with what list *)

Lemma for_run_raises body (P : exn → Store R → Prop) i (s : Store R) r e :
  (∀ i s t e, tasks s !! i = Some t → out (body t s) = Raise e →
              P e (store (body t s))) →
  for_run body i s r → out r = Raise e → P e (store r).
Proof.
  intros Hb Hr. induction Hr as [i s Hi|i s t r Hi Ho Hr IH|i s t e' Hi Ho];
    cbn [out store]; [done|done|].
  intros [= ->]. by eapply Hb.
Qed.

Lemma while_tasks_raises fuel (cycle : M R unit) (P : exn → Store R → Prop)
    s e :
  (∀ s e, out (cycle s) = Raise e → P e (store (cycle s))) →
  out (while_tasks fuel cycle s) = Raise e →
  P e (store (while_tasks fuel cycle s)).
Proof.
  intros Hc. revert s.
  induction fuel as [|fuel IH]; intros s; cbn [while_tasks]; [done|].
  rewrite bind_get_tasks. destruct (not_list (tasks s)); [done|].
  destruct (out (cycle s)) as [u|x|] eqn:Ho.
  - rewrite (bind_ok _ _ _ _ Ho). cbn [out store]. apply IH.
  - rewrite (bind_raised _ _ _ _ Ho). cbn [out store]. intros [= ->].
    by apply Hc.
  - unfold bind. by rewrite Ho.
Qed.

Lemma lookup_nonempty (l : list TaskId) i t : l !! i = Some t → l ≠ [].
Proof. by destruct l. Qed.

Lemma block_body_raises lp a dt i t (s : Store R) e :
  tasks s !! i = Some t →
  out (block_body lp a dt t s) = Raise e →
  e = AssertionError ∧ tasks (store (block_body lp a dt t s)) = tasks s.
Proof.
  intros Hi. rewrite block_body_run. cbv zeta.
  destruct (str_in "45" _); [by intros [= <-]|].
  destruct (str_in "25" _); [|done].
  destruct (out (_run_cc_download _ _ _ _ _)); [|done..].
  destruct (list_remove_elem t (tasks s)) as [l' ->]; [|done].
  by eapply list_elem_of_lookup_2.
Qed.

Lemma cc_body_raises lp a dt i t (s : Store R) e :
  tasks s !! i = Some t →
  out (cc_body lp a dt t s) = Raise e →
  (e = AssertionError ∨ is_download_failed e)
  ∧ tasks (store (cc_body lp a dt t s)) = tasks s.
Proof.
  intros Hi. rewrite cc_body_run. cbv zeta.
  destruct (str_in "45" _); [intros [= <-]; auto|].
  destruct (_ && _); [|done].
  match goal with |- context [_run_cc_download [t] lp a dt ?s2] =>
    destruct (run_cc_download_cases t lp a dt s2) as (Ht & _ & Ho) end.
  destruct Ho as [[Ho _]|(m & Ho & _)]; rewrite Ho.
  - destruct (list_remove_elem t (tasks s)) as [l' ->]; [|done].
    by eapply list_elem_of_lookup_2.
  - intros [= <-]. split; [right; by eexists|done].
Qed.

Lemma after_body_raises lp a i t (s : Store R) e :
  tasks s !! i = Some t →
  out (after_body lp a t s) = Raise e →
  is_download_failed e ∧ tasks (store (after_body lp a t s)) = tasks s.
Proof.
  intros Hi. rewrite after_body_run. cbv zeta.
  destruct (mt_is_task_end _ _).1; [|done].
  match goal with |- context [_run_download [t] lp a None ?s1] =>
    destruct (run_download_spec t lp a s1)
      as (Ht & names & runs & _ & _ & Ho) end.
  destruct Ho as [[Ho _]|(m & Ho & _)]; rewrite Ho.
  - destruct (list_remove_elem t (tasks s)) as [l' ->]; [|done].
    by eapply list_elem_of_lookup_2.
  - intros [= <-]. split; [by eexists|done].
Qed.

(** A cycle of a status or end-of-task loop that raises leaves the list
    as the failing visit found it, hence not empty. *)
Lemma cycle_raises (body : TaskId → M R unit) (P : exn → Prop) st
    (s : Store R) e :
  (∀ t, tame (body t)) →
  (∀ i s t e, tasks s !! i = Some t → out (body t s) = Raise e →
              P e ∧ tasks (store (body t s)) = tasks s) →
  let r := bind (sleep st) (λ _, for_tasks body) s in
  out r = Raise e → P e ∧ tasks (store r) ≠ [].
Proof.
  intros Hb Hr. cbv zeta. unfold sleep. rewrite bind_emit. cbn [out store].
  apply (for_run_raises body (λ e s', P e ∧ tasks s' ≠ []) 0 s);
    [|by apply for_tasks_run].
  intros i s' t e' Hi Ho. destruct (Hr i s' t e' Hi Ho) as [HP ->].
  split; [done|]. by eapply lookup_nonempty.
Qed.

Lemma auto_loop_no_raise fuel st lp a l failed (s : Store R) e :
  out (auto_loop fuel st lp a l failed s) ≠ Raise e.
Proof.
  revert l failed s.
  induction fuel as [|fuel IH]; intros l failed s; simpl; [done|].
  destruct (not_list l); [done|].
  assert (∃ loc, out (auto_cycle st lp a l failed s) = Ok loc) as [loc Ho].
  { unfold auto_cycle, sleep. rewrite bind_emit. cbn [out].
    destruct (auto_fold_spec lp a l l failed s (reflexivity _))
      as (_ & _ & _ & l' & Ho & _). by eexists. }
  rewrite (bind_ok _ _ _ _ Ho). cbn [out]. apply IH.
Qed.

(** *** The completion predicate of the rebuild-aware mode *)

Lemma len_set_one subs : len_set subs = 1 ↔ one_code subs.
Proof.
  unfold len_set, one_code. split.
  - destruct (remove_dups subs) as [|c [|]] eqn:E; try done. intros _.
    exists c. split.
    + apply elem_of_remove_dups. rewrite E. by left.
    + intros x Hx%elem_of_remove_dups. rewrite E in Hx.
      by apply list_elem_of_singleton in Hx.
  - intros (c & Hc & Hall).
    pose proof (NoDup_remove_dups subs) as Hnd.
    apply elem_of_remove_dups in Hc.
    assert (∀ x, x ∈ remove_dups subs → x = c) as Hall'.
    { intros x Hx. by apply Hall, elem_of_remove_dups. }
    destruct (remove_dups subs) as [|x [|y l]]; [by apply elem_of_nil in Hc|done|].
    exfalso. apply NoDup_cons in Hnd as [Hx _]. apply Hx.
    rewrite (Hall' x), (Hall' y); [by left|by right; left|by left].
Qed.

Lemma sorted_pair : Sorted String.le ["25"; "30"].
Proof. repeat constructor. Qed.

Lemma sorted_set_pair subs :
  ["25"; "30"] = sorted_set subs ↔ done_pair subs.
Proof.
  unfold sorted_set, done_pair. split.
  - intros E.
    assert (remove_dups subs ≡ₚ ["25"; "30"]) as Hp.
    { by rewrite E, merge_sort_Permutation. }
    assert (∀ x, x ∈ subs ↔ x ∈ ["25"; "30"]) as Hx.
    { intros x. by rewrite <-Hp, elem_of_remove_dups. }
    split; [apply Hx; by left|]. split; [apply Hx; by right; left|].
    intros x [->|[->|?%elem_of_nil]%elem_of_cons]%Hx%elem_of_cons; auto.
    done.
  - intros (H25 & H30 & Hall).
    assert (remove_dups subs ≡ₚ ["25"; "30"]) as Hp.
    { apply NoDup_Permutation.
      - apply NoDup_remove_dups.
      - by apply NoDup_cons_2; [intros ?%list_elem_of_singleton|
                                apply NoDup_singleton].
      - intros x. rewrite elem_of_remove_dups. split.
        + intros [->| ->]%Hall; [by left|by right; left].
        + intros [->|[->|?%elem_of_nil]%elem_of_cons]%elem_of_cons; done. }
    apply (Sorted_unique String.le).
    + apply sorted_pair.
    + apply Sorted_merge_sort. apply _.
    + by rewrite merge_sort_Permutation.
Qed.

(** [is_done] computes the predicate of the specification. *)
Lemma is_done_spec subs : is_done subs = true ↔ spec_done subs.
Proof.
  unfold is_done, spec_done.
  rewrite orb_true_iff, andb_true_iff, !Nat.eqb_eq, bool_decide_eq_true.
  rewrite len_set_one, sorted_set_pair. split; [|intros [?|Hp]; [by left|]].
  - intros [?|[_ ?]]; auto.
  - right. split; [|done]. unfold len_set.
    apply sorted_set_pair in Hp. unfold sorted_set in Hp.
    by rewrite <-(merge_sort_Permutation String.le), <-Hp.
Qed.

Lemma str_in_spec x l : str_in x l = true ↔ x ∈ l.
Proof. unfold str_in. apply bool_decide_eq_true. Qed.

Lemma str_in_false x l : str_in x l = false ↔ x ∉ l.
Proof. unfold str_in. apply bool_decide_eq_false. Qed.

(** *** The retry loop of [upload_config] *)

Lemma config_retry_step fuel cmd cp times (s : Store R) :
  let cr := exec_cmd (remote s) cmd config_kw in
  let s' := mkStore cr.2 (tasks s) in
  let ev := EvRunCmd cmd config_kw cr.1 in
  config_retry (S fuel) cmd cp times s =
    if decide (cr.1 = 0%Z) then mkResult (Ok tt) s' [ev]
    else if decide (times = 9%Z) then mkResult (Raise (upload_failed cp)) s' [ev]
    else let r := config_retry fuel cmd cp (times + 1)%Z s' in
         mkResult (out r) (store r) (ev :: events r).
Proof.
  cbv zeta. cbn [config_retry]. unfold run_cmd. rewrite bind_call. cbv zeta.
  fold config_kw. cbn [truthy].
  destruct (decide ((exec_cmd (remote s) cmd config_kw).1 = 0%Z)) as [H0|H0].
  - rewrite H0. done.
  - apply Z.eqb_neq in H0. rewrite H0. cbn [negb]. by case_decide.
Qed.

Lemma attempts_events_S n c kw (r : R) :
  attempts_events (S n) c kw r =
    EvRunCmd c kw (exec_cmd r c kw).1
      :: attempts_events n c kw (exec_cmd r c kw).2.
Proof.
  unfold attempts_events. cbn [seq fmap list_fmap]. f_equal.
  rewrite <-fmap_S_seq, <-list_fmap_compose. done.
Qed.

(** With [j0] failures behind it, the loop raises after [m] more failed
    attempts when [j0 + m = 10]. *)
Lemma config_retry_exhausts cmd cp m :
  ∀ j0 fuel (s : Store R),
    j0 + m = 10 → 1 ≤ m → m ≤ fuel →
    (∀ j, j < m → attempt_code j cmd config_kw (remote s) ≠ 0%Z) →
    let r := config_retry fuel cmd cp (Z.of_nat j0) s in
    out r = Raise (upload_failed cp)
    ∧ events r = attempts_events m cmd config_kw (remote s)
    ∧ tasks (store r) = tasks s.
Proof.
  induction m as [|m IH]; intros j0 fuel s Hj Hm Hf Hfail; [lia|].
  destruct fuel as [|fuel]; [lia|]. cbv zeta.
  rewrite config_retry_step, attempts_events_S. cbv zeta.
  pose proof (Hfail 0 ltac:(lia)) as H0. unfold attempt_code in H0.
  cbn [remote_after] in H0. rewrite decide_False by done.
  destruct (decide (m = 0)) as [->|Hm0].
  - rewrite decide_True by lia. done.
  - rewrite decide_False by lia.
    replace (Z.of_nat j0 + 1)%Z with (Z.of_nat (S j0)) by lia.
    destruct (IH (S j0) fuel (mkStore (exec_cmd (remote s) cmd config_kw).2
                                 (tasks s))) as (Ho & He & Ht);
      [lia..| |].
    + intros j Hlt. apply (Hfail (S j)). lia.
    + cbn [out store events]. rewrite Ho, He. done.
Qed.

(** With [j0] failures behind it, the loop returns at the first attempt
    that succeeds, if that is attempt [k] with [j0 + k ≤ 10]. *)
Lemma config_retry_succeeds cmd cp k :
  ∀ j0 fuel (s : Store R),
    j0 + S k ≤ 10 → S k ≤ fuel →
    (∀ j, j < k → attempt_code j cmd config_kw (remote s) ≠ 0%Z) →
    attempt_code k cmd config_kw (remote s) = 0%Z →
    let r := config_retry fuel cmd cp (Z.of_nat j0) s in
    out r = Ok tt
    ∧ events r = attempts_events (S k) cmd config_kw (remote s)
    ∧ tasks (store r) = tasks s.
Proof.
  induction k as [|k IH]; intros j0 fuel s Hj Hf Hfail Hok;
    (destruct fuel as [|fuel]; [lia|]); cbv zeta;
    rewrite config_retry_step, attempts_events_S; cbv zeta.
  - unfold attempt_code in Hok. cbn [remote_after] in Hok.
    rewrite decide_True by done. done.
  - pose proof (Hfail 0 ltac:(lia)) as H0. unfold attempt_code in H0.
    cbn [remote_after] in H0. rewrite decide_False by done.
    rewrite decide_False by lia.
    replace (Z.of_nat j0 + 1)%Z with (Z.of_nat (S j0)) by lia.
    destruct (IH (S j0) fuel (mkStore (exec_cmd (remote s) cmd config_kw).2
                                 (tasks s))) as (Ho & He & Ht);
      [lia..| | |].
    + intros j Hlt. apply (Hfail (S j)). lia.
    + exact Hok.
    + cbn [out store events]. rewrite Ho, He. done.
Qed.

(** *** Removal and transfer in block mode *)

(** When a visit of block mode removes its task, a transfer of that task
    returned 0 just before if the download type is the object of the
    literal "block" or "render"; with any other download type, [None]
    included, no transfer ran. *)
Lemma block_removal_and_transfer lp a dt t (s : Store R) :
  let r := block_body lp a dt t s in
  tasks (store r) ≠ tasks s →
  match cc_output dt t with
  | Some o =>
      ∃ kw, EvRunCmd (trans_create_cmd (download_params lp o a) None
                        (engine a) None) kw 0 ∈ events r
  | None => ¬ transfer_fired (events r)
  end.
Proof.
  cbv zeta. rewrite block_body_run. cbv zeta.
  rewrite run_cc_download_run.
  destruct (str_in "45" _); [done|].
  destruct (str_in "25" _); [|done].
  destruct (cc_output dt t) as [o|]; cbv zeta; cbn [out store events].
  - case_decide as Hc; [done|].
    destruct (list_remove t (tasks s)); [|done]. intros _.
    exists (download_kw a). do 2 right.
    cbn [remote] in *. rewrite Hc. by left.
  - intros _ (c & kw & code & Hin).
    destruct (list_remove t (tasks s)); cbn [events app] in Hin;
      (apply elem_of_cons in Hin as [?|Hin]; [done|]);
      (apply elem_of_cons in Hin as [?|Hin]; [done|]);
      by apply elem_of_nil in Hin.
Qed.

(** *** When every task has ended *)

Lemma visits_of_body t e names runs ev' :
  forallb is_run_cmd runs = true → starts_visit ev' →
  visits_of ((EvIsTaskEnd t e :: EvGetTaskStatus [t]
                :: EvOutputFileNames names :: runs) ++ ev') =
    {| v_task := t; v_ended := e; v_failed := existsb run_failed runs |}
      :: visits_of ev'.
Proof.
  intros Hf Hs. simpl.
  change (EvGetTaskStatus [t] :: EvOutputFileNames names :: runs ++ ev')
    with (([EvGetTaskStatus [t]; EvOutputFileNames names] ++ runs) ++ ev').
  rewrite until_next_visit_app, visits_of_skip; try done.
  all: simpl; by apply runs_no_visit.
Qed.

Lemma auto_body_asks lp a t loc (s : Store R) :
  ∃ rest, events (auto_body lp a t loc s) =
            EvIsTaskEnd t (mt_is_task_end (remote s) t).1 :: rest.
Proof. unfold auto_body, is_task_end. rewrite bind_call. by eexists. Qed.

(** What a visit records as the answer of [is_task_end] is an answer of
    the collaborator. *)
Lemma auto_fold_answers lp a rest :
  ∀ copy failed (s : Store R),
    rest ⊆+ copy →
    Forall (λ v, ∃ r, v_ended v = (mt_is_task_end r (v_task v)).1)
      (visits_of (events (for_fold rest (auto_body lp a) (copy, failed) s))).
Proof.
  induction rest as [|t rest IH]; intros copy failed s Hsub;
    cbn [for_fold]; [by constructor|].
  destruct (auto_body_spec lp a t copy failed s)
    as (Ht & e & names & runs & He & Hf & Ho).
  destruct (auto_body_asks lp a t (copy, failed) s) as [rest' He'].
  assert (e = (mt_is_task_end (remote s) t).1) as Hee by congruence.
  assert (∃ copy1 failed1,
    out (auto_body lp a t (copy, failed) s) = Ok (copy1, failed1)
    ∧ rest ⊆+ copy1) as (copy1 & failed1 & Ho1 & Hsub1).
  { destruct e.
    - assert (t ∈ copy) as Hin.
      { eapply elem_of_submseteq; [|exact Hsub]. by left. }
      destruct (list_remove_elem t copy Hin) as [c Hc]. rewrite Hc in Ho.
      eexists _, _. split; [exact Ho|].
      rewrite (list_remove_perm _ _ _ Hc) in Hsub.
      by apply (submseteq_app_inv_l _ _ [t]).
    - eexists _, _. split; [exact Ho|].
      etrans; [|exact Hsub]. by apply submseteq_cons. }
  rewrite (bind_ok _ _ _ _ Ho1). cbn [events]. rewrite He.
  set (s1 := store (auto_body lp a t (copy, failed) s)).
  destruct (auto_fold_spec lp a rest copy1 failed1 s1 Hsub1) as (Hs & _).
  rewrite visits_of_body by done.
  constructor; [by exists (remote s)|]. by apply IH.
Qed.

Lemma auto_cycle_drains st lp a l failed (s : Store R) :
  (∀ r t, (mt_is_task_end r t).1 = true) →
  ∃ failed', out (auto_cycle st lp a l failed s) = Ok ([], failed').
Proof.
  intros Hall. unfold auto_cycle, sleep. rewrite bind_emit. cbn [out].
  destruct (auto_fold_spec lp a l l failed s (reflexivity _))
    as (_ & _ & Hm & l' & Ho & _ & Hp).
  pose proof (auto_fold_answers lp a l l failed s (reflexivity _)) as Hans.
  set (obs := visits_of (events (for_fold l (auto_body lp a) (l, failed) s)))
    in *.
  assert (ended_tasks obs = fmap v_task obs) as He.
  { unfold ended_tasks. f_equal. clear -Hans Hall.
    induction Hans as [|v obs [r Hv] _ IH]; [done|].
    rewrite filter_cons_True; [by rewrite IH|]. by rewrite Hv. }
  rewrite He, Hm in Hp.
  assert (l' = []) as ->.
  { apply Permutation_length in Hp. rewrite length_app in Hp.
    destruct l'; [done|]. simpl in Hp. lia. }
  by eexists.
Qed.

(** *** The whole run of [_auto_download_tool] *)

Lemma failed_until_next_visit_app evs rest :
  existsb run_failed (until_next_visit rest) = false →
  existsb run_failed (until_next_visit (evs ++ rest))
  = existsb run_failed (until_next_visit evs).
Proof.
  intros Hr. induction evs as [|e evs IH]; [done|].
  destruct e; cbn [app until_next_visit existsb]; by rewrite ?IH.
Qed.

(** The visits of two stretches of a run, when no failed transfer opens
    the second. *)
Lemma visits_of_app evs rest :
  existsb run_failed (until_next_visit rest) = false →
  visits_of (evs ++ rest) = visits_of evs ++ visits_of rest.
Proof.
  intros Hr. induction evs as [|e evs IH]; [done|].
  destruct e; cbn [app visits_of]; try done.
  by rewrite IH, failed_until_next_visit_app.
Qed.

Lemma failures_app obs1 obs2 :
  failures (obs1 ++ obs2) = failures obs1 ++ failures obs2.
Proof. unfold failures. by rewrite filter_app, fmap_app. Qed.

Lemma ended_tasks_app obs1 obs2 :
  ended_tasks (obs1 ++ obs2) = ended_tasks obs1 ++ ended_tasks obs2.
Proof. unfold ended_tasks. by rewrite filter_app, fmap_app. Qed.

Lemma bind_events {A B} (m : M R A) (f : A → M R B) s :
  ∃ tail, events (bind m f s) = events (m s) ++ tail.
Proof.
  unfold bind. destruct (out (m s)); cbn [events];
    [by eexists|exists []; by rewrite app_nil_r..].
Qed.

(** A turn of the loop opens with the sleep and the first question. *)
Lemma auto_loop_starts_quietly fuel st lp a l failed (s : Store R) :
  existsb run_failed
    (until_next_visit (events (auto_loop fuel st lp a l failed s))) = false.
Proof.
  destruct fuel as [|fuel]; [done|]. cbn [auto_loop].
  destruct l as [|t l]; [done|]. cbn [not_list].
  destruct (bind_events (auto_cycle st lp a (t :: l) failed)
              (λ loc, auto_loop fuel st lp a loc.1 loc.2) s) as [tl ->].
  unfold auto_cycle, sleep. rewrite bind_emit. cbn [events for_fold].
  destruct (bind_events (auto_body lp a t (t :: l, failed))
              (λ acc', for_fold l (auto_body lp a) acc') s) as [tl' ->].
  destruct (auto_body_asks lp a t (t :: l, failed) s) as [rest ->].
  done.
Qed.

(** A run of the loop that breaks: the working set is empty, every task
    of the list has left it at a visit that found it ended, and the
    failure list has grown by the visits that ended and whose download
    failed, in the order of the run. *)
Lemma auto_loop_run fuel st lp a :
  ∀ l failed (s : Store R) l' fl,
    let r := auto_loop fuel st lp a l failed s in
    let obs := visits_of (events r) in
    out r = Ok (l', fl) →
    l' = []
    ∧ fl = failed ++ failures obs
    ∧ ended_tasks obs ≡ₚ l
    ∧ Forall (λ v, ∃ w, v_ended v = (mt_is_task_end w (v_task v)).1) obs.
Proof.
  induction fuel as [|fuel IH]; intros l failed s l' fl; cbv zeta; [done|].
  cbn [auto_loop]. destruct l as [|t l0] eqn:El.
  { cbn. intros [= <- <-]. by rewrite app_nil_r. }
  cbn [not_list]. rewrite <-El. clear El.
  destruct (auto_fold_spec lp a l l failed s (reflexivity _))
    as (_ & _ & Hm & c & Ho & _ & Hp).
  pose proof (auto_fold_answers lp a l l failed s (reflexivity _)) as Hans.
  set (fold := for_fold l (auto_body lp a) (l, failed) s) in *.
  set (obs1 := visits_of (events fold)) in *.
  assert (auto_cycle st lp a l failed s
          = mkResult (out fold) (store fold) (EvSleep st :: events fold))
    as Hcycle.
  { unfold auto_cycle, sleep. by rewrite bind_emit. }
  rewrite (bind_ok _ _ _ (c, failed ++ failures obs1))
    by (by rewrite Hcycle).
  rewrite Hcycle. cbn [out store events fst snd]. intros Hout.
  destruct (IH c (failed ++ failures obs1) (store fold) l' fl Hout)
    as (-> & -> & Hperm & Hall).
  cbn [app visits_of].
  rewrite visits_of_app by apply auto_loop_starts_quietly.
  fold obs1.
  split; [done|]. split; [by rewrite failures_app, app_assoc|].
  split; [|by apply Forall_app].
  rewrite ended_tasks_app, Hperm, (comm app). done.
Qed.

(** *** The download type, compared by identity *)



Lemma cc_suffix_output dt t :
  cc_output dt t = (λ suffix, str_task t +:+ suffix) <$> cc_suffix dt.
Proof. unfold cc_output, cc_suffix. by repeat case_decide. Qed.




(** ** Claims *)

(** C1 (auto mode, [_auto_download_tool]).  In every cycle each task of the
    working set is visited once, in order.  The next working set is what
    is left after one occurrence is removed for every visit in which
    [is_task_end] answered [True], whatever the download did; the failure
    list grows by exactly the visits that ended and whose download raised
    [DownloadFailed].  With distinct ids: a task leaves the working set iff
    [is_task_end] answered [True] for it, and joins the failure list iff,
    moreover, its download failed.  A turn of the loop is one such cycle,
    followed by the loop on the working set and the failure list the
    cycle returned.  For a whole run that ends: every task of the list
    has left the working set at a visit that found it ended, the failure
    list is made of the visits of the run that ended and whose download
    failed, in that order, and [DownloadFailed], naming that list, is
    raised iff it is not empty.  The loop does break, within two turns,
    when [is_task_end] answers [True] to every question. *)
Theorem auto_mode_removes_ended_and_reports_failed :
  (∀ sleep_time lp a l failed (s : Store R),
     let r := auto_cycle sleep_time lp a l failed s in
     let obs := visits_of (events r) in
     fmap v_task obs = l
     ∧ Forall (λ v, ∃ w, v_ended v = (mt_is_task_end w (v_task v)).1) obs
     ∧ ∃ l', out r = Ok (l', failed ++ failures obs)
       ∧ l' ≡ₚ survivors obs
       ∧ (NoDup l →
            l' = survivors obs
            ∧ ∀ t, t ∈ l →
                (t ∉ l' ↔
                   ∃ v, v ∈ obs ∧ v_task v = t ∧ v_ended v = true)
                ∧ (t ∈ failures obs ↔
                     ∃ v, v ∈ obs ∧ v_task v = t
                          ∧ v_ended v = true ∧ v_failed v = true)))
  ∧ (∀ fuel sleep_time lp a l failed (s : Store R),
       l ≠ [] →
       auto_loop (S fuel) sleep_time lp a l failed s =
         (let! loc := auto_cycle sleep_time lp a l failed in
          auto_loop fuel sleep_time lp a loc.1 loc.2) s)
  ∧ (∀ fuel l sleep_time lp a (s : Store R),
       let r := _auto_download_tool fuel l sleep_time lp a s in
       let obs := visits_of (events r) in
       out r ≠ Diverge →
       events r = events (auto_loop fuel sleep_time lp a l [] s)
       ∧ out (auto_loop fuel sleep_time lp a l [] s) = Ok ([], failures obs)
       ∧ ended_tasks obs ≡ₚ l
       ∧ Forall (λ v, ∃ w, v_ended v = (mt_is_task_end w (v_task v)).1) obs
       ∧ out r =
           if decide (failures obs = []) then Ok tt
           else Raise (DownloadFailed
                  ("Finally tasks download failed: "
                   +:+ str_task_list (failures obs))))
  ∧ ((∀ w t, (mt_is_task_end w t).1 = true) →
     ∀ fuel l sleep_time lp a (s : Store R),
       2 ≤ fuel →
       ∃ fl, out (auto_loop fuel sleep_time lp a l [] s) = Ok ([], fl)).
Proof.
  split; [|split; [|split]].
  - intros st lp a l failed s r obs. subst r obs.
    unfold auto_cycle, sleep. rewrite bind_emit. cbn [out store events].
    destruct (auto_fold_spec lp a l l failed s (reflexivity _))
      as (_ & _ & Hm & l' & Ho & Hsl & Hp).
    cbn [visits_of].
    pose proof (auto_fold_answers lp a l l failed s (reflexivity _)) as Hans.
    set (obs := visits_of (events (for_fold l (auto_body lp a) (l, failed) s)))
      in *.
    split; [done|]. split; [done|]. exists l'. split; [done|].
    assert (l' ≡ₚ survivors obs) as Hps.
    { apply (Permutation_app_inv_r (ended_tasks obs)).
      etrans; [exact Hp|]. rewrite <-Hm at 1. apply visits_partition. }
    split; [done|]. intros Hnd.
    assert (l' = survivors obs) as ->.
    { apply (sublist_perm_eq l); [done..| |done].
      rewrite <-Hm. unfold survivors. apply fmap_sublist, sublist_filter. }
    split; [done|]. intros t Ht. split.
    + unfold survivors. rewrite list_elem_of_fmap. split.
      * intros Hn. rewrite <-Hm in Ht.
        apply list_elem_of_fmap in Ht as (v & -> & Hv).
        exists v. split; [done|]. split; [done|].
        destruct (v_ended v) eqn:E; [done|]. exfalso. apply Hn.
        exists v. split; [done|]. by apply list_elem_of_filter.
      * intros (v & Hv & Et & Ee) (w & Etw & [Ew Hw]%list_elem_of_filter).
        rewrite <-Hm in Hnd. subst t.
        assert (v = w) as -> by by eapply NoDup_fmap_inj_on.
        congruence.
    + unfold failures. rewrite list_elem_of_fmap. split.
      * intros (v & -> & [[] Hv]%list_elem_of_filter). by exists v.
      * intros (v & Hv & <- & ? & ?). exists v. split; [done|].
        by apply list_elem_of_filter.
  - intros fuel st lp a l failed s Hne. by destruct l.
  - intros fuel l st lp a s. cbv zeta. unfold _auto_download_tool.
    destruct (out (auto_loop fuel st lp a l [] s)) as [[l' fl]|e|] eqn:Ho.
    + destruct (auto_loop_run fuel st lp a l [] s l' fl Ho)
        as (-> & Hfl & Hperm & Hall). cbn [app] in Hfl.
      rewrite (bind_ok _ _ _ _ Ho). cbn [out store events snd]. intros _.
      assert (events ((if not_list fl then ret ()
                       else raise (finally_failed fl))
                        (store (auto_loop fuel st lp a l [] s))) = [])
        as -> by (by destruct fl).
      rewrite app_nil_r, <-Hfl. split; [done|]. split; [done|].
      split; [done|]. split; [done|]. by destruct fl.
    + by apply auto_loop_no_raise in Ho.
    + rewrite (bind_diverged _ _ _ Ho). by intros [].
  - intros Hall fuel l st lp a s Hf.
    destruct fuel as [|[|fuel]]; [lia..|].
    destruct l as [|t l]; [by eexists|].
    cbn [auto_loop not_list].
    destruct (auto_cycle_drains st lp a (t :: l) [] s Hall) as [fl Ho].
    rewrite (bind_ok _ _ _ _ Ho). cbn [out fst snd not_list]. by eexists.
Qed.


(** C9 (block and rebuild-aware modes), as the code has it.
    [get_task_status] is called inside the loop over the tasks: once for
    every task the cycle visits, each time for the whole working set as it
    is at that moment.  So a cycle makes at least as many status calls as
    tasks are left when it ends, at most as many as it started with, and
    exactly one per task when it removes nothing. *)
Theorem status_polled_once_per_visit :
  ∀ st lp a dt (s : Store R),
    (let r := block_cycle st lp a dt s in
     let n := count_status_calls (events r) in
     (out r = Ok tt → length (tasks (store r)) ≤ n)
     ∧ n ≤ length (tasks s)
     ∧ (out r = Ok tt → tasks (store r) = tasks s → n = length (tasks s))
     ∧ (∀ ids, EvGetTaskStatus ids ∈ events r →
          tasks (store r) `sublist_of` ids ∧ ids `sublist_of` tasks s))
    ∧ (let r := cc_cycle st lp a dt s in
       let n := count_status_calls (events r) in
       (out r = Ok tt → length (tasks (store r)) ≤ n)
       ∧ n ≤ length (tasks s)
       ∧ (out r = Ok tt → tasks (store r) = tasks s → n = length (tasks s))
       ∧ (∀ ids, EvGetTaskStatus ids ∈ events r →
            tasks (store r) `sublist_of` ids ∧ ids `sublist_of` tasks s)).
Proof.
  intros st lp a dt s.
  assert (∀ body,
    (∀ t, tame (body t)) →
    (∀ t s, ∃ rest,
      events (body t s) = EvGetTaskStatus (tasks s) :: rest
      ∧ count_status_calls rest = 0
      ∧ ∀ ids, EvGetTaskStatus ids ∉ rest) →
    let r := bind (sleep st) (λ _, for_tasks body) s in
    let n := count_status_calls (events r) in
    (out r = Ok tt → length (tasks (store r)) ≤ n)
    ∧ n ≤ length (tasks s)
    ∧ (out r = Ok tt → tasks (store r) = tasks s → n = length (tasks s))
    ∧ (∀ ids, EvGetTaskStatus ids ∈ events r →
         tasks (store r) `sublist_of` ids ∧ ids `sublist_of` tasks s)) as H.
  { intros body Hb Hp. cbv zeta. unfold sleep. rewrite bind_emit.
    cbn [out store events].
    destruct (for_run_polls body 0 s _ Hb Hp (for_tasks_run body s Hb))
      as (Hs & Ha & Hn & Hids).
    change (count_status_calls (EvSleep st :: events (for_tasks body s)))
      with (count_status_calls (events (for_tasks body s))).
    split; [|split; [|split]].
    - intros Hok. specialize (Ha Hok). lia.
    - lia.
    - intros Hok Heq. specialize (Ha Hok). rewrite Heq in Ha. lia.
    - intros ids [?|Hin]%elem_of_cons; [done|]. by apply Hids. }
  split.
  - apply (H (block_body lp a dt)).
    + apply tame_block_body.
    + apply block_body_polls_once.
  - apply (H (cc_body lp a dt)).
    + apply tame_cc_body.
    + apply cc_body_polls_once.
Qed.

(** C7 (every loop), as the code has it.  The sub-status list is polled
    anew at every visit.  A poll that shows "45" is the last event of the
    run, which ends in [AssertionError]: no transfer is invoked between
    that poll and the abort.  (Transfers of tasks visited earlier in the
    same cycle, after polls that did not show "45", are not covered.)
    The two loops that ask [is_task_end] never poll sub-statuses. *)
Theorem illegal_code_aborts_at_the_poll :
  ∀ fuel a st sp dt (s : Store R),
    halts_at shows_illegal is_assertion (download_block fuel a st sp dt s)
    ∧ halts_at shows_illegal is_assertion
        (auto_download_cc_after_task_completed fuel a st dt s)
    ∧ halts_at shows_illegal is_assertion (auto_download fuel a st s)
    ∧ halts_at shows_illegal is_assertion
        (auto_download_after_task_completed fuel a st s).
Proof.
  intros fuel a st sp dt s. split; [|split; [|split]].
  - revert s. unfold download_block, check_params, block_cycle.
    apply halting_bind; [halting_step|intros l].
    apply halting_bind; [repeat halting_step|intros _].
    apply halting_bind; [|intros; halting_step].
    apply halting_while_tasks.
    apply halting_bind; [halting_step|intros _].
    apply halting_for_tasks. intros t. apply illegal_block_body.
  - revert s. unfold auto_download_cc_after_task_completed, cc_cycle.
    apply halting_bind; [|intros; halting_step].
    apply halting_while_tasks.
    apply halting_bind; [halting_step|intros _].
    apply halting_for_tasks. intros t. apply illegal_cc_body.
  - revert s. unfold auto_download, _auto_download_tool.
    apply halting_bind; [halting_step|intros l].
    apply halting_bind; [|intros; halting_step].
    apply halting_bind; [apply illegal_auto_loop|intros loc].
    repeat halting_step.
  - revert s. unfold auto_download_after_task_completed, after_cycle.
    apply halting_bind; [|intros; halting_step].
    apply halting_while_tasks.
    apply halting_bind; [halting_step|intros _].
    apply halting_for_tasks. intros t. apply illegal_after_body.
Qed.

(** C2 (every loop), as the code has it.  [_auto_download_tool] and
    [download_block] catch [DownloadFailed] inside the cycle: the first
    raises only the aggregate, after its loop has broken on an empty
    working set; the second never raises [DownloadFailed] (it raises the
    assertion error, or the parameter check on an empty call).  The two
    [after_task_completed] loops do not guard the transfer: a transfer
    that fails is the last event of the run, which raises
    [DownloadFailed] there and then, with the working set not empty. *)
Theorem transfer_failure_is_deferred_only_where_caught :
  (∀ fuel l st lp a (s : Store R) e,
     out (_auto_download_tool fuel l st lp a s) = Raise e →
     ∃ fl, fl ≠ []
       ∧ out (auto_loop fuel st lp a l [] s) = Ok ([], fl)
       ∧ e = DownloadFailed
               ("Finally tasks download failed: " +:+ str_task_list fl))
  ∧ (∀ fuel a st sp dt (s : Store R) e,
       out (download_block fuel a st sp dt s) = Raise e →
       e = AssertionError
       ∨ (tasks s = [] ∧
          e = PyException
            "One of the task_id_list and custom_server_output_path must exist"))
  ∧ (∀ fuel a st (s : Store R),
       let r := auto_download_after_task_completed fuel a st s in
       halts_at run_failed is_download_failed r
       ∧ ∀ e, out r = Raise e →
              is_download_failed e ∧ tasks (store r) ≠ [])
  ∧ (∀ fuel a st dt (s : Store R),
       let r := auto_download_cc_after_task_completed fuel a st dt s in
       halts_at run_failed is_download_failed r
       ∧ ∀ e, out r = Raise e →
              (e = AssertionError ∨ is_download_failed e)
              ∧ tasks (store r) ≠ []).
Proof.
  split; [|split; [|split]].
  - intros fuel l st lp a s e. unfold _auto_download_tool.
    destruct (out (auto_loop fuel st lp a l [] s)) as [[l' fl]|x|] eqn:Ho.
    + rewrite (bind_ok _ _ _ _ Ho). cbn [out snd].
      pose proof (auto_loop_exit _ _ _ _ _ _ _ _ _ Ho) as ->.
      destruct fl as [|t fl]; [done|]. intros [= <-].
      by exists (t :: fl).
    + by destruct (auto_loop_no_raise fuel st lp a l [] s x).
    + unfold bind. by rewrite Ho.
  - intros fuel a st sp dt s e. unfold download_block.
    rewrite bind_get_tasks. unfold check_params.
    destruct (tasks s) as [|t0 l0] eqn:El; cbn [not_list andb].
    + destruct (not_server_path sp).
      * rewrite bind_raise. intros [= <-]. by right.
      * rewrite bind_ret. destruct fuel; [done|].
        cbn [while_tasks]. rewrite bind_assoc, bind_get_tasks, El.
        cbn [not_list]. rewrite !bind_ret. done.
    + rewrite bind_ret.
      set (w := while_tasks fuel _).
      destruct (out (w s)) as [u|x|] eqn:Ho.
      * rewrite (bind_ok _ _ _ _ Ho). done.
      * rewrite (bind_raised _ _ _ _ Ho). intros [= <-]. left.
        refine (while_tasks_raises fuel
                  (block_cycle st (_check_local_path (local_path a)) a dt)
                  (λ e _, e = AssertionError) s x _ Ho).
        intros s' e' He'.
        apply (cycle_raises (block_body (_check_local_path (local_path a))
                               a dt)
                 (λ e, e = AssertionError) st s' e');
          [apply tame_block_body| |exact He'].
        intros i s'' t e''. apply block_body_raises.
      * unfold bind. by rewrite Ho.
  - intros fuel a st s r. subst r. split.
    + revert s. unfold auto_download_after_task_completed, after_cycle.
      apply halting_bind; [|intros; halting_step].
      apply halting_while_tasks.
      apply halting_bind; [halting_step|intros _].
      apply halting_for_tasks. intros t. apply failfast_after_body.
    + intros e. unfold auto_download_after_task_completed.
      set (w := while_tasks fuel _).
      destruct (out (w s)) as [u|x|] eqn:Ho.
      * rewrite (bind_ok _ _ _ _ Ho). done.
      * rewrite (bind_raised _ _ _ _ Ho). cbn [out store]. intros [= <-].
        refine (while_tasks_raises fuel
                  (after_cycle st (_check_local_path (local_path a)) a)
                  (λ e s', is_download_failed e ∧ tasks s' ≠ []) s x _ Ho).
        intros s' e' He'.
        apply (cycle_raises (after_body (_check_local_path (local_path a)) a)
                 is_download_failed st s' e');
          [apply tame_after_body| |exact He'].
        intros i s'' t e''. apply after_body_raises.
      * unfold bind. by rewrite Ho.
  - intros fuel a st dt s r. subst r. split.
    + revert s. unfold auto_download_cc_after_task_completed, cc_cycle.
      apply halting_bind; [|intros; halting_step].
      apply halting_while_tasks.
      apply halting_bind; [halting_step|intros _].
      apply halting_for_tasks. intros t. apply failfast_cc_body.
    + intros e. unfold auto_download_cc_after_task_completed.
      set (w := while_tasks fuel _).
      destruct (out (w s)) as [u|x|] eqn:Ho.
      * rewrite (bind_ok _ _ _ _ Ho). done.
      * rewrite (bind_raised _ _ _ _ Ho). cbn [out store]. intros [= <-].
        refine (while_tasks_raises fuel
                  (cc_cycle st (_check_local_path (local_path a)) a dt)
                  (λ e s', (e = AssertionError ∨ is_download_failed e)
                           ∧ tasks s' ≠ []) s x _ Ho).
        intros s' e' He'.
        apply (cycle_raises (cc_body (_check_local_path (local_path a)) a dt)
                 (λ e, e = AssertionError ∨ is_download_failed e) st s' e');
          [apply tame_cc_body| |exact He'].
        intros i s'' t e''. apply cc_body_raises.
      * unfold bind. by rewrite Ho.
Qed.



(** C6 ([upload_config]).  The retry loop starts with [times = 0].  If
    the first ten attempts all fail it raises [RayvisionError] 20004 after
    exactly ten runs of the command; if the first success is attempt [k],
    with [k] at most 10, it returns after exactly [k] runs.  Ten units of
    fuel are always enough.  [upload_config_one] runs this loop for a file
    that exists. *)
Theorem config_retry_gives_up_at_the_tenth_failure :
  ∀ fuel cmd cp (s : Store R),
    10 ≤ fuel →
    let r := config_retry fuel cmd cp 0 s in
    ((∀ j, j < 10 → attempt_code j cmd config_kw (remote s) ≠ 0%Z) →
       out r = Raise (RayvisionError 20004 (cp +:+ " upload failed"))
       ∧ events r = attempts_events 10 cmd config_kw (remote s)
       ∧ length (events r) = 10)
    ∧ (∀ k, 1 ≤ k → k ≤ 10 →
         (∀ j, j < k - 1 → attempt_code j cmd config_kw (remote s) ≠ 0%Z) →
         attempt_code (k - 1) cmd config_kw (remote s) = 0%Z →
         out r = Ok tt
         ∧ events r = attempts_events k cmd config_kw (remote s)
         ∧ length (events r) = k)
    ∧ (∀ task_id ms e,
         (os_path_exists (remote s) (str2unicode cp)).1 = true →
         let s' := mkStore (os_path_exists (remote s) (str2unicode cp)).2
                     (tasks s) in
         let cmd' := trans_create_cmd
                       (config_params (str2unicode cp)
                          (str2unicode ("/" +:+ task_id +:+ "/cfg/"
                                        +:+ os_path_basename cp))
                          (default_speed ms)) None e None in
         let r' := config_retry fuel cmd' cp 0 s' in
         upload_config_one fuel task_id ms e cp s =
           mkResult (out r') (store r')
             (EvPathExists (str2unicode cp) true :: events r')).
Proof.
  intros fuel cmd cp s Hf r. subst r. split; [|split].
  - intros Hfail.
    destruct (config_retry_exhausts cmd cp 10 0 fuel s) as (Ho & He & _);
      [lia..|done|].
    change (Z.of_nat 0) with 0%Z in Ho, He.
    split; [done|]. split; [done|]. rewrite He. unfold attempts_events.
    by rewrite length_fmap, length_seq.
  - intros k Hk1 Hk10 Hfail Hok.
    destruct k as [|k]; [lia|].
    replace (S k - 1) with k in * by lia.
    destruct (config_retry_succeeds cmd cp k 0 fuel s) as (Ho & He & _);
      [lia..|done|done|].
    change (Z.of_nat 0) with 0%Z in Ho, He.
    split; [done|]. split; [done|]. rewrite He. unfold attempts_events.
    by rewrite length_fmap, length_seq.
  - intros task_id ms e Hex. cbv zeta. unfold upload_config_one.
    rewrite bind_call. cbv zeta. by rewrite Hex.
Qed.

(** C10 ([thread_pool_upload]).  Without the keyword [is_db] the call
    raises [KeyError] before anything else happens.  With it, a positive
    pool size and no stray [upload_json_path] keyword, one unit is
    submitted per element of [upload_pool], in order, each with
    [is_db=False] whatever the caller passed; and [upload_asset] called
    with [is_db=False] writes no ini file: all it does is run the transfer
    command, built without a database ini path. *)
Theorem pool_upload_needs_is_db_and_forces_it_off :
  (∀ upload_pool pool_size (kwargs : gmap string pyval) (s : Store R),
     kwargs !! "is_db" = None →
     thread_pool_upload upload_pool pool_size kwargs s =
       mkResult (Raise (KeyError "is_db")) s [])
  ∧ (∀ upload_pool pool_size (kwargs : gmap string pyval) v (s : Store R),
       kwargs !! "is_db" = Some v →
       (0 < pool_size)%Z →
       kwargs !! "upload_json_path" = None →
       let r := thread_pool_upload upload_pool pool_size kwargs s in
       out r = Ok tt
       ∧ events r =
           EvPool pool_size
           :: ((λ p, EvSubmit (<["upload_json_path" := VStr p]>
                                 (<["is_db" := VBool false]>
                                    (delete "is_db" kwargs))))
                 <$> upload_pool)
           ++ [EvShutdown]
       ∧ (∀ kw, EvSubmit kw ∈ events r → kw !! "is_db" = Some (VBool false)))
  ∧ (∀ (kw : gmap string pyval) (s : Store R),
       kw !! "is_db" = Some (VBool false) →
       ∀ e, e ∈ events (upload_asset kw s) →
            ∃ c kwr code, e = EvRunCmd c kwr code ∧ cmd_db_ini c = None).
Proof.
  split; [|split].
  - intros pool size kwargs s Hn. unfold thread_pool_upload, dict_pop.
    by rewrite Hn.
  - intros pool size kwargs v s Hv Hsz Hp. cbv zeta.
    unfold thread_pool_upload, dict_pop. rewrite Hv, bind_ret. cbn [snd].
    unfold new_pool. rewrite decide_False by lia. rewrite bind_emit.
    cbn [out events].
    set (kw' := delete "is_db" kwargs).
    assert (∀ l (s : Store R),
      for_each l (λ p, let! kw := submit_keywords p kw' in emit (EvSubmit kw)) s
      = mkResult (Ok tt) s
          ((λ p, EvSubmit (<["upload_json_path" := VStr p]>
                             (<["is_db" := VBool false]> kw'))) <$> l))
      as Hloop.
    { induction l as [|p l IH]; intros s0; [done|].
      cbn [for_each]. rewrite bind_assoc. unfold submit_keywords at 1.
      rewrite bool_decide_eq_false_2.
      - rewrite bind_ret, bind_emit, IH. done.
      - unfold kw'. rewrite lookup_delete_ne by done.
        rewrite lookup_delete_eq, Hp. by intros [[? [=]]|[? [=]]]. }
    rewrite (bind_ok _ _ _ tt) by (by rewrite Hloop).
    rewrite Hloop. cbn [out store events emit].
    split; [done|]. split; [done|].
    intros kw [[=]|Hin]%elem_of_cons.
    apply elem_of_app in Hin as [Hin|Hin].
    + apply list_elem_of_fmap in Hin as (p & [= ->] & _).
      rewrite lookup_insert_ne by done. by rewrite lookup_insert_eq.
    + by apply list_elem_of_singleton in Hin.
  - intros kw s Hdb e. unfold upload_asset.
    case_bool_decide; [by intros ?%elem_of_nil|].
    destruct (kw !! "upload_json_path"); [|by intros ?%elem_of_nil].
    assert (kw_get kw "is_db" (VBool true) = VBool false) as ->.
    { unfold kw_get. by rewrite Hdb. }
    cbn [truthy]. rewrite bind_ret. unfold run_cmd, call. cbn [events].
    intros ->%list_elem_of_singleton. by eexists _, _, _.
Qed.

(** ** Further properties *)

(** *** More of [download.py] *)

Lemma event_output_download lp n a kw code evs :
  omap event_output
    (EvRunCmd (trans_create_cmd (download_params lp n a) None (engine a) None)
       kw code :: evs) = n :: omap event_output evs.
Proof. done. Qed.

(** The transfers of [_run_download]'s loop, in full: the loop asks for
    the outputs in order and stops at the first transfer that fails. *)
Lemma download_loop_trace names lp a (s : Store R) :
  let r := for_each names (download_one lp a) s in
  ∃ k, k ≤ length names
    ∧ omap event_output (events r) = take k names
    ∧ length (events r) = k
    ∧ ((out r = Ok tt ∧ k = length names
        ∧ existsb run_failed (events r) = false)
       ∨ (∃ n pre e, names !! (Nat.pred k) = Some n
            ∧ out r = Raise (DownloadFailed (n +:+ " Download failed"))
            ∧ events r = pre ++ [e] ∧ run_failed e = true
            ∧ existsb run_failed pre = false
            ∧ event_output e = Some n)).
Proof.
  revert s. induction names as [|n names IH]; intros s; cbn [for_each].
  - exists 0. cbn. split; [done|]. split; [done|]. split; [done|]. by left.
  - unfold bind. rewrite download_one_run. cbn [out store events].
    destruct (exec_cmd (remote s) _ _) as [code r1]. cbn [fst snd].
    case_decide as Hc; cbn [out store events].
    + exists 1. cbn. split; [lia|]. split; [done|]. split; [done|]. right.
      exists n, [], (EvRunCmd (trans_create_cmd (download_params lp n a) None
        (engine a) None) (download_kw a) code).
      split; [done|]. split; [done|]. split; [done|].
      split; [|done]. cbn. by apply negb_true_iff, Z.eqb_neq.
    + assert (code = 0%Z) as -> by (destruct (decide (code = 0%Z)); tauto).
      destruct (IH (mkStore r1 (tasks s))) as (k & Hk & Ho & Hl & Hc').
      exists (S k). cbn [app]. rewrite event_output_download, Ho.
      cbn [length take].
      split; [lia|]. split; [done|]. split; [by rewrite Hl|].
      destruct Hc' as [(-> & -> & Hx)|(m & pre & e & Hn & -> & He & Hf & Hx & Hev)].
      * left. split; [done|]. split; [done|]. cbn. done.
      * right. exists m, (EvRunCmd (trans_create_cmd (download_params lp n a)
          None (engine a) None) (download_kw a) 0 :: pre), e.
        assert (0 < k) as Hpos.
        { rewrite <-Hl, He, length_app. cbn. lia. }
        split; [by destruct k; [lia|]|]. split; [done|].
        rewrite He. done.
Qed.

(** [_run_download], in full: with a falsy [server_path] the outputs are
    asked of the platform for the given ids, with a truthy one they are the
    path or paths given and the platform is not asked. *)
Lemma run_download_other ids lp a sp (s : Store R) :
  not_server_path sp = false → is_path sp = false →
  _run_download ids lp a sp s =
    mkResult (Raise (PyException
                "custom_server_output_path must a list or str.")) s [].
Proof.
  intros Hsp Hp. unfold _run_download. rewrite Hsp.
  by destruct sp as [[p|l|b]|].
Qed.

Lemma run_download_trace ids lp a sp (s : Store R) :
  not_server_path sp || is_path sp = true →
  let r := _run_download ids lp a sp s in
  ∃ names runs k,
    events r =
      (if not_server_path sp
       then [EvGetTaskStatus ids; EvOutputFileNames names] else []) ++ runs
    ∧ (not_server_path sp = false → names = custom_outputs sp)
    ∧ tasks (store r) = tasks s
    ∧ forallb is_run_cmd runs = true
    ∧ k ≤ length names
    ∧ omap event_output runs = take k names
    ∧ length runs = k
    ∧ ((out r = Ok tt ∧ k = length names ∧ existsb run_failed runs = false)
       ∨ (∃ n pre e, names !! (Nat.pred k) = Some n
            ∧ out r = Raise (DownloadFailed (n +:+ " Download failed"))
            ∧ runs = pre ++ [e] ∧ run_failed e = true
            ∧ existsb run_failed pre = false
            ∧ event_output e = Some n)).
Proof.
  intros Hty. cbv zeta. unfold _run_download.
  assert (∀ names (s' : Store R), tasks s' = tasks s →
    let r := for_each names (download_one lp a) s' in
    tasks (store r) = tasks s
    ∧ forallb is_run_cmd (events r) = true
    ∧ ∃ k, k ≤ length names
      ∧ omap event_output (events r) = take k names
      ∧ length (events r) = k
      ∧ ((out r = Ok tt ∧ k = length names
          ∧ existsb run_failed (events r) = false)
         ∨ (∃ n pre e, names !! (Nat.pred k) = Some n
              ∧ out r = Raise (DownloadFailed (n +:+ " Download failed"))
              ∧ events r = pre ++ [e] ∧ run_failed e = true
              ∧ existsb run_failed pre = false
              ∧ event_output e = Some n))) as Hloop.
  { intros names s' Hs'. cbv zeta.
    destruct (download_one_loop names lp a s') as (Ht & Hf & _).
    split; [by rewrite Ht|]. split; [done|]. apply download_loop_trace. }
  destruct (not_server_path sp) eqn:Hsp.
  - rewrite bind_assoc. unfold get_task_status, output_file_names.
    rewrite !bind_call. cbv zeta. cbn [out store events remote tasks].
    set (st := mt_get_task_status (remote s) ids).
    set (nm := mt_output_file_names st.2 st.1).
    destruct (Hloop nm.1 (mkStore nm.2 (tasks s)) eq_refl)
      as (Ht & Hf & k & Hk & Ho & Hl & Hc).
    exists nm.1, (events (for_each nm.1 (download_one lp a)
                    (mkStore nm.2 (tasks s)))), k.
    split; [done|]. split; [done|]. eauto 10.
  - destruct sp as [[p|l|b]|]; [| |done..]; rewrite bind_ret.
    + destruct (Hloop [p] s eq_refl) as (Ht & Hf & k & Hk & Ho & Hl & Hc).
      exists [p], (events (for_each [p] (download_one lp a) s)), k.
      split; [done|]. split; [done|]. eauto 10.
    + destruct (Hloop l s eq_refl) as (Ht & Hf & k & Hk & Ho & Hl & Hc).
      exists l, (events (for_each l (download_one lp a) s)), k.
      split; [done|]. split; [done|]. eauto 10.
Qed.

(** X1 ([download], [check_params]).  A call with no task id and no server
    path raises the parameter exception before any external call.  A call
    with a truthy server path that is neither a [str] nor a [list] raises
    the exception of [_run_download] for it, before any external call too.
    Any other call asks for the outputs and transfers them: it returns
    [True] when no transfer failed and raises [DownloadFailed] with the
    failed transfer as its last event otherwise.  The caller's list is
    never changed. *)
Theorem download_checks_then_transfers a sp (s : Store R) :
  let r := download a sp s in
  tasks (store r) = tasks s
  ∧ if not_list (tasks s) && not_server_path sp
    then out r = Raise (PyException
           "One of the task_id_list and custom_server_output_path must exist")
         ∧ events r = []
    else if negb (not_server_path sp) && negb (is_path sp)
    then out r = Raise (PyException
           "custom_server_output_path must a list or str.")
         ∧ events r = []
    else (out r = Ok true ∧ existsb run_failed (events r) = false)
         ∨ (∃ m pre e, out r = Raise (DownloadFailed m)
              ∧ events r = pre ++ [e] ∧ run_failed e = true
              ∧ existsb run_failed pre = false).
Proof.
  cbv zeta. unfold download. rewrite bind_get_tasks. unfold check_params.
  destruct (not_list (tasks s) && not_server_path sp) eqn:Hp.
  - by rewrite bind_raise.
  - rewrite bind_ret.
    destruct (negb (not_server_path sp) && negb (is_path sp)) eqn:Hty.
    + apply andb_true_iff in Hty as [Hsp Hpa].
      apply negb_true_iff in Hsp, Hpa.
      erewrite bind_raised by (by rewrite run_download_other).
      by rewrite run_download_other.
    + destruct (run_download_trace (tasks s)
        (_check_local_path (local_path a)) a sp s)
        as (names & runs & k & He & _ & Ht & Hf & _ & _ & _ & Ho).
      { by destruct (not_server_path sp), (is_path sp). }
      destruct Ho as [(Ho & _ & Hx)|(n & pre & e & _ & Ho & Hr & Hfe & Hx & _)].
      * rewrite (bind_ok _ _ _ _ Ho). cbn [out store events ret].
        rewrite app_nil_r, He, existsb_app, Hx. split; [done|]. left.
        split; [done|]. by destruct (not_server_path sp).
      * rewrite (bind_raised _ _ _ _ Ho). cbn [out store events].
        split; [done|]. right. eexists _, _, e. split; [done|].
        rewrite He, Hr, app_assoc. split; [done|]. split; [done|].
        rewrite existsb_app, Hx. by destruct (not_server_path sp).
Qed.

(** X2 ([_run_download], custom path).  With a truthy [server_path] the
    task ids are not looked at and the platform is not asked: every event
    is a transfer, the outputs asked for are the given path or paths, in
    order, up to the first transfer that fails, and the call returns
    normally exactly when the server path is a [str] or a [list] and all
    of its paths were transferred without failure.  A truthy object of
    another type makes the call raise at once. *)
Theorem custom_server_path_bypasses_the_task_list ids lp a sp (s : Store R) :
  not_server_path sp = false →
  let r := _run_download ids lp a sp s in
  (∀ ids', _run_download ids' lp a sp s = r)
  ∧ forallb is_run_cmd (events r) = true
  ∧ omap event_output (events r)
      = take (length (events r)) (custom_outputs sp)
  ∧ (out r = Ok tt ↔
       is_path sp = true
       ∧ length (events r) = length (custom_outputs sp)
       ∧ existsb run_failed (events r) = false)
  ∧ (is_path sp = false →
     r = mkResult (Raise (PyException
                     "custom_server_output_path must a list or str.")) s []).
Proof.
  intros Hsp. cbv zeta. split.
  { intros ids'. unfold _run_download. by rewrite Hsp. }
  destruct (is_path sp) eqn:Hpa.
  2:{ rewrite (run_download_other ids lp a sp s Hsp Hpa). cbn [out events].
      split; [done|]. split; [done|]. split; [|done].
      split; [done|]. by intros [? _]. }
  destruct (run_download_trace ids lp a sp s)
    as (names & runs & k & He & Hn & _ & Hf & _ & Hom & Hl & Ho).
  { by rewrite Hpa, orb_true_r. }
  rewrite Hsp in He. cbn [app] in He. rewrite He, <-(Hn Hsp), Hl.
  split; [done|]. split; [done|]. split; [|done].
  destruct Ho as [(Ho & Hk & Hx)|(n & pre & e & _ & Ho & Hr & Hfe & _ & _)].
  - by rewrite Ho.
  - rewrite Ho. split; [done|]. intros (_ & _ & Hx).
    rewrite Hr, existsb_app in Hx. cbn in Hx. rewrite Hfe in Hx.
    by destruct (existsb run_failed pre).
Qed.

(** X3 ([_run_download], default path).  With a falsy [server_path] the
    platform is asked once for the statuses of the given ids and once for
    their output names; the outputs are then transferred in that order.
    The first transfer with a non-zero exit code is the last event, and
    the [DownloadFailed] raised names the output of that transfer. *)
Theorem run_download_stops_at_the_first_failed_transfer ids lp a sp
    (s : Store R) :
  not_server_path sp = true →
  let r := _run_download ids lp a sp s in
  ∃ names runs,
    events r = EvGetTaskStatus ids :: EvOutputFileNames names :: runs
    ∧ forallb is_run_cmd runs = true
    ∧ omap event_output runs = take (length runs) names
    ∧ ((out r = Ok tt ∧ length runs = length names
        ∧ existsb run_failed runs = false)
       ∨ (∃ n pre e, runs = pre ++ [e] ∧ run_failed e = true
            ∧ existsb run_failed pre = false
            ∧ names !! length pre = Some n ∧ event_output e = Some n
            ∧ out r = Raise (DownloadFailed (n +:+ " Download failed")))).
Proof.
  intros Hsp. cbv zeta.
  destruct (run_download_trace ids lp a sp s)
    as (names & runs & k & He & _ & _ & Hf & _ & Hom & Hl & Ho).
  { by rewrite Hsp. }
  rewrite Hsp in He. exists names, runs. rewrite Hl.
  split; [done|]. split; [done|]. split; [done|].
  destruct Ho as [(Ho & Hk & Hx)|(n & pre & e & Hn & Ho & Hr & Hfe & Hx & Hev)].
  - by left.
  - right. exists n, pre, e. rewrite <-Hl, Hr, length_app in Hn.
    cbn in Hn. replace (Nat.pred (length pre + 1)) with (length pre) in Hn
      by lia. done.
Qed.

(** **** The caller's list *)

Lemma keeps_ret {A} (a : A) : keeps (ret (R := R) a).
Proof. done. Qed.

Lemma keeps_raise {A} e : keeps (raise (R := R) (A := A) e).
Proof. done. Qed.

Lemma keeps_emit e : keeps (emit (R := R) e).
Proof. done. Qed.

Lemma keeps_get_tasks : keeps (get_tasks (R := R)).
Proof. done. Qed.

Lemma keeps_call {A} (f : R → A * R) ev : keeps (call f ev).
Proof. done. Qed.

Lemma keeps_bind {A B} (m : M R A) (f : A → M R B) :
  keeps m → (∀ a, keeps (f a)) → keeps (bind m f).
Proof.
  intros Hm Hf s. unfold bind. pose proof (Hm s) as Hs.
  destruct (out (m s)) as [x| |]; cbn [store]; [|done..].
  by rewrite Hf.
Qed.

Lemma keeps_try {A} (m h : M R A) :
  keeps m → keeps h → keeps (try_except_DownloadFailed m h).
Proof.
  intros Hm Hh s. unfold try_except_DownloadFailed. pose proof (Hm s) as Hs.
  destruct (out (m s)) as [x|[]|]; cbn [store]; try done.
  by rewrite Hh.
Qed.

Lemma keeps_for_fold {A S} (l : list A) (body : A → S → M R S) acc :
  (∀ x a, keeps (body x a)) → keeps (for_fold l body acc).
Proof.
  intros Hb. revert acc. induction l as [|x l IH]; intros acc; cbn [for_fold].
  - apply keeps_ret.
  - apply keeps_bind; auto.
Qed.

Lemma keeps_run_download l lp a sp : keeps (_run_download l lp a sp).
Proof.
  intros s. destruct (not_server_path sp || is_path sp) eqn:Hty.
  - by destruct (run_download_trace l lp a sp s Hty)
      as (? & ? & ? & _ & _ & Ht & _).
  - apply orb_false_iff in Hty as [Hsp Hpa].
    by rewrite run_download_other.
Qed.

Lemma keeps_auto_body lp a t loc : keeps (auto_body lp a t loc).
Proof.
  unfold auto_body, is_task_end.
  apply keeps_bind; [apply keeps_call|intros e].
  apply keeps_bind.
  - apply keeps_try; [|apply keeps_ret].
    apply keeps_bind; [apply keeps_run_download|intros; apply keeps_ret].
  - intros f. destruct e; [|apply keeps_ret].
    destruct (list_remove t loc.1); [apply keeps_ret|apply keeps_raise].
Qed.

Lemma keeps_auto_loop fuel st lp a :
  ∀ l failed, keeps (auto_loop fuel st lp a l failed).
Proof.
  induction fuel as [|fuel IH]; intros l failed; cbn [auto_loop]; [done|].
  destruct (not_list l); [apply keeps_ret|].
  apply keeps_bind; [|intros loc; apply IH].
  unfold auto_cycle, sleep. apply keeps_bind; [apply keeps_emit|intros _].
  apply keeps_for_fold. intros; apply keeps_auto_body.
Qed.

(** X4 (the four loops on an empty list).  Called with an empty task list,
    [auto_download] and the two [after_task_completed] loops return [True]
    at once: no sleep, no call to the platform.  [download_block] first
    checks its parameters: with a falsy [server_path] it raises, and with a
    truthy one it returns [True] at once too, without transferring that
    path. *)
Theorem empty_task_list_returns_at_once fuel a st sp dt (s : Store R) :
  tasks s = [] →
  auto_download (S fuel) a st s = mkResult (Ok true) s []
  ∧ auto_download_after_task_completed (S fuel) a st s
      = mkResult (Ok true) s []
  ∧ auto_download_cc_after_task_completed (S fuel) a st dt s
      = mkResult (Ok true) s []
  ∧ download_block (S fuel) a st sp dt s =
      if not_server_path sp
      then mkResult (Raise (PyException
             "One of the task_id_list and custom_server_output_path must exist"))
             s []
      else mkResult (Ok true) s [].
Proof.
  intros E. split; [|split; [|split]].
  - unfold auto_download. rewrite bind_get_tasks, E. done.
  - unfold auto_download_after_task_completed.
    rewrite (bind_ok _ _ _ tt); by rewrite while_tasks_empty.
  - unfold auto_download_cc_after_task_completed.
    rewrite (bind_ok _ _ _ tt); by rewrite while_tasks_empty.
  - unfold download_block. rewrite bind_get_tasks, E. unfold check_params.
    cbn [not_list andb]. destruct (not_server_path sp).
    + by rewrite bind_raise.
    + rewrite bind_ret. rewrite (bind_ok _ _ _ tt); by rewrite while_tasks_empty.
Qed.

(** X5 ([auto_download], [_auto_download_tool]).  [auto_download] works on
    copies of the list it is given: whatever happens, however long it
    runs, the caller's list object is left as it was, also when the call
    returns [True]. *)
Theorem auto_download_keeps_the_callers_list fuel a st (s : Store R) :
  tasks (store (auto_download fuel a st s)) = tasks s.
Proof.
  revert s. change (keeps (auto_download fuel a st)). unfold auto_download.
  apply keeps_bind; [apply keeps_get_tasks|intros l].
  apply keeps_bind; [|intros; apply keeps_ret].
  unfold _auto_download_tool.
  apply keeps_bind; [apply keeps_auto_loop|intros loc].
  destruct (not_list loc.2); [apply keeps_ret|apply keeps_raise].
Qed.

(** **** Cycles that remove nothing, cycles that remove everything *)

Lemma count_runs_app evs1 evs2 :
  count_runs (evs1 ++ evs2) = count_runs evs1 + count_runs evs2.
Proof. unfold count_runs. by rewrite filter_app, length_app. Qed.

Lemma count_runs_cons e evs :
  count_runs (e :: evs) = (if is_run_cmd e then 1 else 0) + count_runs evs.
Proof.
  unfold count_runs. rewrite filter_cons.
  destruct (is_run_cmd e); by case_decide.
Qed.

(** Bodies that return and leave the list alone: the loop visits every
    task from its index on. *)
Lemma for_run_steady (body : TaskId → M R unit) n i (s : Store R) r :
  (∀ t s, out (body t s) = Ok tt ∧ tasks (store (body t s)) = tasks s
          ∧ count_runs (events (body t s)) = n) →
  for_run body i s r →
  out r = Ok tt ∧ tasks (store r) = tasks s
  ∧ count_runs (events r) = (length (tasks s) - i) * n.
Proof.
  intros Hb Hr. induction Hr as [i s Hi|i s t r Hi Ho Hr IH|i s t e' Hi Ho];
    cbn [out store events].
  - apply lookup_ge_None in Hi. split; [done|]. split; [done|].
    replace (length (tasks s) - i) with 0 by lia. done.
  - destruct (Hb t s) as (_ & Ht & Hn). destruct IH as (IHo & IHt & IHn).
    apply lookup_lt_Some in Hi. rewrite Ht in IHt, IHn.
    split; [done|]. split; [done|]. rewrite count_runs_app, Hn, IHn.
    replace (length (tasks s) - i) with (S (length (tasks s) - S i)) by lia.
    done.
  - destruct (Hb t s) as (Ho' & _). congruence.
Qed.

(** A cycle that removes nothing keeps the [while True] loop turning. *)
Lemma while_tasks_spins fuel (cycle : M R unit) n (s : Store R) :
  (∀ s, out (cycle s) = Ok tt ∧ tasks (store (cycle s)) = tasks s
        ∧ count_runs (events (cycle s)) = n * length (tasks s)) →
  tasks s ≠ [] →
  let r := while_tasks fuel cycle s in
  out r = Diverge ∧ tasks (store r) = tasks s
  ∧ count_runs (events r) = fuel * (n * length (tasks s)).
Proof.
  intros Hc. revert s. induction fuel as [|fuel IH]; intros s Hne; cbv zeta.
  - done.
  - cbn [while_tasks]. rewrite bind_get_tasks.
    destruct (tasks s) as [|t l] eqn:E; [done|]. cbn [not_list].
    destruct (Hc s) as (Ho & Ht & Hn).
    rewrite (bind_ok _ _ _ _ Ho). cbn [out store events].
    destruct (IH (store (cycle s))) as (IHo & IHt & IHn).
    { by rewrite Ht, E. }
    rewrite Ht in IHt, IHn. rewrite E in *.
    split; [done|]. split; [done|]. rewrite count_runs_app, Hn, IHn. lia.
Qed.

Lemma cycle_steady (body : TaskId → M R unit) n st (s : Store R) :
  (∀ t, tame (body t)) →
  (∀ t s, out (body t s) = Ok tt ∧ tasks (store (body t s)) = tasks s
          ∧ count_runs (events (body t s)) = n) →
  let r := (let! _ := sleep st in for_tasks body) s in
  out r = Ok tt ∧ tasks (store r) = tasks s
  ∧ count_runs (events r) = n * length (tasks s).
Proof.
  intros Hta Hb. cbv zeta. unfold sleep. rewrite bind_emit.
  cbn [out store events].
  destruct (for_run_steady body n 0 s _ Hb (for_tasks_run body s Hta))
    as (Ho & Ht & Hn).
  split; [done|]. split; [done|].
  rewrite count_runs_cons, Hn. cbn [is_run_cmd]. lia.
Qed.

Lemma list_remove_at (l : list TaskId) i t :
  NoDup l → l !! i = Some t →
  list_remove t l = Some (take i l ++ drop (S i) l).
Proof.
  revert i. induction l as [|y l IH]; intros i Hnd Hi; [done|].
  apply NoDup_cons in Hnd as [Hy Hnd]. destruct i as [|i]; cbn in Hi.
  - injection Hi as ->. cbn. by rewrite decide_True.
  - cbn [list_remove]. rewrite decide_False.
    + rewrite (IH i Hnd Hi). done.
    + intros ->. apply Hy. by eapply list_elem_of_lookup_2.
Qed.

Lemma odd_positions_step {A} (x : A) d :
  odd_positions (x :: d) = take 1 d ++ odd_positions (drop 1 d).
Proof. by destruct d. Qed.

(** Bodies that return and remove their task: the index moves on while
    the list closes up, so the task that follows a removed one is not
    visited. *)
Lemma for_run_removing (body : TaskId → M R unit) i (s : Store R) r :
  (∀ t s, t ∈ tasks s →
     out (body t s) = Ok tt
     ∧ list_remove t (tasks s) = Some (tasks (store (body t s)))) →
  for_run body i s r →
  NoDup (tasks s) →
  out r = Ok tt
  ∧ tasks (store r) = take i (tasks s) ++ odd_positions (drop i (tasks s)).
Proof.
  intros Hb Hr. induction Hr as [i s Hi|i s t r Hi Ho Hr IH|i s t e' Hi Ho];
    intros Hnd; cbn [out store events].
  - apply lookup_ge_None in Hi. split; [done|].
    rewrite take_ge, drop_ge by done. by rewrite app_nil_r.
  - destruct (Hb t s) as (_ & Hrm); [by eapply list_elem_of_lookup_2|].
    pose proof (list_remove_sublist _ _ _ Hrm) as Hsub.
    rewrite (list_remove_at _ i t Hnd Hi) in Hrm. injection Hrm as Hrm.
    destruct IH as (IHo & IHt); [by eapply sublist_NoDup|].
    split; [done|]. rewrite IHt, <-Hrm.
    pose proof (lookup_lt_Some _ _ _ Hi) as Hlt.
    replace (S i) with (i + 1) at 1 3 by lia.
    rewrite take_app_add', drop_app_add' by (rewrite length_take_le; lia).
    rewrite (drop_S _ _ _ Hi), odd_positions_step, <-app_assoc. done.
  - destruct (Hb t s) as (Ho' & _); [by eapply list_elem_of_lookup_2|].
    congruence.
Qed.

Lemma cc_output_known dt t :
  dt = Some (literal "block") ∨ dt = Some (literal "render") →
  is_Some (cc_output dt t).
Proof.
  intros [->| ->]; unfold cc_output; repeat case_decide; eauto; congruence.
Qed.

(** A visit of block mode whose poll shows a finished subtask and whose
    transfer fails: one transfer, nothing removed, no error. *)
Lemma block_body_retry lp a dt t (s : Store R) :
  dt = Some (literal "block") ∨ dt = Some (literal "render") →
  (∀ r st, "25" ∈ (mt_get_sub_status r st).1
           ∧ "45" ∉ (mt_get_sub_status r st).1) →
  (∀ r c kw, (exec_cmd r c kw).1 ≠ 0%Z) →
  out (block_body lp a dt t s) = Ok tt
  ∧ tasks (store (block_body lp a dt t s)) = tasks s
  ∧ count_runs (events (block_body lp a dt t s)) = 1.
Proof.
  intros Hdt Hsub Hex. rewrite block_body_run. cbv zeta.
  set (st := mt_get_task_status (remote s) (tasks s)).
  destruct (Hsub st.2 st.1) as [H25 H45].
  apply str_in_spec in H25. apply str_in_false in H45. rewrite H45, H25.
  rewrite run_cc_download_run.
  destruct (cc_output_known dt t Hdt) as [o ->]. cbv zeta.
  rewrite decide_True by apply Hex. cbn [out store events tasks].
  split; [done|]. split; [done|].
  cbn [app]. rewrite !count_runs_cons. done.
Qed.

(** A visit of the rebuild-aware mode of a task that does not qualify:
    three questions, no transfer, nothing removed. *)
Lemma cc_body_waits lp a dt t (s : Store R) :
  (∀ r st, "45" ∉ (mt_get_sub_status r st).1) →
  (∀ r st, "Rebuild" ∉ (mt_get_render_type r st).1
           ∨ (length (mt_get_render_type r st).1 ≤ 2)) →
  out (cc_body lp a dt t s) = Ok tt
  ∧ tasks (store (cc_body lp a dt t s)) = tasks s
  ∧ count_runs (events (cc_body lp a dt t s)) = 0.
Proof.
  intros Hsub Hrt. rewrite cc_body_run. cbv zeta.
  set (st := mt_get_task_status (remote s) (tasks s)).
  set (rt := mt_get_render_type st.2 st.1).
  pose proof (Hsub rt.2 st.1) as H45. apply str_in_false in H45.
  rewrite H45.
  assert (str_in "Rebuild" rt.1 && bool_decide (2 < length rt.1) = false)
    as ->.
  { destruct (Hrt st.2 st.1) as [Hr|Hl]; fold rt in Hr || fold rt in Hl.
    - apply str_in_false in Hr. by rewrite Hr.
    - rewrite (bool_decide_eq_false_2 (2 < length rt.1)) by lia.
      apply andb_false_r. }
  cbn [andb out store events tasks]. done.
Qed.

(** With every transfer returning 0, [_run_download] returns. *)
Lemma download_loop_succeeds names lp a :
  (∀ r c kw, (exec_cmd r c kw).1 = 0%Z) →
  ∀ s : Store R, out (for_each names (download_one lp a) s) = Ok tt.
Proof.
  intros Hex. induction names as [|n names IH]; intros s; cbn [for_each].
  - done.
  - unfold bind. rewrite download_one_run. cbn [out store].
    rewrite decide_False by (rewrite Hex; tauto). apply IH.
Qed.

Lemma run_download_succeeds ids lp a (s : Store R) :
  (∀ r c kw, (exec_cmd r c kw).1 = 0%Z) →
  out (_run_download ids lp a None s) = Ok tt.
Proof.
  intros Hex.
  destruct (run_download_trace ids lp a None s eq_refl)
    as (names & runs & k & He & _ & _ & Hf & _ & _ & _ & Ho).
  destruct Ho as [(Ho & _)|(n & pre & e & _ & Ho & Hr & Hfe & _)]; [done|].
  exfalso. unfold _run_download in Ho. cbn [not_server_path] in Ho.
  rewrite bind_assoc in Ho. unfold get_task_status, output_file_names in Ho.
  rewrite !bind_call in Ho. cbv zeta in Ho. cbn [out] in Ho.
  by rewrite download_loop_succeeds in Ho.
Qed.

(** A visit that finds its task ready and whose transfers return 0 removes
    the task. *)
Lemma after_body_removes lp a t (s : Store R) :
  (∀ r t, (mt_is_task_end r t).1 = true) →
  (∀ r c kw, (exec_cmd r c kw).1 = 0%Z) →
  t ∈ tasks s →
  out (after_body lp a t s) = Ok tt
  ∧ list_remove t (tasks s) = Some (tasks (store (after_body lp a t s))).
Proof.
  intros Hend Hex Hin. rewrite after_body_run. cbv zeta.
  rewrite Hend, run_download_succeeds by done.
  destruct (list_remove_elem _ _ Hin) as [l' ->]. done.
Qed.

Lemma block_body_removes lp a dt t (s : Store R) :
  (∀ r st, "25" ∈ (mt_get_sub_status r st).1
           ∧ "45" ∉ (mt_get_sub_status r st).1) →
  (∀ r c kw, (exec_cmd r c kw).1 = 0%Z) →
  t ∈ tasks s →
  out (block_body lp a dt t s) = Ok tt
  ∧ list_remove t (tasks s) = Some (tasks (store (block_body lp a dt t s))).
Proof.
  intros Hsub Hex Hin. rewrite block_body_run. cbv zeta.
  set (st := mt_get_task_status (remote s) (tasks s)).
  destruct (Hsub st.2 st.1) as [H25 H45].
  apply str_in_spec in H25. apply str_in_false in H45. rewrite H45, H25.
  rewrite run_cc_download_run.
  destruct (list_remove_elem _ _ Hin) as [l' Hl'].
  destruct (cc_output dt t) as [o|]; cbv zeta; cbn [out];
    rewrite ?decide_False by (rewrite Hex; tauto); by rewrite Hl'.
Qed.

Lemma cc_body_removes lp a dt t (s : Store R) :
  (∀ r st, ("45" ∉ (mt_get_sub_status r st).1)
           ∧ is_done (mt_get_sub_status r st).1 = true) →
  (∀ r st, "Rebuild" ∈ (mt_get_render_type r st).1
           ∧ 2 < length (mt_get_render_type r st).1) →
  (∀ r c kw, (exec_cmd r c kw).1 = 0%Z) →
  t ∈ tasks s →
  out (cc_body lp a dt t s) = Ok tt
  ∧ list_remove t (tasks s) = Some (tasks (store (cc_body lp a dt t s))).
Proof.
  intros Hsub Hrt Hex Hin. rewrite cc_body_run. cbv zeta.
  set (st := mt_get_task_status (remote s) (tasks s)).
  set (rt := mt_get_render_type st.2 st.1).
  destruct (Hsub rt.2 st.1) as [H45 Hd]. apply str_in_false in H45.
  destruct (Hrt st.2 st.1) as [Hr Hl]. fold rt in Hr, Hl.
  apply str_in_spec in Hr. rewrite H45, Hr, Hd.
  rewrite (bool_decide_eq_true_2 _ Hl). cbn [andb].
  rewrite run_cc_download_run.
  destruct (list_remove_elem _ _ Hin) as [l' Hl'].
  destruct (cc_output dt t) as [o|]; cbv zeta; cbn [out];
    rewrite ?decide_False by (rewrite Hex; tauto); by rewrite Hl'.
Qed.

Lemma cycle_removing (body : TaskId → M R unit) st (s : Store R) :
  (∀ t, tame (body t)) →
  (∀ t s, t ∈ tasks s →
     out (body t s) = Ok tt
     ∧ list_remove t (tasks s) = Some (tasks (store (body t s)))) →
  NoDup (tasks s) →
  let r := (let! _ := sleep st in for_tasks body) s in
  out r = Ok tt ∧ tasks (store r) = odd_positions (tasks s).
Proof.
  intros Hta Hb Hnd. cbv zeta. unfold sleep. rewrite bind_emit.
  cbn [out store].
  destruct (for_run_removing body 0 s _ Hb (for_tasks_run body s Hta) Hnd)
    as (Ho & Ht).
  by rewrite drop_0 in Ht.
Qed.

(** X6 (the [for] loops that remove from the list they iterate).  In a
    cycle where every task is ready and every transfer returns 0, each
    visit removes its task, the list closes up under the iterator, and the
    task that followed is not visited: of distinct tasks the cycle leaves
    exactly those at the odd positions (the second, the fourth, ...), in
    all three loops that remove in place. *)
Theorem removing_cycle_leaves_every_second_task st lp a dt (s : Store R) :
  NoDup (tasks s) →
  (∀ r t, (mt_is_task_end r t).1 = true) →
  (∀ r st, "25" ∈ (mt_get_sub_status r st).1
           ∧ ("45" ∉ (mt_get_sub_status r st).1)
           ∧ is_done (mt_get_sub_status r st).1 = true) →
  (∀ r st, "Rebuild" ∈ (mt_get_render_type r st).1
           ∧ 2 < length (mt_get_render_type r st).1) →
  (∀ r c kw, (exec_cmd r c kw).1 = 0%Z) →
  (out (after_cycle st lp a s) = Ok tt
   ∧ tasks (store (after_cycle st lp a s)) = odd_positions (tasks s))
  ∧ (out (block_cycle st lp a dt s) = Ok tt
     ∧ tasks (store (block_cycle st lp a dt s)) = odd_positions (tasks s))
  ∧ (out (cc_cycle st lp a dt s) = Ok tt
     ∧ tasks (store (cc_cycle st lp a dt s)) = odd_positions (tasks s)).
Proof.
  intros Hnd Hend Hsub Hrt Hex. split; [|split].
  - apply cycle_removing; [apply tame_after_body| |done].
    intros t s' Hin. by apply after_body_removes.
  - apply cycle_removing; [apply tame_block_body| |done].
    intros t s' Hin. apply block_body_removes; [|done..].
    intros r st'. by destruct (Hsub r st') as (? & ? & _).
  - apply cycle_removing; [apply tame_cc_body| |done].
    intros t s' Hin. apply cc_body_removes; [|done..].
    intros r st'. by destruct (Hsub r st') as (_ & ? & ?).
Qed.

(** A run in which no transfer command appears. *)
Lemma no_transfer_of_halts {A} (r : Result R A) :
  halts_at is_run_cmd (λ _, False) r → ¬ transfer_fired (events r).
Proof.
  intros Hh (c & kw & code & Hin).
  apply list_elem_of_split in Hin as (pre & post & He).
  by destruct (Hh pre _ post He eq_refl) as (_ & x & _ & []).
Qed.

Lemma run_cc_download_not_identical ids lp a dt (s : Store R) :
  dt ≠ Some (literal "block") → dt ≠ Some (literal "render") →
  _run_cc_download ids lp a dt s = mkResult (Ok tt) s [].
Proof.
  intros Hb Hr. unfold _run_cc_download. by rewrite !decide_False.
Qed.

(** With a download type that is not the object of a literal, block mode
    runs no transfer. *)
Lemma block_mode_not_identical fuel a st sp dt :
  dt ≠ Some (literal "block") → dt ≠ Some (literal "render") →
  halting is_run_cmd (λ _, False) (download_block fuel a st sp dt).
Proof.
  intros Hb Hr. unfold download_block.
  apply halting_bind; [apply halting_get_tasks|intros l].
  apply halting_bind.
  { unfold check_params. destruct (_ && _);
      [apply halting_raise|apply halting_ret]. }
  intros _. apply halting_bind; [|intros; apply halting_ret].
  apply halting_while_tasks. unfold block_cycle, sleep.
  apply halting_bind; [by apply halting_emit|intros _].
  apply halting_for_tasks. intros t. unfold block_body.
  apply halting_bind; [apply halting_get_tasks|intros l'].
  apply halting_bind; [by apply halting_call|intros sts].
  apply halting_bind; [by apply halting_call|intros subs].
  apply halting_bind; [apply halting_py_assert|intros _].
  destruct (str_in "25" subs); [|apply halting_ret].
  apply halting_bind.
  - apply halting_try; [by intros x []| |apply halting_ret].
    apply halting_bind; [|intros; apply halting_ret].
    intros s. rewrite run_cc_download_not_identical by done.
    by apply halts_silent.
  - intros flag. destruct flag;
      [apply halting_tasks_remove|apply halting_ret].
Qed.

(** X7 ([download_block], retries).  When [download_type] is the object of
    the literal "block" or "render" (the code compares by identity), then
    while the polls show a finished subtask and the transfers fail, block
    mode neither returns nor raises: after any number of turns of its
    [while True] loop the working set is as it was, and every turn has
    run one more transfer for every task.  With any other
    [download_type], a [str] that is equal to a literal without being its
    object included, there is nothing to retry: block mode never runs a
    transfer. *)
Theorem block_mode_retries_without_bound fuel a st sp dt (s : Store R) :
  (dt = Some (literal "block") ∨ dt = Some (literal "render") →
   (∀ r st, "25" ∈ (mt_get_sub_status r st).1
            ∧ "45" ∉ (mt_get_sub_status r st).1) →
   (∀ r c kw, (exec_cmd r c kw).1 ≠ 0%Z) →
   tasks s ≠ [] →
   let r := download_block fuel a st sp dt s in
   out r = Diverge
   ∧ tasks (store r) = tasks s
   ∧ count_runs (events r) = fuel * length (tasks s))
  ∧ (dt ≠ Some (literal "block") → dt ≠ Some (literal "render") →
     ¬ transfer_fired (events (download_block fuel a st sp dt s))).
Proof.
  split; [|intros Hb Hr; by apply no_transfer_of_halts,
                              block_mode_not_identical].
  intros Hdt Hsub Hex Hne. cbv zeta. unfold download_block.
  rewrite bind_get_tasks. unfold check_params.
  destruct (tasks s) as [|t0 l0] eqn:E; [done|]. cbn [not_list andb].
  rewrite bind_ret. rewrite <-E.
  destruct (while_tasks_spins fuel
    (block_cycle st (_check_local_path (local_path a)) a dt) 1 s)
    as (Ho & Ht & Hn).
  { intros s'. apply cycle_steady; [apply tame_block_body|].
    intros t s''. by apply block_body_retry. }
  { by rewrite E. }
  unfold bind. rewrite Ho. cbn [out store events].
  split; [done|]. split; [done|]. rewrite Hn. lia.
Qed.

(** X8 ([auto_download_cc_after_task_completed], tasks that never
    qualify).  While the render types of the working set do not contain
    "Rebuild" or are fewer than three, and no poll shows "45", the
    rebuild-aware mode neither returns nor raises, whatever the
    sub-statuses are: the working set stays as it was and no transfer is
    ever run. *)
Theorem rebuild_mode_waits_forever_without_rebuild fuel a st dt
    (s : Store R) :
  (∀ r st, "45" ∉ (mt_get_sub_status r st).1) →
  (∀ r st, "Rebuild" ∉ (mt_get_render_type r st).1
           ∨ (length (mt_get_render_type r st).1 ≤ 2)) →
  tasks s ≠ [] →
  let r := auto_download_cc_after_task_completed fuel a st dt s in
  out r = Diverge
  ∧ tasks (store r) = tasks s
  ∧ count_runs (events r) = 0.
Proof.
  intros Hsub Hrt Hne. cbv zeta.
  unfold auto_download_cc_after_task_completed.
  destruct (while_tasks_spins fuel
    (cc_cycle st (_check_local_path (local_path a)) a dt) 0 s)
    as (Ho & Ht & Hn).
  { intros s'. apply cycle_steady; [apply tame_cc_body|].
    intros t s''. by apply cc_body_waits. }
  { done. }
  unfold bind. rewrite Ho. cbn [out store events].
  split; [done|]. split; [done|]. rewrite Hn. lia.
Qed.

(** **** A task that has not ended, in [auto_download] *)

Lemma auto_body_unended lp a t loc (s : Store R) :
  (mt_is_task_end (remote s) t).1 = false →
  out (auto_body lp a t loc s) = Ok loc
  ∧ count_status_calls (events (auto_body lp a t loc s)) = 1.
Proof.
  intros Hend. destruct loc as [copy failed].
  destruct (auto_body_spec lp a t copy failed s)
    as (_ & e & names & runs & He & Hf & Ho).
  destruct (auto_body_asks lp a t (copy, failed) s) as [rest He'].
  assert (e = false) as -> by congruence.
  split; [done|]. rewrite He.
  change (EvIsTaskEnd t false :: EvGetTaskStatus [t]
            :: EvOutputFileNames names :: runs)
    with ([EvIsTaskEnd t false; EvGetTaskStatus [t];
           EvOutputFileNames names] ++ runs).
  rewrite count_status_calls_app, (count_status_calls_runs runs Hf). done.
Qed.

Lemma auto_fold_unended lp a l :
  (∀ r t, (mt_is_task_end r t).1 = false) →
  ∀ loc (s : Store R),
    out (for_fold l (auto_body lp a) loc s) = Ok loc
    ∧ count_status_calls (events (for_fold l (auto_body lp a) loc s))
      = length l.
Proof.
  intros Hend. induction l as [|t l IH]; intros loc s; cbn [for_fold].
  - done.
  - destruct (auto_body_unended lp a t loc s (Hend _ _)) as [Ho Hn].
    rewrite (bind_ok _ _ _ _ Ho). cbn [out events].
    destruct (IH loc (store (auto_body lp a t loc s))) as [IHo IHn].
    rewrite count_status_calls_app, Hn, IHn. done.
Qed.

Lemma auto_loop_unended st lp a l failed :
  (∀ r t, (mt_is_task_end r t).1 = false) →
  l ≠ [] →
  ∀ fuel (s : Store R),
    out (auto_loop fuel st lp a l failed s) = Diverge
    ∧ count_status_calls (events (auto_loop fuel st lp a l failed s))
      = fuel * length l.
Proof.
  intros Hend Hne fuel. induction fuel as [|fuel IH]; intros s;
    cbn [auto_loop]; [done|].
  destruct l as [|t0 l0] eqn:E; [done|]. cbn [not_list]. rewrite <-E.
  assert (out (auto_cycle st lp a l failed s) = Ok (l, failed)
          ∧ count_status_calls (events (auto_cycle st lp a l failed s))
            = length l) as [Ho Hn].
  { unfold auto_cycle, sleep. rewrite bind_emit. cbn [out events].
    destruct (auto_fold_unended lp a l Hend (l, failed) s) as [Ho Hn].
    split; [done|].
    change (EvSleep st :: ?evs) with ([EvSleep st] ++ evs).
    by rewrite count_status_calls_app, Hn. }
  rewrite (bind_ok _ _ _ _ Ho). cbn [out events fst snd].
  destruct (IH (store (auto_cycle st lp a l failed s))) as [IHo IHn].
  rewrite E in *. split; [done|].
  rewrite count_status_calls_app, Hn, IHn. lia.
Qed.

(** X9 ([auto_download], tasks that have not ended).  While [is_task_end]
    answers [False], [auto_download] neither returns nor raises, and it
    does not wait for the tasks to end before transferring: every turn of
    its loop runs [_run_download] again for every task of the list (one
    status query per task and turn). *)
Theorem auto_mode_downloads_unended_tasks_every_turn fuel a st (s : Store R) :
  (∀ r t, (mt_is_task_end r t).1 = false) →
  tasks s ≠ [] →
  let r := auto_download fuel a st s in
  out r = Diverge
  ∧ count_status_calls (events r) = fuel * length (tasks s).
Proof.
  intros Hend Hne. cbv zeta. unfold auto_download, _auto_download_tool.
  rewrite bind_get_tasks.
  destruct (auto_loop_unended st (_check_local_path (local_path a)) a
              (tasks s) [] Hend Hne fuel s) as [Ho Hn].
  rewrite bind_assoc, (bind_diverged _ _ _ Ho). done.
Qed.

(** **** The completion predicate *)

Lemma spec_done_equiv l1 l2 :
  (∀ x : string, x ∈ l1 ↔ x ∈ l2) → spec_done l1 → spec_done l2.
Proof.
  intros Heq [(c & Hc & Hall)|(H25 & H30 & Hall)].
  - left. exists c. split; [by apply Heq|]. intros x Hx. by apply Hall, Heq.
  - right. split; [by apply Heq|]. split; [by apply Heq|].
    intros x Hx. by apply Hall, Heq.
Qed.

(** X10 ([is_done] of [auto_download_cc_after_task_completed]).  The
    completion predicate looks at the set of sub-status codes only: two
    polls that show the same codes, in any order and any number of times,
    are judged alike; and a poll that shows no sub-status at all is not
    complete. *)
Theorem completion_depends_on_the_set_of_codes l1 l2 :
  (∀ x : string, x ∈ l1 ↔ x ∈ l2) →
  is_done l1 = is_done l2 ∧ is_done [] = false.
Proof.
  intros Heq. split; [|done].
  destruct (is_done l1) eqn:E1, (is_done l2) eqn:E2; try done.
  - apply is_done_spec, (spec_done_equiv l1 l2 Heq), is_done_spec in E1.
    congruence.
  - apply is_done_spec, (spec_done_equiv l2 l1), is_done_spec in E2;
      [congruence|]. intros x. by rewrite Heq.
Qed.

(** *** More of [upload.py] *)

(** The retry loop of [upload_config] in any world: with the fuel for ten
    attempts it ends, by returning or by raising for its file, after at
    most ten runs. *)
Lemma config_retry_bounded cmd cp :
  ∀ fuel j0 (s : Store R),
    j0 ≤ 9 → 10 - j0 ≤ fuel →
    let r := config_retry fuel cmd cp (Z.of_nat j0) s in
    (out r = Ok tt ∨ out r = Raise (upload_failed cp))
    ∧ tasks (store r) = tasks s
    ∧ count_runs (events r) = length (events r)
    ∧ 1 ≤ length (events r) ≤ 10 - j0.
Proof.
  induction fuel as [|fuel IH]; intros j0 s Hj Hf; [lia|]. cbv zeta.
  rewrite config_retry_step. cbv zeta.
  destruct (decide ((exec_cmd (remote s) cmd config_kw).1 = 0%Z)) as [H0|H0].
  { cbn [out store events length]. rewrite count_runs_cons.
    split; [by left|]. split; [done|]. split; [done|]. lia. }
  destruct (decide (Z.of_nat j0 = 9%Z)) as [H9|H9].
  { cbn [out store events length]. rewrite count_runs_cons.
    split; [by right|]. split; [done|]. split; [done|]. lia. }
  assert (j0 < 9) as Hlt by lia.
  replace (Z.of_nat j0 + 1)%Z with (Z.of_nat (S j0)) by lia.
  destruct (IH (S j0) (mkStore (exec_cmd (remote s) cmd config_kw).2
                         (tasks s))) as (Ho & Ht & Hc & Hl); [lia..|].
  cbn [out store events]. split; [done|]. split; [done|].
  rewrite count_runs_cons, Hc. cbn [is_run_cmd length]. lia.
Qed.

Lemma upload_config_one_run fuel tid ms e cp (s : Store R) :
  let lp := str2unicode cp in
  let ex := os_path_exists (remote s) lp in
  let s1 := mkStore ex.2 (tasks s) in
  let cmd := trans_create_cmd
               (config_params lp
                  (str2unicode ("/" +:+ tid +:+ "/cfg/" +:+ os_path_basename cp))
                  (default_speed ms)) None e None in
  upload_config_one fuel tid ms e cp s =
    if ex.1 then
      let r := config_retry fuel cmd cp 0 s1 in
      mkResult (out r) (store r) (EvPathExists lp true :: events r)
    else mkResult (Ok tt) s1 [EvPathExists lp false].
Proof.
  cbv zeta. unfold upload_config_one. rewrite bind_call. cbv zeta.
  by destruct (os_path_exists (remote s) (str2unicode cp)).1.
Qed.

Lemma upload_config_one_bounded fuel tid ms e cp (s : Store R) :
  10 ≤ fuel →
  let r := upload_config_one fuel tid ms e cp s in
  (out r = Ok tt ∨ out r = Raise (upload_failed cp))
  ∧ tasks (store r) = tasks s
  ∧ count_runs (events r) ≤ 10.
Proof.
  intros Hf. cbv zeta. rewrite upload_config_one_run. cbv zeta.
  destruct (os_path_exists (remote s) (str2unicode cp)).1.
  - match goal with |- context [config_retry fuel ?c cp 0 ?s1] =>
      destruct (config_retry_bounded c cp fuel 0 s1)
        as (Ho & Ht & Hc & Hl); [lia..|] end.
    change (Z.of_nat 0) with 0%Z in *. cbn [out store events].
    split; [done|]. split; [done|].
    rewrite count_runs_cons, Hc. cbn [is_run_cmd]. lia.
  - cbn [out store events]. split; [by left|]. split; [done|].
    rewrite count_runs_cons. cbn. lia.
Qed.

Lemma upload_config_loop fuel tid ms e cfl :
  10 ≤ fuel →
  ∀ s : Store R,
    let r := for_each cfl (upload_config_one fuel tid ms e) s in
    (out r = Ok tt ∨ ∃ cp, cp ∈ cfl ∧ out r = Raise (upload_failed cp))
    ∧ tasks (store r) = tasks s
    ∧ count_runs (events r) ≤ 10 * length cfl.
Proof.
  intros Hf. induction cfl as [|cp cfl IH]; intros s; cbn [for_each].
  - cbn. eauto.
  - cbv zeta.
    destruct (upload_config_one_bounded fuel tid ms e cp s Hf)
      as (Ho & Ht & Hn).
    destruct Ho as [Ho|Ho].
    + rewrite (bind_ok _ _ _ _ Ho). cbn [out store events].
      destruct (IH (store (upload_config_one fuel tid ms e cp s)))
        as (IHo & IHt & IHn).
      split; [|split].
      * destruct IHo as [?|(cp' & Hin & ?)]; [by left|right].
        exists cp'. split; [by right|done].
      * by rewrite IHt.
      * rewrite count_runs_app. cbn [length]. lia.
    + rewrite (bind_raised _ _ _ _ Ho). cbn [out store events].
      split; [right; exists cp; split; [by left|done]|]. split; [done|].
      cbn [length]. lia.
Qed.

(** X11 ([upload_config], outcomes).  With room for ten attempts per file,
    [upload_config] always ends: it returns [True] (it never returns
    [False]) or raises [RayvisionError] 20004 naming one of the files of
    its list; it runs at most ten transfers per file. *)
Theorem upload_config_returns_true_or_names_a_file fuel tid cfl ms e
    (s : Store R) :
  10 ≤ fuel →
  let r := upload_config fuel tid cfl ms e s in
  (out r = Ok true ∨ ∃ cp, cp ∈ cfl ∧ out r = Raise (upload_failed cp))
  ∧ tasks (store r) = tasks s
  ∧ count_runs (events r) ≤ 10 * length cfl.
Proof.
  intros Hf. cbv zeta. unfold upload_config.
  destruct (upload_config_loop fuel tid ms e cfl Hf s) as (Ho & Ht & Hn).
  destruct Ho as [Ho|(cp & Hin & Ho)].
  - rewrite (bind_ok _ _ _ _ Ho). cbn [out store events ret].
    rewrite app_nil_r. eauto.
  - rewrite (bind_raised _ _ _ _ Ho). cbn [out store events]. eauto 10.
Qed.

(** X12 ([upload_config], files that do not exist).  A configuration file
    that does not exist is skipped without a word to the caller: when
    none of the files exists [upload_config] returns [True] having run no
    transfer at all, its only events being one existence check per
    file. *)
Theorem upload_config_skips_missing_files fuel tid cfl ms e (s : Store R) :
  (∀ r p, (os_path_exists r p).1 = false) →
  let r := upload_config fuel tid cfl ms e s in
  out r = Ok true
  ∧ events r = (λ cp, EvPathExists (str2unicode cp) false) <$> cfl
  ∧ count_runs (events r) = 0.
Proof.
  intros Hmiss. cbv zeta. unfold upload_config.
  assert (∀ s : Store R,
    let r := for_each cfl (upload_config_one fuel tid ms e) s in
    out r = Ok tt
    ∧ events r = (λ cp, EvPathExists (str2unicode cp) false) <$> cfl
    ∧ count_runs (events r) = 0) as Hloop.
  { clear s. induction cfl as [|cp cfl IH]; intros s; cbn [for_each].
    - done.
    - cbv zeta.
      assert (upload_config_one fuel tid ms e cp s =
        mkResult (Ok tt)
          (mkStore (os_path_exists (remote s) (str2unicode cp)).2 (tasks s))
          [EvPathExists (str2unicode cp) false]) as Hone.
      { rewrite upload_config_one_run. cbv zeta. by rewrite Hmiss. }
      rewrite (bind_ok _ _ _ tt) by (by rewrite Hone).
      rewrite Hone. cbn [out store events].
      match goal with |- context [for_each cfl _ ?s2] =>
        destruct (IH s2) as (IHo & IHe & IHn) end.
      split; [done|]. cbn [app]. rewrite count_runs_cons, IHn, IHe. done. }
  destruct (Hloop s) as (Ho & He & Hn).
  rewrite (bind_ok _ _ _ _ Ho). cbn [out store events ret].
  by rewrite app_nil_r.
Qed.

Lemma count_runs_attempts n c kw (r : R) :
  count_runs (attempts_events n c kw r) = n
  ∧ length (attempts_events n c kw r) = n.
Proof.
  revert r. induction n as [|n IH]; intros r; [done|].
  rewrite attempts_events_S, count_runs_cons. cbn [is_run_cmd length].
  destruct (IH (exec_cmd r c kw).2) as [-> ->]. done.
Qed.

(** X13 ([upload_config], a file that cannot be uploaded).  The first
    file that exists and whose transfer keeps failing ends the whole
    call: after the existence checks of the missing files before it and
    ten runs of its command [upload_config] raises [RayvisionError] 20004
    for that file, and the files after it are neither checked nor
    uploaded. *)
Theorem upload_config_stops_at_the_first_exhausted_file fuel tid pre cp rest
    ms e (s : Store R) :
  10 ≤ fuel →
  (∀ r p, p ∈ pre → (os_path_exists r (str2unicode p)).1 = false) →
  (∀ r, (os_path_exists r (str2unicode cp)).1 = true) →
  (∀ r c kw, (exec_cmd r c kw).1 ≠ 0%Z) →
  let r := upload_config fuel tid (pre ++ cp :: rest) ms e s in
  out r = Raise (upload_failed cp)
  ∧ count_runs (events r) = 10
  ∧ length (events r) = length pre + 11.
Proof.
  intros Hf Hmiss Hex Hfail. cbv zeta. unfold upload_config.
  assert (∀ s : Store R,
    let r := for_each (pre ++ cp :: rest) (upload_config_one fuel tid ms e) s in
    out r = Raise (upload_failed cp)
    ∧ count_runs (events r) = 10
    ∧ length (events r) = length pre + 11) as Hloop.
  { clear s. induction pre as [|p pre IH]; intros s; cbn [app for_each].
    - cbv zeta.
      assert (let r := upload_config_one fuel tid ms e cp s in
              out r = Raise (upload_failed cp)
              ∧ count_runs (events r) = 10 ∧ length (events r) = 11)
        as (Ho & Hn & Hl).
      { cbv zeta. rewrite upload_config_one_run. cbv zeta. rewrite Hex.
        match goal with |- context [config_retry fuel ?c cp 0 ?s1] =>
          destruct (config_retry_exhausts c cp 10 0 fuel s1)
            as (Ho & He & _); [lia..| |] end.
        { intros j _. apply Hfail. }
        change (Z.of_nat 0) with 0%Z in *. cbn [out store events].
        rewrite count_runs_cons, He. cbn [is_run_cmd length].
        match goal with |- context [attempts_events 10 ?c ?k ?r] =>
          destruct (count_runs_attempts 10 c k r) as [-> ->] end.
        done. }
      rewrite (bind_raised _ _ _ _ Ho). cbn [out store events]. done.
    - cbv zeta.
      assert (upload_config_one fuel tid ms e p s =
        mkResult (Ok tt)
          (mkStore (os_path_exists (remote s) (str2unicode p)).2 (tasks s))
          [EvPathExists (str2unicode p) false]) as Hone.
      { rewrite upload_config_one_run. cbv zeta.
        rewrite Hmiss by (by left). done. }
      rewrite (bind_ok _ _ _ tt) by (by rewrite Hone).
      rewrite Hone. cbn [out store events].
      match goal with |- context [for_each _ _ ?s2] =>
        destruct (IH (λ r q Hq, Hmiss r q (list_elem_of_further _ _ _ Hq)) s2)
          as (IHo & IHn & IHl) end.
      split; [done|]. cbn [app length].
      rewrite count_runs_cons, IHn, IHl. done. }
  destruct (Hloop s) as (Ho & Hn & Hl).
  rewrite (bind_raised _ _ _ _ Ho). done.
Qed.

(** [create_db_ini], run. *)
Lemma create_db_ini_run ujp (s : Store R) :
  let ex := os_path_exists (remote s) db_ini_dir in
  let s1 := mkStore ex.2 (tasks s) in
  let pre := EvPathExists db_ini_dir ex.1
             :: (if ex.1 then [] else [EvMakedirs db_ini_dir]) in
  create_db_ini ujp s =
    if String.eqb db_config_type "redis" then
      mkResult (Ok (os_path_join db_ini_dir "db_redis.ini")) s1
        (pre ++ [EvWriteIni (os_path_join db_ini_dir "db_redis.ini")])
    else if String.eqb db_config_type "sqlite" then
      mkResult (Ok (os_path_join db_ini_dir (time_temp_of ujp +:+ ".ini"))) s1
        (pre ++ [EvWriteIni
                   (os_path_join db_ini_dir (time_temp_of ujp +:+ ".ini"))])
    else
      mkResult (Raise (UnsupportedDatabaseError
        (db_config_type +:+
         " is not a supported database, only support 'redis' or 'sqlite'")))
        s1 pre.
Proof.
  cbv zeta. unfold create_db_ini. rewrite bind_call. cbv zeta.
  destruct (os_path_exists (remote s) db_ini_dir).1; cbn [negb];
    rewrite ?bind_ret, ?bind_emit;
    destruct (String.eqb db_config_type "redis");
    try destruct (String.eqb db_config_type "sqlite"); done.
Qed.

(** X14 ([upload_asset] with [create_db_ini]).  A run of the body of
    [upload_asset] with a truthy [is_db] (the default, when the keyword
    is not given): for the database types "redis" and "sqlite" the ini
    file is written just before the transfer command is run, and the
    command carries the path of that file; for any other type
    [UnsupportedDatabaseError] is raised and neither an ini file is
    written nor a transfer run. *)
Theorem upload_asset_writes_the_ini_before_the_transfer
    (kw : gmap string pyval) ujp (s : Store R) :
  (∀ k, k ∈ dom kw → k ∈ upload_asset_params) →
  kw !! "upload_json_path" = Some (VStr ujp) →
  truthy (kw_get kw "is_db" (VBool true)) = true →
  let r := upload_asset kw s in
  if String.eqb db_config_type "redis" || String.eqb db_config_type "sqlite"
  then
    ∃ pre p c kwr code,
      events r = pre ++ [EvWriteIni p; EvRunCmd c kwr code]
      ∧ count_runs pre = 0
      ∧ cmd_db_ini c = Some p
      ∧ out r = Ok code
      ∧ p = os_path_join db_ini_dir
              (if String.eqb db_config_type "redis" then "db_redis.ini"
               else time_temp_of ujp +:+ ".ini")
  else
    (∃ m, out r = Raise (UnsupportedDatabaseError m))
    ∧ count_runs (events r) = 0
    ∧ existsb writes_ini (events r) = false.
Proof.
  intros Hkeys Hp Hdb. cbv zeta. unfold upload_asset.
  rewrite bool_decide_eq_false_2 by (intros (k & Hin & Hnot); eauto).
  rewrite Hp, Hdb. cbn [opt_str].
  change (default "" (Some ujp)) with ujp. rewrite bind_assoc.
  pose proof (create_db_ini_run ujp s) as Hrun. cbv zeta in Hrun.
  set (ex := os_path_exists (remote s) db_ini_dir) in *.
  assert (count_runs (EvPathExists db_ini_dir ex.1
            :: (if ex.1 then [] else [EvMakedirs db_ini_dir])) = 0) as Hpre.
  { by destruct ex.1. }
  destruct (String.eqb db_config_type "redis") eqn:Hredis;
    [|destruct (String.eqb db_config_type "sqlite") eqn:Hsqlite];
    cbn [orb].
  - rewrite (bind_ok _ _ _ (os_path_join db_ini_dir "db_redis.ini"))
      by (by rewrite Hrun).
    rewrite Hrun. cbn [out store events]. rewrite bind_ret.
    unfold run_cmd, call. cbn [out store events].
    exists (EvPathExists db_ini_dir ex.1
              :: (if ex.1 then [] else [EvMakedirs db_ini_dir])).
    eexists _, _, _, _. rewrite <-app_assoc.
    split; [reflexivity|]. done.
  - rewrite (bind_ok _ _ _
        (os_path_join db_ini_dir (time_temp_of ujp +:+ ".ini")))
      by (by rewrite Hrun).
    rewrite Hrun. cbn [out store events]. rewrite bind_ret.
    unfold run_cmd, call. cbn [out store events].
    exists (EvPathExists db_ini_dir ex.1
              :: (if ex.1 then [] else [EvMakedirs db_ini_dir])).
    eexists _, _, _, _. rewrite <-app_assoc.
    split; [reflexivity|]. done.
  - erewrite bind_raised by (by rewrite Hrun).
    rewrite Hrun. cbn [out store events].
    split; [by eexists|]. split; [done|]. by destruct ex.1.
Qed.

(** X15 ([thread_pool_upload], calls that fail).  After [is_db] has been
    popped: a pool size that is not positive raises [ValueError] before
    anything is submitted; and a keyword [upload_json_path] among the
    caller's keywords makes the first [submit] raise [TypeError], with
    the pool created, nothing submitted and the pool never shut down. *)
Theorem pool_upload_fails_before_the_first_submit pool size
    (kwargs : gmap string pyval) v (s : Store R) :
  kwargs !! "is_db" = Some v →
  let r := thread_pool_upload pool size kwargs s in
  ((size ≤ 0)%Z →
     (∃ m, out r = Raise (ValueError m)) ∧ events r = [] ∧ store r = s)
  ∧ ((0 < size)%Z → is_Some (kwargs !! "upload_json_path") → pool ≠ [] →
     (∃ m, out r = Raise (TypeError m)) ∧ events r = [EvPool size]
     ∧ store r = s).
Proof.
  intros Hv. cbv zeta. unfold thread_pool_upload, dict_pop.
  rewrite Hv, bind_ret. cbn [snd]. unfold new_pool. split.
  - intros Hsz. rewrite decide_True by done. rewrite bind_raise.
    split; [by eexists|done].
  - intros Hsz Hp Hne. rewrite decide_False by lia. rewrite bind_emit.
    destruct pool as [|p pool]; [done|]. cbn [for_each].
    assert (submit_keywords (R := R) p (delete "is_db" kwargs) =
      raise (TypeError "got multiple values for keyword argument")) as Hs.
    { unfold submit_keywords. rewrite bool_decide_eq_true_2; [done|].
      left. by rewrite lookup_delete_ne. }
    rewrite !bind_assoc, Hs, bind_raise. cbn [out store events raise].
    split; [by eexists|done].
Qed.

(** **** [upload] *)

Lemma upload_binding ujp ms tt e ir rf ro :
  let kw := list_to_map
              (zip upload_asset_params [VStr ujp; py_opt ms; VStr tt])
            ∪ upload_keywords e ir rf ro in
  kw !! "upload_json_path" = Some (VStr ujp)
  ∧ kw_get kw "max_speed" VNone = py_opt ms
  ∧ kw_get kw "is_db" (VBool true) = VStr tt
  ∧ kw_get kw "transmit_type" (VStr "upload_json") = VStr "upload_json"
  ∧ kw_get kw "engine_type" (VStr "aspera") = py_opt (engine_type e)
  ∧ kw_get kw "server_ip" VNone = py_opt (server_ip e)
  ∧ kw_get kw "server_port" VNone = py_opt (server_port e)
  ∧ kw_get kw "network_mode" (VInt 0) = VInt (network_mode e)
  ∧ (∀ k, k ∈ dom kw → k ∈ upload_asset_params).
Proof.
  cbv zeta. repeat split; try reflexivity.
  intros k Hk. apply elem_of_dom in Hk as [x Hk].
  apply lookup_union_Some_raw in Hk as [Hk|[_ Hk]];
    apply elem_of_list_to_map_2 in Hk; cbn in Hk;
    repeat (apply elem_of_cons in Hk as [[= -> _]|Hk];
            [by apply (bool_decide_unpack _)|]);
    by apply elem_of_nil in Hk.
Qed.

Lemma upload_asset_call_bound ujp ms tt e ir rf ro (s : Store R) :
  upload_asset_call [VStr ujp; py_opt ms; VStr tt]
    (upload_keywords e ir rf ro) s =
  let cmd_params :=
    ["upload_json"; ujp; "/"; default_speed ms; "false"; "input_bid"] in
  let kwr := [("flag", VBool true); ("is_record", ir); ("redis_flag", rf);
              ("redis_obj", ro)] in
  (let! db_ini_path :=
     (if negb (String.eqb tt "")
      then let! p := create_db_ini ujp in ret (Some p)
      else ret None) in
   run_cmd (trans_create_cmd cmd_params db_ini_path e (Some get_share_info))
     kwr) s.
Proof.
  unfold upload_asset_call.
  rewrite bool_decide_eq_false_2 by (cbn; lia).
  rewrite bool_decide_eq_false_2.
  2:{ intros H. cbn in H. repeat (apply Exists_cons in H as [[? [=]]|H]).
      by apply Exists_nil in H. }
  destruct (upload_binding ujp ms tt e ir rf ro)
    as (Hp & Hms & Hdb & Htt & Het & Hip & Hpt & Hnm & Hkeys).
  cbv zeta in *. unfold upload_asset.
  rewrite bool_decide_eq_false_2 by (intros (k & Hin & Hnot); eauto).
  rewrite Hp, Hms, Hdb, Htt, Het, Hip, Hpt, Hnm.
  assert (kw_get (list_to_map
            (zip upload_asset_params [VStr ujp; py_opt ms; VStr tt])
            ∪ upload_keywords e ir rf ro) "is_record" (VBool false) = ir)
    as -> by reflexivity.
  assert (kw_get (list_to_map
            (zip upload_asset_params [VStr ujp; py_opt ms; VStr tt])
            ∪ upload_keywords e ir rf ro) "redis_flag" VNone = rf)
    as -> by reflexivity.
  assert (kw_get (list_to_map
            (zip upload_asset_params [VStr ujp; py_opt ms; VStr tt])
            ∪ upload_keywords e ir rf ro) "redis_obj" VNone = ro)
    as -> by reflexivity.
  cbn [truthy opt_str as_int].
  assert (default_speed (opt_str (py_opt ms)) = default_speed ms) as ->
    by (by destruct ms).
  assert ({| engine_type := opt_str (py_opt (engine_type e));
             server_ip := opt_str (py_opt (server_ip e));
             server_port := opt_str (py_opt (server_port e));
             network_mode := network_mode e |} = e) as ->.
  { by destruct e as [[?|] [?|] [?|] ?]. }
  done.
Qed.

(** X16 ([upload] and the signature of [upload_asset]).  [upload] gives
    [upload_asset] its [transmit_type] as the third positional argument,
    which is the parameter [is_db].  In the body that call runs, the
    transfer command is therefore always of type "upload_json", whatever
    [transmit_type] the caller of [upload] chose, and the database ini
    file is written, and handed to the command, exactly when that
    [transmit_type] is not the empty string. *)
Theorem upload_passes_transmit_type_as_is_db ujp ms tt e ir rf ro
    (s : Store R) :
  let r := upload_asset_call [VStr ujp; py_opt ms; VStr tt]
             (upload_keywords e ir rf ro) s in
  (∀ c kwr code, EvRunCmd c kwr code ∈ events r →
     cmd_params c =
       ["upload_json"; ujp; "/"; default_speed ms; "false"; "input_bid"]
     ∧ cmd_engine c = e
     ∧ (cmd_db_ini c = None ↔ tt = ""))
  ∧ (existsb is_exists_check (events r) = negb (String.eqb tt "")).
Proof.
  cbv zeta. rewrite upload_asset_call_bound. cbv zeta.
  destruct (String.eqb_spec tt "") as [->|Hne]; cbn [negb].
  - rewrite bind_ret. unfold run_cmd, call. cbn [events]. split; [|done].
    intros c kwr code [= -> -> ->]%list_elem_of_singleton. done.
  - rewrite bind_assoc. pose proof (create_db_ini_run ujp s) as Hrun.
    cbv zeta in Hrun.
    destruct (String.eqb db_config_type "redis");
      [|destruct (String.eqb db_config_type "sqlite")].
    1,2: erewrite bind_ok by (by rewrite Hrun); rewrite Hrun;
      cbn [out store events]; rewrite bind_ret; unfold run_cmd, call;
      cbn [events]; (split; [|done]);
      intros c kwr code Hin; rewrite <-app_assoc in Hin;
      apply elem_of_cons in Hin as [[=]|Hin];
      apply elem_of_app in Hin as [Hin|Hin];
      [by destruct (os_path_exists (remote s) db_ini_dir).1;
          [apply elem_of_nil in Hin
          |apply list_elem_of_singleton in Hin]|];
      apply elem_of_cons in Hin as [[=]|Hin];
      apply list_elem_of_singleton in Hin as [= -> -> ->]; done.
    erewrite bind_raised by (by rewrite Hrun). rewrite Hrun.
    cbn [events]. split; [|done].
    intros c kwr code Hin. apply elem_of_cons in Hin as [[=]|Hin].
    by destruct (os_path_exists (remote s) db_ini_dir).1;
      [apply elem_of_nil in Hin|apply list_elem_of_singleton in Hin].
Qed.

(** X17 ([upload], the two phases).  [upload] uploads the four
    configuration files first.  When one of them cannot be uploaded the
    call raises [RayvisionError] 20004 for that file and [upload_asset] is
    not called; [upload_config] never hands back [False], so the first
    [return False] of [upload] is never taken: what [upload] returns is
    the truth value of what the decorated [upload_asset] returned. *)
Theorem upload_uploads_the_configuration_first fuel upload_retry tid tj pj
    aj uj ms tt e ir rf ro (s : Store R) :
  10 ≤ fuel →
  let rc := upload_config fuel tid [tj; pj; aj; uj] ms e s in
  let ra := upload_retry
              (upload_asset_call [VStr uj; py_opt ms; VStr tt]
                 (upload_keywords e ir rf ro)) (store rc) in
  let r := upload fuel upload_retry tid tj pj aj uj ms tt e ir rf ro s in
  (∃ cp, cp ∈ [tj; pj; aj; uj] ∧ out rc = Raise (upload_failed cp)
         ∧ r = mkResult (Raise (upload_failed cp)) (store rc) (events rc))
  ∨ (out rc = Ok true
     ∧ events r = events rc ++ events ra
     ∧ store r = store ra
     ∧ out r = match out ra with
               | Ok v => Ok (truthy v)
               | Raise x => Raise x
               | Diverge => Diverge
               end).
Proof.
  intros Hf. cbv zeta. unfold upload.
  destruct (upload_config_loop fuel tid ms e [tj; pj; aj; uj] Hf s)
    as (Ho & _).
  assert (out (upload_config fuel tid [tj; pj; aj; uj] ms e s) = Ok true
          ∨ ∃ cp, cp ∈ [tj; pj; aj; uj]
              ∧ out (upload_config fuel tid [tj; pj; aj; uj] ms e s)
                = Raise (upload_failed cp)) as [Hc|(cp & Hin & Hc)].
  { unfold upload_config. destruct Ho as [Ho|(cp & Hin & Ho)].
    - rewrite (bind_ok _ _ _ _ Ho). by left.
    - rewrite (bind_raised _ _ _ _ Ho). right. eauto. }
  - right. rewrite (bind_ok _ _ _ _ Hc). cbn [negb out store events].
    split; [done|]. unfold bind.
    destruct (out (upload_retry _ _)) as [v| |]; cbn [out store events];
      [|done..].
    destruct (truthy v); cbn; by rewrite app_nil_r.
  - left. exists cp. by rewrite (bind_raised _ _ _ _ Hc).
Qed.

(** **** The loops that remove in place do end *)

Lemma odd_positions_length {A} (l : list A) :
  length (odd_positions l) ≤ length l
  ∧ ∀ x, length (odd_positions (x :: l)) ≤ length l.
Proof.
  induction l as [|y l [IH1 IH2]]; [by split; [|intros]; cbn|].
  split; [specialize (IH2 y); cbn [length]; lia|].
  intros x. cbn [odd_positions length]. lia.
Qed.

Lemma while_tasks_drains (cycle : M R unit) :
  tame cycle →
  (∀ s, NoDup (tasks s) →
        out (cycle s) = Ok tt
        ∧ tasks (store (cycle s)) = odd_positions (tasks s)) →
  ∀ fuel (s : Store R),
    NoDup (tasks s) → length (tasks s) < fuel →
    out (while_tasks fuel cycle s) = Ok tt.
Proof.
  intros Hta Hc fuel. induction fuel as [|fuel IH]; intros s Hnd Hf; [lia|].
  cbn [while_tasks]. rewrite bind_get_tasks.
  destruct (Hc s Hnd) as [Ho Ht]. destruct (Hta s) as [_ Hsub].
  destruct (tasks s) as [|t l] eqn:E; [done|]. cbn [not_list].
  rewrite (bind_ok _ _ _ _ Ho). cbn [out].
  apply IH.
  - by eapply sublist_NoDup.
  - rewrite Ht. destruct (odd_positions_length l) as [_ Hl].
    specialize (Hl t). cbn [length] in Hf. lia.
Qed.

(** X21 (the three loops that remove in place, all tasks ready).  When
    every task is ready at every poll and every transfer returns 0, the
    loops over distinct tasks do end, although a turn removes only every
    second task: with one turn of the [while True] loop per task and one
    more to see the empty list, [auto_download_after_task_completed],
    [download_block] and [auto_download_cc_after_task_completed] return
    [True] and leave the caller's list empty. *)
Theorem removing_loops_drain_the_list fuel a st sp dt (s : Store R) :
  NoDup (tasks s) →
  length (tasks s) < fuel →
  tasks s ≠ [] →
  (∀ r t, (mt_is_task_end r t).1 = true) →
  (∀ r st, "25" ∈ (mt_get_sub_status r st).1
           ∧ ("45" ∉ (mt_get_sub_status r st).1)
           ∧ is_done (mt_get_sub_status r st).1 = true) →
  (∀ r st, "Rebuild" ∈ (mt_get_render_type r st).1
           ∧ 2 < length (mt_get_render_type r st).1) →
  (∀ r c kw, (exec_cmd r c kw).1 = 0%Z) →
  let ra := auto_download_after_task_completed fuel a st s in
  let rb := download_block fuel a st sp dt s in
  let rc := auto_download_cc_after_task_completed fuel a st dt s in
  (out ra = Ok true ∧ tasks (store ra) = [])
  ∧ (out rb = Ok true ∧ tasks (store rb) = [])
  ∧ (out rc = Ok true ∧ tasks (store rc) = []).
Proof.
  intros Hnd Hf Hne Hend Hsub Hrt Hex. cbv zeta.
  set (lp := _check_local_path (local_path a)).
  assert (∀ cycle : M R unit,
    tame cycle →
    (∀ s, NoDup (tasks s) →
          out (cycle s) = Ok tt
          ∧ tasks (store (cycle s)) = odd_positions (tasks s)) →
    let r := (let! _ := while_tasks fuel cycle in ret true) s in
    out r = Ok true ∧ tasks (store r) = []) as Hloop.
  { intros cycle Hta Hc. cbv zeta.
    pose proof (while_tasks_drains cycle Hta Hc fuel s Hnd Hf) as Ho.
    rewrite (bind_ok _ _ _ _ Ho). cbn [out store ret].
    split; [done|]. by apply while_tasks_exit. }
  split; [|split].
  - apply Hloop; [apply tame_after_cycle|].
    intros s' Hnd'. apply cycle_removing; [apply tame_after_body| |done].
    intros t s'' Hin. by apply after_body_removes.
  - unfold download_block. rewrite bind_get_tasks. unfold check_params.
    destruct (tasks s) as [|t0 l0] eqn:E; [done|]. cbn [not_list andb].
    rewrite bind_ret. apply Hloop; [apply tame_block_cycle|].
    intros s' Hnd'. apply cycle_removing; [apply tame_block_body| |done].
    intros t s'' Hin. apply block_body_removes; [|done..].
    intros r st'. by destruct (Hsub r st') as (? & ? & _).
  - apply Hloop; [apply tame_cc_cycle|].
    intros s' Hnd'. apply cycle_removing; [apply tame_cc_body| |done].
    intros t s'' Hin. apply cc_body_removes; [|done..].
    intros r st'. by destruct (Hsub r st') as (_ & ? & ?).
Qed.

(** **** [_run_cc_download] on a list *)

Lemma create_cmd_loop {A} (f : A → string) (l : list A) lp a (s : Store R) :
  for_each l (λ x, create_cmd lp a (f x)) s
  = for_each (f <$> l) (download_one lp a) s.
Proof.
  revert s. induction l as [|x l IH]; intros s; [done|].
  cbn [for_each fmap list_fmap]. unfold bind.
  change (create_cmd lp a (f x) s) with (download_one lp a (f x) s).
  destruct (out (download_one lp a (f x) s)); [|done..].
  by rewrite IH.
Qed.

(** X22 ([_run_cc_download]).  When [download_type] is the object of the
    literal "block" or "render" (the code compares by identity),
    [_run_cc_download] asks for one folder per task id, the id followed by
    "\at_result" or "\render_result", in the order of the list, without
    asking the platform; it stops at the first transfer with a non-zero
    exit code and raises [DownloadFailed] naming that folder.  For any
    other download type, [None] and a [str] that is equal to a literal
    without being its object included, it does nothing at all. *)
Theorem run_cc_download_asks_one_folder_per_task ids lp a dt (s : Store R) :
  let r := _run_cc_download ids lp a dt s in
  (∀ suffix,
     cc_suffix dt = Some suffix ↔
       (dt = Some (literal "block") ∧ suffix = "\at_result")
       ∨ (dt = Some (literal "render") ∧ suffix = "\render_result"))
  ∧ (∀ text, cc_suffix (Some (built text)) = None
             ∧ _run_cc_download ids lp a (Some (built text)) s
               = mkResult (Ok tt) s [])
  ∧ match cc_suffix dt with
    | None => r = mkResult (Ok tt) s []
    | Some suffix =>
        let folders := (λ t, str_task t +:+ suffix) <$> ids in
        forallb is_run_cmd (events r) = true
        ∧ omap event_output (events r) = take (length (events r)) folders
        ∧ ((out r = Ok tt ∧ length (events r) = length ids
            ∧ existsb run_failed (events r) = false)
           ∨ (∃ o pre e, events r = pre ++ [e] ∧ run_failed e = true
                ∧ existsb run_failed pre = false
                ∧ folders !! length pre = Some o
                ∧ out r = Raise (DownloadFailed (o +:+ " Download failed"))))
    end.
Proof.
  cbv zeta. split.
  { intros suffix. unfold cc_suffix.
    destruct (decide (dt = Some (literal "block"))) as [->|Hb].
    { split; [intros [= <-]; by left|]. by intros [[_ ->]|[[=] _]]. }
    destruct (decide (dt = Some (literal "render"))) as [->|Hr].
    { split; [intros [= <-]; by right|]. by intros [[[=] _]|[_ ->]]. }
    split; [done|]. by intros [[? _]|[? _]]. }
  split.
  { intros text. split.
    - unfold cc_suffix. by rewrite !decide_False by (by intros [=]).
    - by apply run_cc_download_not_identical. }
  unfold _run_cc_download, cc_suffix.
  assert (∀ suffix,
    let folders := (λ t, str_task t +:+ suffix) <$> ids in
    let r := for_each ids (λ t, create_cmd lp a (str_task t +:+ suffix)) s in
    forallb is_run_cmd (events r) = true
    ∧ omap event_output (events r) = take (length (events r)) folders
    ∧ ((out r = Ok tt ∧ length (events r) = length ids
        ∧ existsb run_failed (events r) = false)
       ∨ (∃ o pre e, events r = pre ++ [e] ∧ run_failed e = true
            ∧ existsb run_failed pre = false
            ∧ folders !! length pre = Some o
            ∧ out r = Raise (DownloadFailed (o +:+ " Download failed")))))
    as Hloop.
  { intros suffix. cbv zeta.
    rewrite (create_cmd_loop (λ t, str_task t +:+ suffix)).
    set (folders := (λ t, str_task t +:+ suffix) <$> ids).
    destruct (download_one_loop folders lp a s) as (_ & Hf & _).
    destruct (download_loop_trace folders lp a s)
      as (k & Hk & Hom & Hl & Ho).
    split; [done|]. rewrite Hl. split; [done|].
    destruct Ho as [(Ho & -> & Hx)|(o & pre & e & Hn & Ho & He & Hfe & Hx & _)].
    - left. unfold folders. by rewrite length_fmap.
    - right. exists o, pre, e. rewrite <-Hl, He, length_app in Hn.
      cbn in Hn.
      replace (Nat.pred (length pre + 1)) with (length pre) in Hn by lia.
      done. }
  destruct (decide (dt = Some (literal "block"))) as [Hb|Hb]; [apply Hloop|].
  destruct (decide (dt = Some (literal "render"))) as [Hr|Hr];
    [apply Hloop|done].
Qed.

End Theory.

(** ** The folders of [RayvisionUpload] *)

(** [check_transfer_log_path] leaves the state alone, the variable holding
    the folder it returns already, or sets the variable and starts one
    [setx]. *)
Lemma check_transfer_log_path_cases (P : Paths) tlp st p st' :
  path_exists P "" = false →
  check_transfer_log_path P tlp st = inr (p, st') →
  (st' = st ∧ environ st !! TRANSFER_LOG P = Some p)
  ∨ st' = mkOsState (<[TRANSFER_LOG P := p]> (environ st))
                    (setx st ++ [(TRANSFER_LOG P, p)]).
Proof.
  intros Hempty. unfold check_transfer_log_path.
  destruct (str_truthy tlp && path_exists P tlp) eqn:H1.
  - destruct (String.eqb_spec (default "" (environ st !! TRANSFER_LOG P)) tlp)
      as [Heq|Hne]; cbn [negb]; intros [= <- <-]; [left|by right].
    split; [done|]. apply andb_true_iff in H1 as [Ht _].
    destruct (environ st !! TRANSFER_LOG P) as [v|]; cbn in Heq;
      [by rewrite Heq|]. subst tlp. done.
  - destruct (path_exists P (default "" (environ st !! TRANSFER_LOG P)))
      eqn:H2.
    + intros [= <- <-]. left. split; [done|].
      destruct (environ st !! TRANSFER_LOG P) as [v|]; [done|].
      cbn in H2. congruence.
    + destruct (environ st !! (if String.eqb (local_os P) "windows"
                             then _ else _)) as [home|];
        [|intros [=]].
      intros [= <- <-]. by right.
Qed.

Lemma check_transfer_log_path_env (P : Paths) tlp st p st' :
  path_exists P "" = false →
  check_transfer_log_path P tlp st = inr (p, st') →
  environ st' !! TRANSFER_LOG P = Some p
  ∧ (∀ k, k ≠ TRANSFER_LOG P → environ st' !! k = environ st !! k).
Proof.
  intros Hempty Hrun.
  destruct (check_transfer_log_path_cases P tlp st p st' Hempty Hrun)
    as [[-> Hv]| ->]; [done|].
  cbn [environ]. rewrite lookup_insert_eq. split; [done|].
  intros k Hk. by rewrite lookup_insert_ne.
Qed.

(** X18 ([check_transfer_log_path]).  On a system where the empty path
    does not exist, whenever [check_transfer_log_path] returns a folder
    the environment variable [TRANSFER_LOG] holds that folder afterwards
    and no other variable has changed; the state is untouched or the
    variable was set and one [setx] command for it was started. *)
Theorem transfer_log_variable_holds_the_returned_folder (P : Paths) tlp st
    p st' :
  path_exists P "" = false →
  check_transfer_log_path P tlp st = inr (p, st') →
  environ st' !! TRANSFER_LOG P = Some p
  ∧ (∀ k, k ≠ TRANSFER_LOG P → environ st' !! k = environ st !! k)
  ∧ (st' = st
     ∨ st' = mkOsState (<[TRANSFER_LOG P := p]> (environ st))
                       (setx st ++ [(TRANSFER_LOG P, p)])).
Proof.
  intros Hempty Hrun.
  destruct (check_transfer_log_path_cases P tlp st p st' Hempty Hrun)
    as [[-> Hv]| ->].
  - split; [done|]. split; [done|]. by left.
  - cbn [environ]. split; [by rewrite lookup_insert_eq|].
    split; [|by right].
    intros k Hk. by rewrite lookup_insert_ne.
Qed.

(** X19 ([check_transfer_log_path], called again).  When the variable
    [TRANSFER_LOG] is not one of the two home variables and the empty
    path does not exist, a second call with the same argument returns the
    same folder and leaves the environment as the first call left it. *)
Theorem check_transfer_log_path_settles (P : Paths) tlp st p st' :
  path_exists P "" = false →
  TRANSFER_LOG P ≠ WINDOWS_LOCAL_ENV P →
  TRANSFER_LOG P ≠ LINUX_LOCAL_ENV P →
  check_transfer_log_path P tlp st = inr (p, st') →
  ∃ st'', check_transfer_log_path P tlp st' = inr (p, st'')
          ∧ environ st'' = environ st'.
Proof.
  intros Hempty Hw Hl Hrun.
  destruct (check_transfer_log_path_env P tlp st p st' Hempty Hrun)
    as (Hv & Hothers).
  revert Hrun. unfold check_transfer_log_path. rewrite Hv.
  change (default "" (Some p)) with p.
  destruct (str_truthy tlp && path_exists P tlp) eqn:H1.
  - intros Hrun.
    assert (p = tlp) as ->.
    { by destruct (negb _); injection Hrun as <- _. }
    rewrite String.eqb_refl. cbn [negb]. eauto.
  - destruct (path_exists P (default "" (environ st !! TRANSFER_LOG P)))
      eqn:H2.
    + intros [= <- <-]. rewrite H2. eauto.
    + set (var := if String.eqb (local_os P) "windows"
                  then WINDOWS_LOCAL_ENV P else LINUX_LOCAL_ENV P).
      assert (var ≠ TRANSFER_LOG P) as Hvar.
      { unfold var. by destruct (String.eqb (local_os P) "windows"). }
      rewrite (Hothers var Hvar).
      destruct (environ st !! var) as [home|]; [|intros [=]].
      intros [= <- <-]. cbn [environ].
      destruct (path_exists P (path_join P home (RENDERFARM_SDK P)));
        [by eauto|].
      eexists. split; [done|]. cbn [environ]. by rewrite insert_insert_eq.
Qed.


(** * The theorems at work, and where the specification departs *)

(** The scenario of the specification: working set [[3]], the task has
    ended, every transfer fails. *)
Lemma auto_mode_removes_ended_and_reports_failed_witness :
  let r := _auto_download_tool (C := scripted ended_failing) 2 [3%Z] 10
             "/out" default_args (start [3%Z]) in
  ended_tasks (visits_of (events r)) ≡ₚ [3%Z]
  ∧ out r = Raise (DownloadFailed "Finally tasks download failed: [3]").
Proof.
  cbv zeta.
  destruct (proj1 (proj2 (proj2
    (auto_mode_removes_ended_and_reports_failed (C := scripted ended_failing))))
    2 [3%Z] 10%Z "/out" default_args (start [3%Z]))
    as (_ & _ & Hperm & _ & Hout).
  - vm_compute. discriminate.
  - split; [exact Hperm|]. rewrite Hout. vm_compute. reflexivity.
Defined.


(** C2 as stated fails: in [auto_download_after_task_completed] the first
    failed transfer raises at once, in the first cycle, with both tasks
    still in the working set. *)
Lemma transfer_failure_is_deferred_counterexample :
  let r := auto_download_after_task_completed (C := scripted ended_failing)
             5 default_args 10 (start [1; 2]%Z) in
  out r = Raise (DownloadFailed "1 Download failed")
  ∧ tasks (store r) = [1; 2]%Z
  ∧ events r =
      [EvSleep 10; EvIsTaskEnd 1 true; EvSleep 5; EvGetTaskStatus [1%Z];
       EvOutputFileNames ["1"];
       EvRunCmd (cc_cmd "1") [("print_log", VBool true)] 1].
Proof. vm_compute. done. Qed.

Lemma transfer_failure_is_deferred_only_where_caught_witness :
  ∃ fl, fl ≠ []
    ∧ out (auto_loop (C := scripted ended_failing) 2 10 "/out" default_args
             [3%Z] [] (start [3%Z])) = Ok ([], fl)
    ∧ DownloadFailed "Finally tasks download failed: [3]"
      = DownloadFailed ("Finally tasks download failed: " +:+ str_task_list fl).
Proof.
  refine (proj1
    (transfer_failure_is_deferred_only_where_caught (C := scripted ended_failing))
    2 [3%Z] 10%Z "/out" default_args (start [3%Z]) _ _).
  vm_compute. reflexivity.
Defined.

(** C3 fails on the code: [download_block] with the default
    [download_type] removes the task and returns [True] without running
    any transfer. *)
Lemma download_block_default_type_drops_the_task :
  let r := download_block (C := scripted ready) 3 default_args 10 None None
             (start [7%Z]) in
  out r = Ok true
  ∧ tasks (store r) = []
  ∧ events r = [EvSleep 10; EvGetTaskStatus [7%Z]; EvGetSubStatus ["25"]]
  ∧ existsb is_run_cmd (events r) = false.
Proof. vm_compute. done. Qed.

(** The same call with [download_type="block"] runs the transfer first. *)
Lemma download_block_block_type_transfers_first :
  let r := download_block (C := scripted ready) 3 default_args 10 None
             (Some (literal "block")) (start [7%Z]) in
  out r = Ok true
  ∧ tasks (store r) = []
  ∧ events r = [EvSleep 10; EvGetTaskStatus [7%Z]; EvGetSubStatus ["25"];
                EvRunCmd (cc_cmd "7\at_result") [("print_log", VBool true)] 0].
Proof. vm_compute. done. Qed.

(** A [str] equal to the literal "block" that is not its object: the
    transfer is not run and the task is dropped, as with [None]. *)
Lemma download_block_equal_string_drops_the_task :
  let r := download_block (C := scripted ready) 3 default_args 10 None
             (Some (built "block")) (start [7%Z]) in
  out r = Ok true
  ∧ tasks (store r) = []
  ∧ events r = [EvSleep 10; EvGetTaskStatus [7%Z]; EvGetSubStatus ["25"]].
Proof. vm_compute. done. Qed.





(** C6 at work: ten failures, then the error; two failures, then success
    at the third attempt. *)
Lemma config_retry_gives_up_at_the_tenth_failure_witness :
  (let r := config_retry (C := scripted ended_failing) 10 config_cmd
              "/cfg/task.json" 0 (start []) in
   out r = Raise (RayvisionError 20004 "/cfg/task.json upload failed")
   ∧ length (events r) = 10)
  ∧ (let r := config_retry (C := scripted flaky) 10 config_cmd
                "/cfg/task.json" 0 (start []) in
     out r = Ok tt ∧ length (events r) = 3).
Proof.
  split.
  - destruct (proj1 (config_retry_gives_up_at_the_tenth_failure
        (C := scripted ended_failing) 10 config_cmd "/cfg/task.json"
        (start []) ltac:(lia))) as (Ho & _ & Hl).
    + intros j _. vm_compute. discriminate.
    + split; [exact Ho|exact Hl].
  - destruct (proj1 (proj2 (config_retry_gives_up_at_the_tenth_failure
        (C := scripted flaky) 10 config_cmd "/cfg/task.json"
        (start []) ltac:(lia))) 3 ltac:(lia) ltac:(lia)) as (Ho & _ & Hl).
    + intros j Hj. assert (j = 0 ∨ j = 1) as [-> | ->] by lia;
        vm_compute; discriminate.
    + vm_compute. reflexivity.
    + split; [exact Ho|exact Hl].
Defined.

(** C7 as stated fails: the poll at the visit of task 1 shows "25" and its
    transfer runs; the poll at the next visit of the same cycle shows "45"
    and the run aborts. *)
Lemma illegal_code_aborts_before_any_transfer_counterexample :
  let r := download_block (C := scripted turning_illegal) 3 default_args 10
             None (Some (literal "block")) (start [1; 2; 3]%Z) in
  out r = Raise AssertionError
  ∧ events r =
      [EvSleep 10; EvGetTaskStatus [1; 2; 3]%Z; EvGetSubStatus ["25"];
       EvRunCmd (cc_cmd "1\at_result") [("print_log", VBool true)] 0;
       EvGetTaskStatus [2; 3]%Z; EvGetSubStatus ["45"]].
Proof. vm_compute. done. Qed.

Lemma illegal_code_aborts_at_the_poll_witness :
  ∃ x, out (download_block (C := scripted turning_illegal) 3 default_args 10
              None (Some (literal "block")) (start [1; 2; 3]%Z)) = Raise x
       ∧ is_assertion x.
Proof.
  refine (proj2 (proj1 (illegal_code_aborts_at_the_poll
      (C := scripted turning_illegal) 3 default_args 10%Z None
      (Some (literal "block"))
      (start [1; 2; 3]%Z))
    [EvSleep 10; EvGetTaskStatus [1; 2; 3]%Z; EvGetSubStatus ["25"];
     EvRunCmd (cc_cmd "1\at_result") [("print_log", VBool true)] 0;
     EvGetTaskStatus [2; 3]%Z]
    (EvGetSubStatus ["45"]) [] _ _)).
  - vm_compute. reflexivity.
  - vm_compute. reflexivity.
Defined.

(** C9 as stated fails: a cycle over two tasks, none of them ready, asks
    for the status of the whole working set twice. *)
Lemma status_polled_once_per_cycle_counterexample :
  let r := block_cycle (C := scripted quiet) 10 "/out" default_args None
             (start [1; 2]%Z) in
  events r =
    [EvSleep 10; EvGetTaskStatus [1; 2]%Z; EvGetSubStatus [];
     EvGetTaskStatus [1; 2]%Z; EvGetSubStatus []]
  ∧ count_status_calls (events r) = 2
  ∧ count_status_calls (events r) ≠ 1.
Proof. vm_compute. done. Qed.

Lemma status_polled_once_per_visit_witness :
  2 ≤ count_status_calls
        (events (block_cycle (C := scripted quiet) 10 "/out" default_args
                   None (start [1; 2]%Z))).
Proof.
  refine (proj1 (proj1 (status_polled_once_per_visit (C := scripted quiet)
    10%Z "/out" default_args None (start [1; 2]%Z))) _).
  vm_compute. reflexivity.
Defined.

(** C10 as stated fails: with [is_db] among the keywords, a pool size of 0
    makes [ThreadPoolExecutor] raise before anything is submitted, and a
    keyword [upload_json_path] makes the first [submit] raise; in both
    calls no unit is submitted for the one file of the pool. *)
Lemma pool_upload_one_unit_per_file_counterexample :
  let r0 := thread_pool_upload (R := nat) ["a.json"] 0
              {["is_db" := VBool true]} (start []) in
  let r1 := thread_pool_upload (R := nat) ["a.json"] 10
              {["is_db" := VBool true; "upload_json_path" := VStr "b.json"]}
              (start []) in
  out r0 = Raise (ValueError "max_workers must be greater than 0")
  ∧ events r0 = []
  ∧ out r1 = Raise (TypeError "got multiple values for keyword argument")
  ∧ events r1 = [EvPool 10].
Proof. vm_compute. done. Qed.

(** C10 at work: two files, [is_db=True] passed by the caller. *)
Lemma pool_upload_needs_is_db_and_forces_it_off_witness :
  let kwargs : gmap string pyval := {["is_db" := VBool true]} in
  let r := thread_pool_upload (R := nat) ["a.json"; "b.json"] 10 kwargs
             (start []) in
  thread_pool_upload (R := nat) ["a.json"; "b.json"] 10 ∅ (start [])
    = mkResult (Raise (KeyError "is_db")) (start []) []
  ∧ out r = Ok tt
  ∧ (∀ kw, EvSubmit kw ∈ events r → kw !! "is_db" = Some (VBool false)).
Proof.
  cbv zeta. split.
  - apply (proj1 (pool_upload_needs_is_db_and_forces_it_off
                    (C := scripted quiet))). reflexivity.
  - destruct (proj1 (proj2 (pool_upload_needs_is_db_and_forces_it_off
        (C := scripted quiet))) ["a.json"; "b.json"] 10%Z
        ({["is_db" := VBool true]} : gmap string pyval) (VBool true)
        (start [])) as (Ho & _ & Hs).
    + vm_compute. reflexivity.
    + lia.
    + vm_compute. reflexivity.
    + split; [exact Ho|exact Hs].
Defined.

(** ** The further properties at work *)

Lemma custom_server_path_bypasses_the_task_list_witness :
  let r := _run_download (C := scripted quiet) [] "/out" default_args
             (Some (SPList ["7_scene/a"; "7_scene/b"])) (start []) in
  omap event_output (events r) = take (length (events r))
                                   ["7_scene/a"; "7_scene/b"].
Proof.
  refine (proj1 (proj2 (proj2
    (custom_server_path_bypasses_the_task_list (C := scripted quiet)
       [] "/out" default_args (Some (SPList ["7_scene/a"; "7_scene/b"]))
       (start []) _)))).
  reflexivity.
Defined.

Lemma run_download_stops_at_the_first_failed_transfer_witness :
  ∃ names runs,
    events (_run_download (C := scripted ended_failing) [1; 2]%Z "/out"
              default_args None (start [1; 2]%Z))
      = EvGetTaskStatus [1; 2]%Z :: EvOutputFileNames names :: runs
    ∧ forallb is_run_cmd runs = true.
Proof.
  destruct (run_download_stops_at_the_first_failed_transfer
    (C := scripted ended_failing) [1; 2]%Z "/out" default_args None
    (start [1; 2]%Z)) as (names & runs & He & Hf & _).
  - reflexivity.
  - exists names, runs. split; [exact He|exact Hf].
Defined.

Lemma empty_task_list_returns_at_once_witness :
  download_block (C := scripted quiet) 1 default_args 10
    (Some (SPStr "7_scene/a")) None (start [])
  = mkResult (Ok true) (start []) [].
Proof.
  refine (proj2 (proj2 (proj2
    (empty_task_list_returns_at_once (C := scripted quiet) 0 default_args
       10%Z (Some (SPStr "7_scene/a")) None (start []) _)))).
  reflexivity.
Defined.

Lemma removing_cycle_leaves_every_second_task_witness :
  tasks (store (after_cycle (C := scripted ready) 10 "/out" default_args
                  (start [1; 2; 3; 4; 5]%Z))) = [2; 4]%Z.
Proof.
  refine (proj2 (proj1
    (removing_cycle_leaves_every_second_task (C := scripted ready) 10%Z
       "/out" default_args None (start [1; 2; 3; 4; 5]%Z) _ _ _ _ _))).
  - by apply (bool_decide_unpack _).
  - reflexivity.
  - intros r st. by repeat split; apply (bool_decide_unpack _).
  - intros r st. split; [by apply (bool_decide_unpack _)|cbn; lia].
  - reflexivity.
Defined.

Lemma block_mode_retries_without_bound_witness :
  count_runs (events (download_block (C := scripted stuck) 3 default_args 10
                        None (Some (literal "block")) (start [1; 2]%Z)))
  = 3 * 2.
Proof.
  refine (proj2 (proj2 (proj1
    (block_mode_retries_without_bound (C := scripted stuck) 3 default_args
       10%Z None (Some (literal "block")) (start [1; 2]%Z)) _ _ _ _))).
  - by left.
  - intros r st. by split; apply (bool_decide_unpack _).
  - intros r c kw. cbn. lia.
  - done.
Defined.

Lemma rebuild_mode_waits_forever_without_rebuild_witness :
  out (auto_download_cc_after_task_completed (C := scripted quiet) 4
         default_args 10 (Some (literal "render")) (start [7%Z])) = Diverge.
Proof.
  refine (proj1
    (rebuild_mode_waits_forever_without_rebuild (C := scripted quiet) 4
       default_args 10%Z (Some (literal "render")) (start [7%Z]) _ _ _)).
  - intros r st. cbn. apply not_elem_of_nil.
  - intros r st. cbn. right. lia.
  - done.
Defined.

Lemma auto_mode_downloads_unended_tasks_every_turn_witness :
  out (auto_download (C := scripted quiet) 3 default_args 10
         (start [1; 2]%Z)) = Diverge.
Proof.
  refine (proj1
    (auto_mode_downloads_unended_tasks_every_turn (C := scripted quiet) 3
       default_args 10%Z (start [1; 2]%Z) _ _)).
  - reflexivity.
  - done.
Defined.

Lemma completion_depends_on_the_set_of_codes_witness :
  is_done ["25"; "30"; "25"; "30"] = is_done ["30"; "25"].
Proof.
  refine (proj1 (completion_depends_on_the_set_of_codes
                   ["25"; "30"; "25"; "30"] ["30"; "25"] _)).
  intros x. rewrite !elem_of_cons, !elem_of_nil. tauto.
Defined.

Lemma upload_config_returns_true_or_names_a_file_witness :
  count_runs (events (upload_config (C := scripted ended_failing) 10 "7"
                        ["/cfg/task.json"; "/cfg/tips.json"] None
                        default_engine (start []))) ≤ 10 * 2.
Proof.
  refine (proj2 (proj2
    (upload_config_returns_true_or_names_a_file (C := scripted ended_failing)
       10 "7" ["/cfg/task.json"; "/cfg/tips.json"] None default_engine
       (start []) _))).
  lia.
Defined.

Lemma upload_config_skips_missing_files_witness :
  out (upload_config (C := scripted no_files) 0 "7"
         ["/cfg/task.json"; "/cfg/upload.json"] None default_engine
         (start [])) = Ok true.
Proof.
  refine (proj1
    (upload_config_skips_missing_files (C := scripted no_files) 0 "7"
       ["/cfg/task.json"; "/cfg/upload.json"] None default_engine
       (start []) _)).
  reflexivity.
Defined.

Lemma upload_config_stops_at_the_first_exhausted_file_witness :
  out (upload_config (C := scripted ended_failing) 10 "7"
         ([] ++ "/cfg/task.json" :: ["/cfg/tips.json"]) None default_engine
         (start [])) = Raise (upload_failed "/cfg/task.json").
Proof.
  refine (proj1
    (upload_config_stops_at_the_first_exhausted_file
       (C := scripted ended_failing) 10 "7" [] "/cfg/task.json"
       ["/cfg/tips.json"] None default_engine (start []) _ _ _ _)).
  - lia.
  - intros r p Hp. by apply elem_of_nil in Hp.
  - reflexivity.
  - intros r c kw. cbn. lia.
Defined.

Lemma upload_asset_writes_the_ini_before_the_transfer_witness :
  (∃ m, out (upload_asset (C := scripted mysql_db)
               {["upload_json_path" := VStr "/t/upload.json"]} (start []))
        = Raise (UnsupportedDatabaseError m)).
Proof.
  refine (proj1
    (upload_asset_writes_the_ini_before_the_transfer (C := scripted mysql_db)
       {["upload_json_path" := VStr "/t/upload.json"]} "/t/upload.json"
       (start []) _ _ _)).
  - intros k Hk. apply elem_of_dom in Hk as [x Hk].
    apply lookup_singleton_Some in Hk as [<- _].
    by apply (bool_decide_unpack _).
  - reflexivity.
  - reflexivity.
Defined.

Lemma pool_upload_fails_before_the_first_submit_witness :
  events (thread_pool_upload (R := nat) ["a.json"] 10
            {["is_db" := VBool true; "upload_json_path" := VStr "b.json"]}
            (start [])) = [EvPool 10].
Proof.
  refine (proj1 (proj2 (proj2
    (pool_upload_fails_before_the_first_submit (R := nat)
       ["a.json"] 10%Z
       {["is_db" := VBool true; "upload_json_path" := VStr "b.json"]}
       (VBool true) (start []) _) _ _ _))).
  - reflexivity.
  - lia.
  - by eexists.
  - done.
Defined.

Lemma upload_uploads_the_configuration_first_witness :
  let plain : M nat Z → M nat pyval := λ m, let! code := m in ret (VInt code) in
  let rc := upload_config (C := scripted ended_failing) 10 "7"
              ["/t/task.json"; "/t/tips.json"; "/t/asset.json";
               "/t/upload.json"] None default_engine (start []) in
  let r := upload (C := scripted ended_failing) 10 plain "7" "/t/task.json"
             "/t/tips.json" "/t/asset.json" "/t/upload.json" None
             "upload_json" default_engine (VBool false) VNone VNone
             (start []) in
  (∃ cp, out rc = Raise (upload_failed cp)
         ∧ r = mkResult (Raise (upload_failed cp)) (store rc) (events rc))
  ∨ out rc = Ok true.
Proof.
  cbv zeta.
  destruct (upload_uploads_the_configuration_first
    (C := scripted ended_failing) 10
    (λ m, let! code := m in ret (VInt code)) "7" "/t/task.json"
    "/t/tips.json" "/t/asset.json" "/t/upload.json" None "upload_json"
    default_engine (VBool false) VNone VNone (start []))
    as [(cp & _ & Ho & Hr)|(Ho & _)].
  - lia.
  - left. exists cp. split; [exact Ho|exact Hr].
  - right. exact Ho.
Defined.

Lemma transfer_log_variable_holds_the_returned_folder_witness :
  environ (mkOsState (<["TRANSFER_LOG" := "/home/user/renderfarm_sdk"]>
                        (environ fresh_login))
                     [("TRANSFER_LOG", "/home/user/renderfarm_sdk")])
    !! TRANSFER_LOG linux_box = Some "/home/user/renderfarm_sdk".
Proof.
  refine (proj1 (transfer_log_variable_holds_the_returned_folder linux_box ""
    fresh_login "/home/user/renderfarm_sdk" _ _ _)).
  - reflexivity.
  - reflexivity.
Defined.

Lemma check_transfer_log_path_settles_witness :
  ∃ st'',
    check_transfer_log_path linux_box "/var/log/transfer"
      (mkOsState (<["TRANSFER_LOG" := "/var/log/transfer"]>
                    (environ fresh_login))
                 [("TRANSFER_LOG", "/var/log/transfer")])
    = inr ("/var/log/transfer", st'').
Proof.
  destruct (check_transfer_log_path_settles linux_box "/var/log/transfer"
    fresh_login "/var/log/transfer"
    (mkOsState (<["TRANSFER_LOG" := "/var/log/transfer"]>
                  (environ fresh_login))
               [("TRANSFER_LOG", "/var/log/transfer")]))
    as (st'' & Hrun & _).
  - reflexivity.
  - done.
  - done.
  - reflexivity.
  - exists st''. exact Hrun.
Defined.

Lemma removing_loops_drain_the_list_witness :
  out (auto_download_after_task_completed (C := scripted ready) 4
         default_args 10 (start [1; 2; 3]%Z)) = Ok true.
Proof.
  refine (proj1 (proj1
    (removing_loops_drain_the_list (C := scripted ready) 4 default_args 10%Z
       None None (start [1; 2; 3]%Z) _ _ _ _ _ _ _))).
  - by apply (bool_decide_unpack _).
  - cbn. lia.
  - done.
  - reflexivity.
  - intros r st. by repeat split; apply (bool_decide_unpack _).
  - intros r st. split; [by apply (bool_decide_unpack _)|cbn; lia].
  - reflexivity.
Defined.
